(** * Synapse learning platform: orchestration, authentication, ORM
      constraints and analytics, as a shallow embedding of the TypeScript
      and JavaScript sources.

    Conventions of the embedding.
    - A JavaScript object property that may be missing is an [option];
      [None] is [undefined] (or [null] where the source stores one).
    - A [Promise] that resolves or rejects is an [Outcome]: [Returned v]
      or [Threw msg], where [msg] is the [message] of the thrown [Error].
      Every [await] in the modelled code is sequential, so asynchrony adds
      nothing to the control flow.
    - [new Date()] and [Date.now()] read a clock kept in the state, in
      milliseconds.
    - Text is [string] (a sequence of bytes); the ASCII letters are the
      only ones [toLowerCase] changes. *)

From Stdlib Require Import ZArith QArith String Ascii List Bool Lia.
From stdpp Require Import base option gmap strings list pretty.

Set Warnings "-register-all".

Local Open Scope string_scope.
Local Open Scope bool_scope.

(* ===================================================================== *)
(** ** JavaScript text primitives *)
(* ===================================================================== *)

Module Text.

(** [String.prototype.toLowerCase], on the ASCII range. *)
Definition lower_ascii (c : ascii) : ascii :=
  let n := nat_of_ascii c in
  if (65 <=? n)%nat && (n <=? 90)%nat then ascii_of_nat (n + 32) else c.

Fixpoint toLowerCase (s : string) : string :=
  match s with
  | EmptyString => EmptyString
  | String c r => String (lower_ascii c) (toLowerCase r)
  end.

(** [s.startsWith(p)]. *)
Fixpoint startsWith (p s : string) : bool :=
  match p, s with
  | EmptyString, _ => true
  | String _ _, EmptyString => false
  | String a p', String b s' => Ascii.eqb a b && startsWith p' s'
  end.

(** [s.includes(kw)]: [kw] occurs at some offset of [s]. *)
Fixpoint includes (s kw : string) : bool :=
  startsWith kw s ||
  match s with
  | EmptyString => false
  | String _ r => includes r kw
  end.

(** The relation [includes] decides. *)
Definition Substring (kw s : string) : Prop :=
  exists pre post, s = pre +:+ kw +:+ post.

(** [s.split(sep)] for a one-character separator: the pieces between
    the separators, empty pieces included. *)
Fixpoint split_on (sep : ascii) (s : string) : list string :=
  match s with
  | EmptyString => [EmptyString]
  | String c r =>
      if Ascii.eqb c sep then EmptyString :: split_on sep r
      else match split_on sep r with
           | [] => [String c EmptyString]
           | piece :: rest => String c piece :: rest
           end
  end.

(** JavaScript truthiness of a string that may be [undefined]. *)
Definition truthy (o : option string) : bool :=
  match o with
  | Some (String _ _) => true
  | _ => false
  end.

End Text.

(* ===================================================================== *)
(** ** JSON values and [JSON.parse] *)
(* ===================================================================== *)

Module Json.

(** A JSON value. A number keeps its literal (no floating-point
    conversion); a string keeps the text between its quotes, escape
    sequences checked but left as written. *)
Inductive json : Type :=
| JNull
| JBool (b : bool)
| JNum (literal : string)
| JStr (body : string)
| JArr (items : list json)
| JObj (members : list (string * json)).

(** [Array.isArray]. *)
Definition isArray (v : json) : bool :=
  match v with JArr _ => true | _ => false end.

(** The double-quote character. *)
Definition dquote : ascii := ascii_of_nat 34.

Definition is_ws (c : ascii) : bool :=
  let n := nat_of_ascii c in
  (n =? 32)%nat || (n =? 9)%nat || (n =? 10)%nat || (n =? 13)%nat.

Definition is_digit (c : ascii) : bool :=
  let n := nat_of_ascii c in (48 <=? n)%nat && (n <=? 57)%nat.

Definition is_hex (c : ascii) : bool :=
  let n := nat_of_ascii c in
  is_digit c || ((65 <=? n)%nat && (n <=? 70)%nat)
             || ((97 <=? n)%nat && (n <=? 102)%nat).

Fixpoint skip_ws (s : string) : string :=
  match s with
  | String c r => if is_ws c then skip_ws r else s
  | EmptyString => s
  end.

(** Remove the literal [lit] from the front of [s]. *)
Fixpoint eat (lit s : string) : option string :=
  match lit, s with
  | EmptyString, _ => Some s
  | String a lit', String b s' => if Ascii.eqb a b then eat lit' s' else None
  | String _ _, EmptyString => None
  end.

(** The longest run of digits at the front of [s], and what follows. *)
Fixpoint scan_digits (s : string) : string * string :=
  match s with
  | String c r =>
      if is_digit c then let '(d, r') := scan_digits r in (String c d, r')
      else (EmptyString, s)
  | EmptyString => (EmptyString, s)
  end.

Definition nonempty (s : string) : bool :=
  match s with EmptyString => false | String _ _ => true end.

(** number = [-] int [frac] [exp], int without a leading zero. *)
Definition scan_int (s : string) : option (string * string) :=
  match s with
  | String "0" r => Some ("0", r)
  | _ => let '(d, r) := scan_digits s in
         if nonempty d then Some (d, r) else None
  end.

Definition scan_frac (s : string) : option (string * string) :=
  match s with
  | String "." r =>
      let '(d, r') := scan_digits r in
      if nonempty d then Some (String "." d, r') else None
  | _ => Some (EmptyString, s)
  end.

Definition scan_exp (s : string) : option (string * string) :=
  match s with
  | String c r =>
      if Ascii.eqb c "e" || Ascii.eqb c "E" then
        let '(sign, r1) :=
          match r with
          | String x r' =>
              if Ascii.eqb x "+" || Ascii.eqb x "-"
              then (String x EmptyString, r') else (EmptyString, r)
          | EmptyString => (EmptyString, r)
          end in
        let '(d, r2) := scan_digits r1 in
        if nonempty d then Some (String c (sign +:+ d), r2) else None
      else Some (EmptyString, s)
  | EmptyString => Some (EmptyString, s)
  end.

Definition scan_number (s : string) : option (string * string) :=
  let '(sign, s1) :=
    match s with
    | String "-" r => ("-", r)
    | _ => (EmptyString, s)
    end in
  '(i, s2) ← scan_int s1;
  '(f, s3) ← scan_frac s2;
  '(e, s4) ← scan_exp s3;
  Some (sign +:+ i +:+ f +:+ e, s4).

Definition is_simple_escape (c : ascii) : bool :=
  existsb (Ascii.eqb c) [dquote; "\"; "/"; "b"; "f"; "n"; "r"; "t"]%char.

(** The text of a string literal after its opening quote, up to the
    closing quote. Control characters must be escaped. *)
Fixpoint scan_string (s : string) : option (string * string) :=
  match s with
  | EmptyString => None
  | String c r =>
      if Ascii.eqb c dquote then Some (EmptyString, r)
      else if Ascii.eqb c "\" then
        match r with
        | String e r1 =>
            if is_simple_escape e then
              '(body, rest) ← scan_string r1;
              Some (String c (String e body), rest)
            else if Ascii.eqb e "u" then
              match r1 with
              | String h1 (String h2 (String h3 (String h4 r2))) =>
                  if is_hex h1 && is_hex h2 && is_hex h3 && is_hex h4 then
                    '(body, rest) ← scan_string r2;
                    Some (String c (String e (String h1 (String h2
                            (String h3 (String h4 body))))), rest)
                  else None
              | _ => None
              end
            else None
        | EmptyString => None
        end
      else if (nat_of_ascii c <? 32)%nat then None
      else '(body, rest) ← scan_string r; Some (String c body, rest)
  end.

(** Recursive descent with a step budget: every nested call of
    [parse_value] comes after at least one consumed character. *)
Fixpoint parse_value (fuel : nat) (s : string) : option (json * string) :=
  match fuel with
  | O => None
  | S fuel =>
      match skip_ws s with
      | EmptyString => None
      | String c r as t =>
          if Ascii.eqb c "n" then r' ← eat "null" t; Some (JNull, r')
          else if Ascii.eqb c "t" then r' ← eat "true" t; Some (JBool true, r')
          else if Ascii.eqb c "f" then r' ← eat "false" t; Some (JBool false, r')
          else if Ascii.eqb c dquote then
            '(body, r') ← scan_string r; Some (JStr body, r')
          else if Ascii.eqb c "[" then
            match skip_ws r with
            | String "]" r' => Some (JArr [], r')
            | _ => '(items, r') ← parse_items fuel r; Some (JArr items, r')
            end
          else if Ascii.eqb c "{" then
            match skip_ws r with
            | String "}" r' => Some (JObj [], r')
            | _ => '(members, r') ← parse_members fuel r; Some (JObj members, r')
            end
          else '(lit, r') ← scan_number t; Some (JNum lit, r')
      end
  end
with parse_items (fuel : nat) (s : string) : option (list json * string) :=
  match fuel with
  | O => None
  | S fuel =>
      '(v, r) ← parse_value fuel s;
      match skip_ws r with
      | String "," r' => '(vs, r'') ← parse_items fuel r'; Some (v :: vs, r'')
      | String "]" r' => Some ([v], r')
      | _ => None
      end
  end
with parse_members (fuel : nat) (s : string)
    : option (list (string * json) * string) :=
  match fuel with
  | O => None
  | S fuel =>
      match skip_ws s with
      | String q r =>
          if Ascii.eqb q dquote then
            '(key, r1) ← scan_string r;
            match skip_ws r1 with
            | String ":" r2 =>
                '(v, r3) ← parse_value fuel r2;
                match skip_ws r3 with
                | String "," r4 =>
                    '(ms, r5) ← parse_members fuel r4;
                    Some ((key, v) :: ms, r5)
                | String "}" r4 => Some ([(key, v)], r4)
                | _ => None
                end
            | _ => None
            end
          else None
      | EmptyString => None
      end
  end.

(** [JSON.parse(text)]: [None] stands for the [SyntaxError] it throws. *)
Definition JSON_parse (text : string) : option json :=
  '(v, r) ← parse_value (2 * String.length text + 2) text;
  match skip_ws r with
  | EmptyString => Some v
  | String _ _ => None
  end.

End Json.


(* ===================================================================== *)
(** ** Promises that resolve or reject *)
(* ===================================================================== *)

(** The result of awaiting a promise: the value it resolves to, or the
    [message] of the [Error] it rejects with. *)
Inductive Outcome (A : Type) : Type :=
| Returned (value : A)
| Threw (message : string).
Arguments Returned {A} value.
Arguments Threw {A} message.

(* ===================================================================== *)
(** ** src/services/AgentOrchestrator.ts *)
(* ===================================================================== *)

Module Orchestrator.
Import Text Json.

(** [AgentType] of src/types. *)
Inductive AgentType : Set :=
| CONTENT_CURATOR
| LEARNING_STRATEGIST
| PRACTICE_COACH
| RESEARCH_ASSISTANT
| CONVERSATION_COACH.

(** The string an [AgentType] is at run time. *)
Definition AgentType_text (a : AgentType) : string :=
  match a with
  | CONTENT_CURATOR => "CONTENT_CURATOR"
  | LEARNING_STRATEGIST => "LEARNING_STRATEGIST"
  | PRACTICE_COACH => "PRACTICE_COACH"
  | RESEARCH_ASSISTANT => "RESEARCH_ASSISTANT"
  | CONVERSATION_COACH => "CONVERSATION_COACH"
  end.

#[global] Instance AgentType_eq_dec : EqDecision AgentType.
Proof. solve_decision. Defined.

Definition AgentType_code (a : AgentType) : nat :=
  match a with
  | CONTENT_CURATOR => 0 | LEARNING_STRATEGIST => 1 | PRACTICE_COACH => 2
  | RESEARCH_ASSISTANT => 3 | CONVERSATION_COACH => 4
  end.

Definition AgentType_of_code (n : nat) : option AgentType :=
  match n with
  | 0 => Some CONTENT_CURATOR | 1 => Some LEARNING_STRATEGIST
  | 2 => Some PRACTICE_COACH | 3 => Some RESEARCH_ASSISTANT
  | 4 => Some CONVERSATION_COACH | _ => None
  end.

#[global] Program Instance AgentType_countable : Countable AgentType :=
  inj_countable AgentType_code AgentType_of_code _.
Next Obligation. by intros []. Defined.

(** The column [status] of an agent session. *)
Inductive SessionStatus : Set := ACTIVE | COMPLETED | FAILED | TIMEOUT.

(** A row of the table [agent_sessions] (models/AgentSession.js). The
    bookkeeping columns [createdAt] and [updatedAt] are left out; [cost]
    is the DECIMAL(10,6) column counted in millionths. *)
Record AgentSessionRow : Type := {
  id : nat;
  userId : string;
  agentType : AgentType;
  sessionId : string;
  context : json;
  messages : list json;
  status : SessionStatus;
  startTime : option Z;
  endTime : option Z;
  executionTimeMs : option Z;
  tokensUsed : Z;
  cost : Z;
  resultData : json;
  errorMessage : option string;
  metadata : json
}.

(** The object literal passed to [AgentSessionModel.update]. *)
Record SessionUpdate : Type := {
  set_status : option SessionStatus;
  set_resultData : option json;
  set_errorMessage : option string;
  set_endTime : option Z
}.

(** A method call on a registered agent, with the object literal the
    orchestrator passes. *)
Inductive Call : Type :=
| CallProcessContent (content : option string)
    (userId sessionId : string) (source : option string)
| CallGeneratePath (userProfile : option json) (completedTopics : option json)
    (targetRole : option string) (timeframe : option Z) (sessionId : string)
| CallGenerateScenario (topicId difficulty : option string)
    (userProfile : option json) (scenarioType : option string)
    (sessionId : string)
| CallConductResearch (query : option string) (topics : option (list string))
    (depth : string) (sessionId : string)
| CallProcessChat (message : option string) (topicId : option string)
    (context : option json) (userId sessionId : string).

(** A registered agent: what a call made at a given time resolves to,
    and the time when it does. Agents hold no reference to the
    orchestrator or to its session table. *)
Abbreviation Agent := (Call -> Z -> Outcome json * Z)%type.

(** The orchestrator with the store and the environment it reads. *)
Record System : Type := {
  agents : gmap AgentType Agent;
  sessions : gmap nat AgentSessionRow;
  clock : Z;
  draws : nat;
  random : nat -> string
}.

Definition with_agents (f : gmap AgentType Agent -> gmap AgentType Agent)
    (s : System) : System :=
  {| agents := f (agents s); sessions := sessions s; clock := clock s;
     draws := draws s; random := random s |}.

Definition with_sessions
    (f : gmap nat AgentSessionRow -> gmap nat AgentSessionRow)
    (s : System) : System :=
  {| agents := agents s; sessions := f (sessions s); clock := clock s;
     draws := draws s; random := random s |}.

Definition with_clock (t : Z) (s : System) : System :=
  {| agents := agents s; sessions := sessions s; clock := t;
     draws := draws s; random := random s |}.

Definition with_draw (s : System) : System :=
  {| agents := agents s; sessions := sessions s; clock := clock s;
     draws := S (draws s); random := random s |}.

(** [registerAgent]. *)
Definition registerAgent (type : AgentType) (agent : Agent) (s : System)
    : System :=
  with_agents (insert type agent) s.

(** The [data] object of a request: every property may be missing. *)
Record RequestData : Type := {
  content : option string;
  source : option string;
  userProfile : option json;
  completedTopics : option json;
  targetRole : option string;
  timeframe : option Z;
  topicId : option string;
  difficulty : option string;
  scenarioType : option string;
  query : option string;
  topics : option (list string);
  depth : option string;
  message : option string;
  chatContext : option json;
  preferredAgent : option AgentType
}.

Record LearningRequest : Type := {
  type : string;
  data : RequestData
}.

(** An object literal: properties whose value is [undefined] vanish
    when the object is stored as JSON. *)
Definition obj (fields : list (string * option json)) : json :=
  JObj (omap (fun '(k, v) => pair k <$> v) fields).

Definition JInt (z : Z) : json := JNum (pretty z).

(** [generateSessionId]: the template
    [session_${Date.now()}_${Math.random().toString(36).substr(2, 9)}],
    the random part drawn from the environment. *)
Definition generateSessionId (s : System) : string * System :=
  ("session_" +:+ pretty (clock s) +:+ "_" +:+ random s (draws s),
   with_draw s).

(** The primary key the store gives a new row: one not in use. *)
Definition new_key (m : gmap nat AgentSessionRow) : nat :=
  fresh (dom m).

(** [createAgentSession]: the table takes the row. *)
Definition createAgentSession
    (userId0 : string) (agentType0 : AgentType) (sessionId0 : string)
    (context0 : json) (s : System) : AgentSessionRow * System :=
  let row := {|
    id := new_key (sessions s);
    userId := userId0;
    agentType := agentType0;
    sessionId := sessionId0;
    context := context0;
    messages := [];
    status := ACTIVE;
    startTime := Some (clock s);
    endTime := None;
    executionTimeMs := None;
    tokensUsed := 0;
    cost := 0;
    resultData := JObj [];
    errorMessage := None;
    metadata := JObj []
  |} in
  (row, with_sessions (insert (id row) row) s).

Definition apply_update (u : SessionUpdate) (r : AgentSessionRow)
    : AgentSessionRow := {|
  id := id r;
  userId := userId r;
  agentType := agentType r;
  sessionId := sessionId r;
  context := context r;
  messages := messages r;
  status := default (status r) (set_status u);
  startTime := startTime r;
  endTime := match set_endTime u with Some t => Some t | None => endTime r end;
  executionTimeMs := executionTimeMs r;
  tokensUsed := tokensUsed r;
  cost := cost r;
  resultData := default (resultData r) (set_resultData u);
  errorMessage :=
    match set_errorMessage u with
    | Some m => Some m
    | None => errorMessage r
    end;
  metadata := metadata r
|}.

(** [updateAgentSession]: [update(updates, { where: { id } })]. *)
Definition updateAgentSession (key : nat) (u : SessionUpdate) (s : System)
    : System :=
  with_sessions (alter (apply_update u) key) s.

(** The body of the [try] block the five handlers share: look the
    agent up, throw when there is none, call it; the clock moves to the
    time the call is over. *)
Definition call_agent (type : AgentType) (missing : string) (c : Call)
    (s : System) : Outcome json * System :=
  match agents s !! type with
  | None => (Threw missing, s)
  | Some agent =>
      let '(o, t) := agent c (clock s) in (o, with_clock t s)
  end.

(** The end of the [try] block and the [catch] block: the update of
    the session record on success and on failure; the error is thrown
    again. *)
Definition settle (key : nat) (resultField : string)
    (r : Outcome json * System) : Outcome json * System :=
  let '(o, s) := r in
  match o with
  | Returned v =>
      (Returned v,
       updateAgentSession key
         {| set_status := Some COMPLETED;
            set_resultData := Some (JObj [(resultField, v)]);
            set_errorMessage := None;
            set_endTime := Some (clock s) |} s)
  | Threw msg =>
      (Threw msg,
       updateAgentSession key
         {| set_status := Some FAILED;
            set_resultData := None;
            set_errorMessage := Some msg;
            set_endTime := Some (clock s) |} s)
  end.

(** [processNewsletter]. *)
Definition processNewsletter (uid : string) (d : RequestData) (s : System)
    : Outcome json * System :=
  let '(sid, s1) := generateSessionId s in
  let '(session, s2) :=
    createAgentSession uid CONTENT_CURATOR sid
      (obj [("source", JStr <$> source d)]) s1 in
  settle (id session) "topics"
    (call_agent CONTENT_CURATOR "Content Curator Agent not available"
       (CallProcessContent (content d) uid sid (source d)) s2).

(** [generateLearningPath]. *)
Definition generateLearningPath (uid : string) (d : RequestData) (s : System)
    : Outcome json * System :=
  let '(sid, s1) := generateSessionId s in
  let '(session, s2) :=
    createAgentSession uid LEARNING_STRATEGIST sid
      (obj [("targetRole", JStr <$> targetRole d);
            ("timeframe", JInt <$> timeframe d)]) s1 in
  settle (id session) "learningPath"
    (call_agent LEARNING_STRATEGIST "Learning Strategist Agent not available"
       (CallGeneratePath (userProfile d) (completedTopics d)
          (targetRole d) (timeframe d) sid) s2).

(** [generatePracticeScenario]. *)
Definition generatePracticeScenario (uid : string) (d : RequestData)
    (s : System) : Outcome json * System :=
  let '(sid, s1) := generateSessionId s in
  let '(session, s2) :=
    createAgentSession uid PRACTICE_COACH sid
      (obj [("topicId", JStr <$> topicId d);
            ("difficulty", JStr <$> difficulty d)]) s1 in
  settle (id session) "scenario"
    (call_agent PRACTICE_COACH "Practice Coach Agent not available"
       (CallGenerateScenario (topicId d) (difficulty d) (userProfile d)
          (scenarioType d) sid) s2).

(** [processResearchQuery]; [data.depth || 'detailed']. *)
Definition processResearchQuery (uid : string) (d : RequestData) (s : System)
    : Outcome json * System :=
  let '(sid, s1) := generateSessionId s in
  let '(session, s2) :=
    createAgentSession uid RESEARCH_ASSISTANT sid
      (obj [("query", JStr <$> query d);
            ("topics", (fun l => JArr (JStr <$> l)) <$> topics d)]) s1 in
  settle (id session) "research"
    (call_agent RESEARCH_ASSISTANT "Research Assistant Agent not available"
       (CallConductResearch (query d) (topics d)
          (if truthy (depth d) then default "detailed" (depth d)
           else "detailed") sid) s2).

(** [determineOptimalAgent]; its parameter type makes [message] a
    string. *)
Definition determineOptimalAgent (message0 : string) : AgentType :=
  let message := toLowerCase message0 in
  if includes message "practice" || includes message "scenario"
     || includes message "exercise" then PRACTICE_COACH
  else if includes message "research" || includes message "latest"
     || includes message "trends" then RESEARCH_ASSISTANT
  else if includes message "path" || includes message "roadmap"
     || includes message "plan" then LEARNING_STRATEGIST
  else if includes message "newsletter" || includes message "article"
     || includes message "content" then CONTENT_CURATOR
  else CONVERSATION_COACH.

(** What [data.message.toLowerCase()] throws when there is no
    message. *)
Definition no_message_error : string :=
  "Cannot read properties of undefined (reading 'toLowerCase')".

(** [data.preferredAgent || this.determineOptimalAgent(data)]: every
    [AgentType] is a non-empty string, hence truthy; the scan runs only
    when no agent is named, and needs a message then. *)
Definition chooseAgent (d : RequestData) : Outcome AgentType :=
  match preferredAgent d with
  | Some a => Returned a
  | None =>
      match message d with
      | Some m => Returned (determineOptimalAgent m)
      | None => Threw no_message_error
      end
  end.

(** [processChatRequest]. The agent is chosen before the session is
    created and outside the [try] block. *)
Definition processChatRequest (uid : string) (d : RequestData) (s : System)
    : Outcome json * System :=
  let '(sid, s1) := generateSessionId s in
  match chooseAgent d with
  | Threw msg => (Threw msg, s1)
  | Returned agentType0 =>
      let '(session, s2) :=
        createAgentSession uid agentType0 sid
          (obj [("topicId", JStr <$> topicId d);
                ("originalMessage", JStr <$> message d)]) s1 in
      settle (id session) "response"
        (call_agent agentType0
           (AgentType_text agentType0 +:+ " Agent not available")
           (CallProcessChat (message d) (topicId d) (chatContext d) uid sid)
           s2)
  end.

(** [processLearningRequest]: the [switch] on the type tag; its
    [catch] logs and rethrows. *)
Definition processLearningRequest (uid : string) (request : LearningRequest)
    (s : System) : Outcome json * System :=
  if String.eqb (type request) "NEWSLETTER_PROCESSING" then
    processNewsletter uid (data request) s
  else if String.eqb (type request) "LEARNING_PATH_GENERATION" then
    generateLearningPath uid (data request) s
  else if String.eqb (type request) "PRACTICE_SCENARIO" then
    generatePracticeScenario uid (data request) s
  else if String.eqb (type request) "RESEARCH_QUERY" then
    processResearchQuery uid (data request) s
  else if String.eqb (type request) "CHAT" then
    processChatRequest uid (data request) s
  else (Threw ("Unknown request type: " +:+ type request), s).

End Orchestrator.

(* ===================================================================== *)
(** ** src/agents/BaseAgent.ts and src/agents/ContentCuratorAgent.ts *)
(* ===================================================================== *)

Module Agents.
Import Text Json.

Definition newline : string := String (ascii_of_nat 10) EmptyString.

(** The prompt of [ContentCuratorAgent.processContent]. *)
Definition extractionPrompt : string := "
Analyze the following content and extract 2-3 key AI/technology concepts that would be valuable for business professionals to learn.

For each concept, provide a JSON object with:
- title: Clear, concise title (under 60 characters)
- category: One of [AI_FUNDAMENTALS, MACHINE_LEARNING, NLP, COMPUTER_VISION, ETHICS, BUSINESS_AI, TOOLS, TRENDS]
- difficulty: [Beginner, Intermediate, Advanced]
- estimatedTimeMinutes: Realistic time to understand (10-30 minutes)
- definition: One clear sentence definition
- explanation: 2-3 paragraph explanation for non-technical professionals
- whyItMatters: Business relevance and importance
- realWorldExample: Specific, concrete example from a real company or use case
- tags: 3-5 relevant keywords

Return only a JSON array of topic objects. No additional text.
      ".

Section Agent.
(** The completion API: from the message list (role, content) to
    [choices[0].message.content], or the error of the call. *)
Variable complete : list (string * string) -> Outcome (option string).
Variable systemPrompt : string.

(** The topic table and [createTopicInDatabase] with its metadata
    (source, creator). *)
Context {Db : Type}.
Variable createTopicInDatabase :
  json -> option string -> string -> Db -> Outcome json * Db.

(** [BaseAgent.generateResponse], the text of the reply only (token
    and cost figures are not used by the callers modelled here). *)
Definition generateResponse (messages : list (string * string))
    : Outcome string :=
  match complete (("system", systemPrompt) :: messages) with
  | Returned c => Returned (default EmptyString c)
  | Threw m => Threw ("AI response generation failed: " +:+ m)
  end.

(** [BaseAgent.extractInformation]. The string of the fallback
    object is the reply as it came. *)
Definition extractInformation (text extraction : string) : Outcome json :=
  match generateResponse
          [("user", extraction +:+ newline +:+ newline
                    +:+ "Text to analyze:" +:+ newline +:+ text)] with
  | Threw m => Threw m
  | Returned reply =>
      match JSON_parse reply with
      | Some v => Returned v
      | None => Returned (JObj [("content", JStr reply)])
      end
  end.

(** [BaseAgent.validateRequired], on the truthiness of each field. *)
Fixpoint validateRequired (fields : list (string * bool)) : Outcome unit :=
  match fields with
  | [] => Returned tt
  | (name, present) :: rest =>
      if present then validateRequired rest
      else Threw ("Missing required field: " +:+ name)
  end.

(** The [for] loop of [processContent]. *)
Fixpoint createTopics (items : list json) (source : option string)
    (userId : string) (acc : list json) (db : Db) : Outcome json * Db :=
  match items with
  | [] => (Returned (JArr (rev acc)), db)
  | topicData :: rest =>
      match createTopicInDatabase topicData source userId db with
      | (Threw m, db') => (Threw m, db')
      | (Returned topic, db') =>
          createTopics rest source userId (topic :: acc) db'
      end
  end.

(** [ContentCuratorAgent.processContent]; its [catch] logs and
    rethrows. *)
Definition processContent (content : option string)
    (userId sessionId : string) (source : option string) (db : Db)
    : Outcome json * Db :=
  match validateRequired [("userId", truthy (Some userId));
                          ("sessionId", truthy (Some sessionId))] with
  | Threw m => (Threw m, db)
  | Returned _ =>
      match content with
      | None =>
          (Threw "Cannot read properties of undefined (reading 'length')",
           db)
      | Some text =>
          match extractInformation text extractionPrompt with
          | Threw m => (Threw m, db)
          | Returned result =>
              match result with
              | JArr items => createTopics items source userId [] db
              | _ =>
                  (Threw "Failed to extract topics in expected format", db)
              end
          end
      end
  end.

End Agent.

(** The object registered under CONTENT_CURATOR as the newsletter
    handler calls it: [processContent] on the topic table [db]; what its
    other methods answer is [rest]. *)
Definition contentCurator {Db : Type}
    (complete : list (string * string) -> Outcome (option string))
    (systemPrompt : string)
    (createTopicInDatabase :
       json -> option string -> string -> Db -> Outcome json * Db)
    (db : Db) (rest : Orchestrator.Agent) : Orchestrator.Agent :=
  fun call t =>
    match call with
    | Orchestrator.CallProcessContent content userId sessionId source =>
        (fst (processContent complete systemPrompt createTopicInDatabase
                content userId sessionId source db), t)
    | _ => rest call t
    end.

End Agents.

(* ===================================================================== *)
(** ** models/: the tables, their validators and unique indexes *)
(* ===================================================================== *)

(** The repository declares its tables with [sequelize.define]; what a
    write does with a declaration is the ORM's part, embedded here as the
    declarations of the tables the services write ([users], [topics]) call
    for it: an attribute left out takes the column's [defaultValue]; a
    column declared [allowNull: false] rejects a write that leaves it
    without a value, any other column stores null; the validators run on
    the values that are set and not null; the primary key and the indexes
    declared [unique] reject a second row with the same key. A table is
    the list of its rows in insertion order. Of [user_progress], which no
    service writes, only the row that the analytics read is embedded, its
    numbers as the exact rationals they stand for. *)
Module Models.

(** An attribute in the object given to [create] or [update]: left
    out ([undefined]), [null], or a value. *)
Inductive Attr (A : Type) : Type :=
| Absent
| Null
| Value (a : A).
Arguments Absent {A}.
Arguments Null {A}.
Arguments Value {A} a.

(** The ORM's error for a rejected write. *)
Definition validation_error : string := "Validation error".
Definition not_null_violation : string := "notNull Violation".
Definition unique_violation : string := "Validation error: must be unique".

(** The stored value of a column that may be null: the default when
    the attribute is left out, null when null is given. *)
Definition stored {A} (dflt : option A) (a : Attr A) : option A :=
  match a with
  | Absent => dflt
  | Null => None
  | Value v => Some v
  end.

(** The new value of a column on update. *)
Definition updated {A} (old : option A) (a : Attr A) : option A :=
  match a with
  | Absent => old
  | Null => None
  | Value v => Some v
  end.

(** A column declared [allowNull: false]: a write that leaves it
    without a value is rejected. *)
Definition required {A} (dflt : option A) (a : Attr A) : option A :=
  stored dflt a.

(** The table with the row of primary key [pk] replaced by [r'], and
    the rows other than that one. *)
Fixpoint replace_row {A} (key : A -> string) (pk : string) (r' : A)
    (table : list A) : list A :=
  match table with
  | [] => []
  | r :: rest =>
      if String.eqb (key r) pk then r' :: replace_row key pk r' rest
      else r :: replace_row key pk r' rest
  end.

Definition other_rows {A} (key : A -> string) (pk : string)
    (table : list A) : list A :=
  List.filter (fun r => negb (String.eqb (key r) pk)) table.

(** [findByPk]. *)
Definition find_row {A} (key : A -> string) (pk : string)
    (table : list A) : option A :=
  find (fun r => String.eqb (key r) pk) table.

(** *** models/UserProgress.js *)
Module UserProgress.

Inductive Status : Set := NOT_STARTED | IN_PROGRESS | COMPLETED | MASTERED.

#[global] Instance Status_eq_dec : EqDecision Status.
Proof. solve_decision. Defined.

(** A row of [user_progress]: the key columns, the validated
    columns and those the analytics read. *)
Record t : Type := {
  id : string;
  userId : string;
  topicId : string;
  status : option Status;
  confidenceLevel : option Z;
  masteryScore : option Q;
  timeSpentMinutes : option Z;
  completedAt : option Z;
  difficultyRating : option Z
}.

End UserProgress.

End Models.

(* ===================================================================== *)
(** ** src/types: the payload of a token and the public profile *)
(* ===================================================================== *)

Module JWTPayload.
Record t : Type := {
  userId : string;
  email : string;
  role : string;
  iat : Z;
  exp : Z
}.
End JWTPayload.

Module UserProfile.
Record t : Type := {
  id : string;
  email : string;
  firstName : string;
  lastName : string;
  role : string;
  experience : string;
  learningGoals : option string;
  industry : option string;
  preferences : Json.json;
  lastActive : Z;
  isActive : bool
}.
End UserProfile.

(** The third-party functions the services call. [jwt_sign] serializes
    and signs a payload with a key, [jwt_decode] checks the signature
    with a key and gives the payload back (expiry is checked by
    [jwt_verify] below); [bcrypt_hash] and [bcrypt_compare] are bcryptjs,
    [isEmail] the validator behind [validate: { isEmail: true }]. *)
Class Libraries : Type := {
  jwt_sign : JWTPayload.t -> string -> string;
  jwt_decode : string -> string -> option JWTPayload.t;
  bcrypt_hash : string -> string;
  bcrypt_compare : string -> string -> bool;
  isEmail : string -> bool
}.

(** [jwt.verify(token, secret)] at clock time [now] (milliseconds): the
    signature must check and the expiry, in seconds, must lie ahead. *)
Definition jwt_verify `{Libraries} (token secret : string) (now : Z)
    : option JWTPayload.t :=
  match jwt_decode token secret with
  | Some p => if (JWTPayload.exp p <=? now / 1000)%Z then None else Some p
  | None => None
  end.

(** *** models/User.js *)
Module User.
Import Models.

Record t : Type := {
  id : string;
  email : string;
  password : string;
  firstName : string;
  lastName : string;
  role : string;
  experience : string;
  learningGoals : option string;
  industry : option string;
  preferences : Json.json;
  lastActive : Z;
  isActive : bool
}.

(** The object given to [User.create] by [register]. *)
Record Values : Type := {
  v_email : string;
  v_password : string;
  v_firstName : string;
  v_lastName : string;
  v_role : option string;
  v_experience : option string;
  v_learningGoals : option string;
  v_industry : option string;
  v_preferences : Json.json
}.

(** The object given to [user.update]: the attributes to change. *)
Record Changes : Type := {
  c_email : option string;
  c_password : option string;
  c_firstName : option string;
  c_lastName : option string;
  c_role : option string;
  c_experience : option string;
  c_learningGoals : option string;
  c_industry : option string;
  c_preferences : option Json.json;
  c_lastActive : option Z;
  c_isActive : option bool
}.

Definition is_role (r : string) : bool :=
  existsb (String.eqb r) ["PM"; "Designer"; "Executive"; "Developer"; "Other"].

Definition is_experience (e : string) : bool :=
  existsb (String.eqb e) ["Beginner"; "Intermediate"; "Advanced"].

Definition valid `{Libraries} (u : t) : bool :=
  isEmail (email u) && is_role (role u) && is_experience (experience u).

(** [User.findOne({ where: { email } })]. *)
Definition findOne (e : string) (table : list t) : option t :=
  find (fun u => String.eqb (email u) e) table.

(** [User.findByPk(id)]. *)
Definition findByPk (pk : string) (table : list t) : option t :=
  find_row id pk table.

Definition email_taken (e : string) (table : list t) : bool :=
  existsb (fun u => String.eqb (email u) e) table.

(** [User.create(values)] at time [now] with generated key [pk]. *)
Definition create `{Libraries} (pk : string) (now : Z) (v : Values)
    (table : list t) : Outcome t * list t :=
  let row := {|
    id := pk;
    email := v_email v;
    password := v_password v;
    firstName := v_firstName v;
    lastName := v_lastName v;
    role := default "Other" (v_role v);
    experience := default "Beginner" (v_experience v);
    learningGoals := v_learningGoals v;
    industry := v_industry v;
    preferences := v_preferences v;
    lastActive := now;
    isActive := true
  |} in
  if negb (valid row) then (Threw validation_error, table)
  else if existsb (fun u => String.eqb (id u) pk) table
       || email_taken (email row) table
  then (Threw unique_violation, table)
  else (Returned row, (table ++ [row])%list).

Definition apply (c : Changes) (u : t) : t := {|
  id := id u;
  email := default (email u) (c_email c);
  password := default (password u) (c_password c);
  firstName := default (firstName u) (c_firstName c);
  lastName := default (lastName u) (c_lastName c);
  role := default (role u) (c_role c);
  experience := default (experience u) (c_experience c);
  learningGoals :=
    match c_learningGoals c with Some g => Some g | None => learningGoals u end;
  industry :=
    match c_industry c with Some i => Some i | None => industry u end;
  preferences := default (preferences u) (c_preferences c);
  lastActive := default (lastActive u) (c_lastActive c);
  isActive := default (isActive u) (c_isActive c)
|}.

(** Only the attributes whose value changes are validated. *)
Definition changed_ok (check : string -> bool) (old : string)
    (c : option string) : bool :=
  match c with
  | Some new => String.eqb new old || check new
  | None => true
  end.

Definition valid_changes `{Libraries} (c : Changes) (u : t) : bool :=
  changed_ok isEmail (email u) (c_email c)
  && changed_ok is_role (role u) (c_role c)
  && changed_ok is_experience (experience u) (c_experience c).

(** [user.update(changes)] on the instance [u] read from the table. *)
Definition update `{Libraries} (u : t) (c : Changes) (table : list t)
    : Outcome t * list t :=
  let u' := apply c u in
  if negb (valid_changes c u) then (Threw validation_error, table)
  else if negb (String.eqb (email u') (email u))
          && email_taken (email u') (other_rows id (id u) table)
  then (Threw unique_violation, table)
  else (Returned u', replace_row id (id u) u' table).

End User.

(* ===================================================================== *)
(** ** src/services/AuthService.ts *)
(* ===================================================================== *)

Module AuthService.
Import Text.

(** The environment variables the service and the middleware read;
    [JWT_EXPIRES_IN] is the life time of a token in seconds. *)
Record Env : Type := {
  JWT_SECRET : option string;
  JWT_EXPIRES_IN : option Z
}.

Record t : Type := {
  jwtSecret : string;
  jwtExpiresIn : Z
}.

Definition seven_days : Z := 7 * 24 * 60 * 60.

(** The constructor. *)
Definition new (env : Env) : t := {|
  jwtSecret :=
    if truthy (JWT_SECRET env)
    then default EmptyString (JWT_SECRET env)
    else "fallback-secret-change-in-production";
  jwtExpiresIn := default seven_days (JWT_EXPIRES_IN env)
|}.

(** The argument of [register]. *)
Record Registration : Type := {
  email : string;
  password : string;
  firstName : string;
  lastName : string;
  role : option string;
  experience : option string;
  learningGoals : option string;
  industry : option string
}.

Definition default_preferences : Json.json :=
  Json.JObj [("dailyTimeGoal", Json.JNum "30");
             ("difficulty", Json.JStr "medium");
             ("topics", Json.JArr []);
             ("reminderTime", Json.JStr "09:00")].

(** [sanitizeUser]. *)
Definition sanitizeUser (user : User.t) : UserProfile.t := {|
  UserProfile.id := User.id user;
  UserProfile.email := User.email user;
  UserProfile.firstName := User.firstName user;
  UserProfile.lastName := User.lastName user;
  UserProfile.role := User.role user;
  UserProfile.experience := User.experience user;
  UserProfile.learningGoals := User.learningGoals user;
  UserProfile.industry := User.industry user;
  UserProfile.preferences := User.preferences user;
  UserProfile.lastActive := User.lastActive user;
  UserProfile.isActive := User.isActive user
|}.

Section Service.
Context `{Libraries}.
Variable this : t.

(** [generateToken] at time [now]: [jwt.sign] stamps the payload
    with the issue time and the expiry, in seconds. *)
Definition generateToken (user : User.t) (now : Z) : string :=
  jwt_sign {| JWTPayload.userId := User.id user;
              JWTPayload.email := User.email user;
              JWTPayload.role := User.role user;
              JWTPayload.iat := (now / 1000)%Z;
              JWTPayload.exp := (now / 1000 + jwtExpiresIn this)%Z |}
           (jwtSecret this).

(** [verifyToken]. *)
Definition verifyToken (token : string) (now : Z) : Outcome JWTPayload.t :=
  match jwt_verify token (jwtSecret this) now with
  | Some p => Returned p
  | None => Threw "Invalid token"
  end.

(** [register], with the key [pk] the ORM generates for the row. *)
Definition register (userData : Registration) (pk : string) (now : Z)
    (table : list User.t)
    : Outcome (UserProfile.t * string) * list User.t :=
  match User.findOne (email userData) table with
  | Some _ =>
      (Threw "Registration failed: User with this email already exists",
       table)
  | None =>
      let hashedPassword := bcrypt_hash (password userData) in
      match User.create pk now
              {| User.v_email := email userData;
                 User.v_password := hashedPassword;
                 User.v_firstName := firstName userData;
                 User.v_lastName := lastName userData;
                 User.v_role := role userData;
                 User.v_experience := experience userData;
                 User.v_learningGoals := learningGoals userData;
                 User.v_industry := industry userData;
                 User.v_preferences := default_preferences |} table with
      | (Threw m, table') => (Threw ("Registration failed: " +:+ m), table')
      | (Returned user, table') =>
          (Returned (sanitizeUser user, generateToken user now), table')
      end
  end.

(** [login]. *)
Definition login (email0 password0 : string) (now : Z)
    (table : list User.t)
    : Outcome (UserProfile.t * string) * list User.t :=
  match User.findOne email0 table with
  | None => (Threw "Login failed: Invalid email or password", table)
  | Some user =>
      if negb (bcrypt_compare password0 (User.password user))
      then (Threw "Login failed: Invalid email or password", table)
      else
        match User.update user
                {| User.c_email := None; User.c_password := None;
                   User.c_firstName := None; User.c_lastName := None;
                   User.c_role := None; User.c_experience := None;
                   User.c_learningGoals := None; User.c_industry := None;
                   User.c_preferences := None;
                   User.c_lastActive := Some now;
                   User.c_isActive := None |} table with
        | (Threw m, table') => (Threw ("Login failed: " +:+ m), table')
        | (Returned user', table') =>
            (Returned (sanitizeUser user', generateToken user' now), table')
        end
  end.

(** [getUserById]. *)
Definition getUserById (userId : string) (table : list User.t)
    : Outcome (option UserProfile.t) :=
  match User.findByPk userId table with
  | None => Returned None
  | Some user => Returned (Some (sanitizeUser user))
  end.

(** The [Partial<UserProfile>] given to [updateUser]; the primary
    key of a stored row is not changed by [update]. *)
Record ProfileChanges : Type := {
  p_email : option string;
  p_firstName : option string;
  p_lastName : option string;
  p_role : option string;
  p_experience : option string;
  p_learningGoals : option string;
  p_industry : option string;
  p_preferences : option Json.json;
  p_lastActive : option Z;
  p_isActive : option bool
}.

Definition changes_of (p : ProfileChanges) : User.Changes := {|
  User.c_email := p_email p; User.c_password := None;
  User.c_firstName := p_firstName p; User.c_lastName := p_lastName p;
  User.c_role := p_role p; User.c_experience := p_experience p;
  User.c_learningGoals := p_learningGoals p;
  User.c_industry := p_industry p;
  User.c_preferences := p_preferences p;
  User.c_lastActive := p_lastActive p;
  User.c_isActive := p_isActive p |}.

(** [updateUser]. *)
Definition updateUser (userId : string) (updates : ProfileChanges)
    (table : list User.t) : Outcome UserProfile.t * list User.t :=
  match User.findByPk userId table with
  | None => (Threw "Failed to update user: User not found", table)
  | Some user =>
      match User.update user (changes_of updates) table with
      | (Threw m, table') =>
          (Threw ("Failed to update user: " +:+ m), table')
      | (Returned user', table') => (Returned (sanitizeUser user'), table')
      end
  end.

End Service.

End AuthService.

(* ===================================================================== *)
(** ** src/middleware/auth.ts *)
(* ===================================================================== *)

Module Middleware.
Import Text.

(** The JSON body of an error response. *)
Record ErrorBody : Type := {
  success : bool;
  error : string
}.

(** What a middleware does with a request: answer it, or attach the
    decoded payload as [req.user] and call [next()]. *)
Inductive Result : Type :=
| Respond (status : nat) (body : ErrorBody)
| Next (user : JWTPayload.t).

(** [authHeader && authHeader.split(' ')[1]]. *)
Definition bearer_token (authHeader : option string) : option string :=
  match authHeader with
  | None => None
  | Some EmptyString => Some EmptyString
  | Some h => split_on " " h !! 1%nat
  end.

(** [authenticateToken] on the [authorization] header, with the
    environment and the clock. *)
Definition authenticateToken `{Libraries} (env : AuthService.Env)
    (authHeader : option string) (now : Z) : Result :=
  let token := bearer_token authHeader in
  if negb (truthy token) then
    Respond 401 {| success := false; error := "Access token is required" |}
  else
    let jwtSecret := AuthService.JWT_SECRET env in
    if negb (truthy jwtSecret) then
      Respond 500 {| success := false; error := "JWT configuration error" |}
    else
      match jwt_verify (default EmptyString token)
              (default EmptyString jwtSecret) now with
      | None =>
          Respond 403
            {| success := false; error := "Invalid or expired token" |}
      | Some decoded => Next decoded
      end.

End Middleware.

(* ===================================================================== *)
(** ** src/services/LearningAnalyticsEngine.ts *)
(* ===================================================================== *)

(** *** models/LearningSession.js, the columns the analytics read *)
Module LearningSession.
Record t : Type := {
  id : string;
  userId : string;
  startTime : Z;
  confidenceBefore : option Z;
  confidenceAfter : option Z
}.
End LearningSession.

Module LearningAnalyticsEngine.
Import Models.

Record Database : Type := {
  users : list User.t;
  userProgress : list UserProgress.t;
  learningSessions : list LearningSession.t
}.

(** The four aggregates of [LearningAnalytics] this development is
    about; streaks, category counts, weekly progress, skill gaps and
    recommendations are computed after them and from the same rows, and
    do not feed back into them. Quotients are exact rationals where
    JavaScript rounds to the nearest double. *)
Record LearningAnalytics : Type := {
  userId : string;
  totalTopicsCompleted : nat;
  totalTimeSpentMinutes : Z;
  learningVelocity : Q;
  averageConfidenceGain : Q
}.

(** [findAll({ where: { userId } })]. *)
Definition progress_of (uid : string) (db : Database)
    : list UserProgress.t :=
  List.filter (fun p => String.eqb (UserProgress.userId p) uid) (userProgress db).

Definition sessions_of (uid : string) (db : Database)
    : list LearningSession.t :=
  List.filter (fun s => String.eqb (LearningSession.userId s) uid)
    (learningSessions db).

Definition is_completed (p : UserProgress.t) : bool :=
  match UserProgress.status p with
  | Some UserProgress.COMPLETED => true
  | _ => false
  end.

(** Truthiness of a number that may be null. *)
Definition truthy_number (o : option Z) : bool :=
  match o with
  | Some z => negb (z =? 0)%Z
  | None => false
  end.

Definition twenty_eight_days : Z := 28 * 24 * 60 * 60 * 1000.

(** [calculateLearningVelocity]: the count query and [/ 4]. The date
    [fourWeeksAgo] is 28 days of 24 hours before [now]. *)
Definition calculateLearningVelocity (uid : string) (db : Database)
    (now : Z) : Q :=
  let fourWeeksAgo := (now - twenty_eight_days)%Z in
  let recentCompletions :=
    length (List.filter
      (fun p => String.eqb (UserProgress.userId p) uid
                && is_completed p
                && match UserProgress.completedAt p with
                   | Some t => (fourWeeksAgo <=? t)%Z
                   | None => false
                   end)
      (userProgress db)) in
  Z.of_nat recentCompletions # 4.

Definition has_gain (s : LearningSession.t) : bool :=
  truthy_number (LearningSession.confidenceBefore s)
  && truthy_number (LearningSession.confidenceAfter s)
  && match LearningSession.confidenceBefore s,
           LearningSession.confidenceAfter s with
     | Some b, Some a => (b <? a)%Z
     | _, _ => false
     end.

Definition gain (s : LearningSession.t) : Z :=
  (default 0 (LearningSession.confidenceAfter s)
   - default 0 (LearningSession.confidenceBefore s))%Z.

(** [calculateAverageConfidenceGain]. *)
Definition calculateAverageConfidenceGain (sessions : list LearningSession.t)
    : Q :=
  let sessionsWithGain := List.filter has_gain sessions in
  match length sessionsWithGain with
  | O => 0
  | S _ as n =>
      let totalGain :=
        fold_left (fun sum s => (sum + gain s)%Z) sessionsWithGain 0%Z in
      totalGain # Pos.of_nat n
  end.

(** [calculateUserAnalytics]; a null [timeSpentMinutes] adds nothing
    to the sum. *)
Definition calculateUserAnalytics (uid : string) (db : Database) (now : Z)
    : Outcome LearningAnalytics :=
  match User.findByPk uid (users db) with
  | None => Threw "Analytics calculation failed: User not found"
  | Some user =>
      let userProgress := progress_of uid db in
      let learningSessions := sessions_of uid db in
      Returned {|
        userId := uid;
        totalTopicsCompleted := length (List.filter is_completed userProgress);
        totalTimeSpentMinutes :=
          fold_left
            (fun sum p =>
               (sum + default 0 (UserProgress.timeSpentMinutes p))%Z)
            userProgress 0%Z;
        learningVelocity := calculateLearningVelocity uid db now;
        averageConfidenceGain :=
          calculateAverageConfidenceGain learningSessions
      |}
  end.

(** The aggregates in the words of the specification. *)
Module Spec.

Fixpoint sum_Z (l : list Z) : Z :=
  match l with
  | [] => 0
  | x :: r => x + sum_Z r
  end.

(** A session records both confidence values. *)
Definition records_both (s : LearningSession.t) : bool :=
  match LearningSession.confidenceBefore s,
        LearningSession.confidenceAfter s with
  | Some _, Some _ => true
  | _, _ => false
  end.

(** The arithmetic mean of a list of integers, 0 for none. *)
Definition mean (l : list Z) : Q :=
  match l with
  | [] => 0
  | _ => sum_Z l # Pos.of_nat (length l)
  end.

(** The mean of (after - before) over the sessions that record both
    values. *)
Definition mean_gain_of_recorded (sessions : list LearningSession.t) : Q :=
  mean (map gain (List.filter records_both sessions)).

(** The mean over the sessions whose confidence went up. *)
Definition mean_gain_of_improved (sessions : list LearningSession.t) : Q :=
  mean (map gain (List.filter has_gain sessions)).

(** The user's completions no older than 28 days at [now]. *)
Definition recent_completions (uid : string) (db : Database) (now : Z)
    : list UserProgress.t :=
  List.filter
    (fun p => match UserProgress.completedAt p with
              | Some t => (now - twenty_eight_days <=? t)%Z
              | None => false
              end)
    (List.filter is_completed (progress_of uid db)).

End Spec.

End LearningAnalyticsEngine.

(* ===================================================================== *)
(** ** src/index.ts: the server as assembled *)
(* ===================================================================== *)

Module Server.
Import Orchestrator.

(** The response of a route: [res.json({ success: true, data })] or
    [res.status(n).json({ success: false, error })]. *)
Inductive Response : Type :=
| Success (data : Json.json)
| Failure (status : nat) (error : string).

(** The orchestrator when the server starts: the four agents are
    registered, in this order. *)
Definition assemble (contentCurator learningStrategist practiceCoach
    researchAssistant : Agent) (start : Z) (rand : nat -> string) : System :=
  registerAgent RESEARCH_ASSISTANT researchAssistant
    (registerAgent PRACTICE_COACH practiceCoach
      (registerAgent LEARNING_STRATEGIST learningStrategist
        (registerAgent CONTENT_CURATOR contentCurator
          {| agents := ∅; sessions := ∅; clock := start; draws := 0;
             random := rand |}))).

(** The systems the server goes through: started, then one request
    after the other, time passing in between. *)
Inductive reachable : System -> Prop :=
| reach_start c l p r start rand :
    reachable (assemble c l p r start rand)
| reach_request s uid request :
    reachable s ->
    reachable (snd (processLearningRequest uid request s))
| reach_tick s t :
    reachable s -> reachable (with_clock t s).

(** A route behind [authenticateToken]. *)
Definition guarded `{Libraries} (env : AuthService.Env)
    (authHeader : option string) (s : System)
    (handler : JWTPayload.t -> Response * System) : Response * System :=
  match Middleware.authenticateToken env authHeader (clock s) with
  | Middleware.Respond status body =>
      (Failure status (Middleware.error body), s)
  | Middleware.Next user => handler user
  end.

Definition empty_data : RequestData := {|
  content := None; source := None; userProfile := None;
  completedTopics := None; targetRole := None; timeframe := None;
  topicId := None; difficulty := None; scenarioType := None;
  query := None; topics := None; depth := None; message := None;
  chatContext := None; preferredAgent := None |}.

Definition respond (r : Outcome Json.json * System) : Response * System :=
  match r with
  | (Returned result, s') => (Success result, s')
  | (Threw m, s') => (Failure 500 m, s')
  end.

(** The body of [POST /api/agents/chat]. *)
Record ChatBody : Type := {
  b_message : option string;
  b_topicId : option string;
  b_context : option Json.json;
  b_preferredAgent : option AgentType
}.

(** [POST /api/agents/chat]. *)
Definition post_chat `{Libraries} (env : AuthService.Env)
    (authHeader : option string) (body : ChatBody) (s : System)
    : Response * System :=
  guarded env authHeader s (fun user =>
    respond (processLearningRequest (JWTPayload.userId user)
      {| type := "CHAT";
         data := {|
           content := None; source := None; userProfile := None;
           completedTopics := None; targetRole := None; timeframe := None;
           topicId := b_topicId body; difficulty := None;
           scenarioType := None; query := None; topics := None;
           depth := None; message := b_message body;
           chatContext := b_context body;
           preferredAgent := b_preferredAgent body |} |} s)).

(** [POST /api/agents/process-newsletter]. *)
Definition post_process_newsletter `{Libraries} (env : AuthService.Env)
    (authHeader : option string) (content0 source0 : option string)
    (s : System) : Response * System :=
  guarded env authHeader s (fun user =>
    respond (processLearningRequest (JWTPayload.userId user)
      {| type := "NEWSLETTER_PROCESSING";
         data := {|
           content := content0; source := source0; userProfile := None;
           completedTopics := None; targetRole := None; timeframe := None;
           topicId := None; difficulty := None; scenarioType := None;
           query := None; topics := None; depth := None; message := None;
           chatContext := None; preferredAgent := None |} |} s)).

End Server.

(* ===================================================================== *)
(** ** A reference implementation of the library interface *)
(* ===================================================================== *)

(** A plain implementation of [Libraries], to run the services on
    concrete requests: a token is the key and the payload written out,
    each text in hexadecimal, the parts joined with dots. It has the
    interface and the sign-then-verify behaviour of the real libraries and
    none of their secrecy. *)
Module Reference.
Import Text.

Definition hex_digit (n : nat) : ascii :=
  nth n (list_ascii_of_string "0123456789abcdef") "0"%char.

Definition hex_value (c : ascii) : option nat :=
  let n := nat_of_ascii c in
  if (48 <=? n)%nat && (n <=? 57)%nat then Some (n - 48)%nat
  else if (97 <=? n)%nat && (n <=? 102)%nat then Some (n - 87)%nat
  else None.

Fixpoint hex (s : string) : string :=
  match s with
  | EmptyString => EmptyString
  | String c r =>
      let n := nat_of_ascii c in
      String (hex_digit (n / 16)) (String (hex_digit (n mod 16)) (hex r))
  end.

Fixpoint unhex (s : string) : option string :=
  match s with
  | EmptyString => Some EmptyString
  | String a (String b r) =>
      h ← hex_value a; l ← hex_value b; r' ← unhex r;
      Some (String (ascii_of_nat (16 * h + l)) r')
  | String _ EmptyString => None
  end.

Fixpoint digits_value (s : string) (acc : Z) : option Z :=
  match s with
  | EmptyString => Some acc
  | String c r =>
      if Json.is_digit c
      then digits_value r (10 * acc + Z.of_nat (nat_of_ascii c - 48))%Z
      else None
  end.

Definition parse_Z (s : string) : option Z :=
  match s with
  | EmptyString => None
  | String "-" r =>
      if Json.nonempty r then Z.opp <$> digits_value r 0 else None
  | _ => digits_value s 0
  end.

Definition sign (p : JWTPayload.t) (key : string) : string :=
  "ref." +:+ hex key
  +:+ "." +:+ hex (JWTPayload.userId p)
  +:+ "." +:+ hex (JWTPayload.email p)
  +:+ "." +:+ hex (JWTPayload.role p)
  +:+ "." +:+ pretty (JWTPayload.iat p)
  +:+ "." +:+ pretty (JWTPayload.exp p).

Definition decode (token key : string) : option JWTPayload.t :=
  match split_on "." token with
  | [tag; k; u; e; r; i; x] =>
      if String.eqb tag "ref" && String.eqb k (hex key) then
        u' ← unhex u; e' ← unhex e; r' ← unhex r;
        i' ← parse_Z i; x' ← parse_Z x;
        Some {| JWTPayload.userId := u'; JWTPayload.email := e';
                JWTPayload.role := r'; JWTPayload.iat := i';
                JWTPayload.exp := x' |}
      else None
  | _ => None
  end.

Definition hash (password : string) : string := "$2a$12$" +:+ hex password.

Definition compare (password hashed : string) : bool :=
  String.eqb hashed (hash password).

Definition looks_like_email (e : string) : bool :=
  includes e "@" && negb (includes e " ").

Definition libraries : Libraries := {|
  jwt_sign := sign;
  jwt_decode := decode;
  bcrypt_hash := hash;
  bcrypt_compare := compare;
  isEmail := looks_like_email
|}.

End Reference.

(* ===================================================================== *)
(** ** The properties, in the words of the specification *)
(* ===================================================================== *)

Module Spec.
Import Text Orchestrator.

(** The lowercased message contains one of the keywords. *)
Definition mentions (m : string) (keywords : list string) : Prop :=
  exists kw, In kw keywords /\ Substring kw (toLowerCase m).

Definition practice_words : list string := ["practice"; "scenario"; "exercise"].
Definition research_words : list string := ["research"; "latest"; "trends"].
Definition strategy_words : list string := ["path"; "roadmap"; "plan"].
Definition content_words : list string := ["newsletter"; "article"; "content"].

(** The keyword scan: the groups in their fixed order, the first one
    with a match wins, [CONVERSATION_COACH] when none matches. *)
Inductive selects (m : string) : AgentType -> Prop :=
| select_practice :
    mentions m practice_words -> selects m PRACTICE_COACH
| select_research :
    ~ mentions m practice_words -> mentions m research_words ->
    selects m RESEARCH_ASSISTANT
| select_strategy :
    ~ mentions m practice_words -> ~ mentions m research_words ->
    mentions m strategy_words -> selects m LEARNING_STRATEGIST
| select_content :
    ~ mentions m practice_words -> ~ mentions m research_words ->
    ~ mentions m strategy_words -> mentions m content_words ->
    selects m CONTENT_CURATOR
| select_default :
    ~ mentions m practice_words -> ~ mentions m research_words ->
    ~ mentions m strategy_words -> ~ mentions m content_words ->
    selects m CONVERSATION_COACH.

(** The shape the five handlers share: a session identifier, the
    session record, then the agent call inside [try] and the update of
    the record on either exit. *)
Definition tracked (uid : string) (a : AgentType) (ctx : Json.json)
    (field missing : string) (call : string -> Call) (s : System)
    : Outcome Json.json * System :=
  let sid := fst (generateSessionId s) in
  let created := createAgentSession uid a sid ctx (snd (generateSessionId s)) in
  settle (id (fst created)) field
    (call_agent a missing (call sid) (snd created)).

(** The five type tags with a handler. *)
Definition request_types : list string :=
  ["NEWSLETTER_PROCESSING"; "LEARNING_PATH_GENERATION"; "PRACTICE_SCENARIO";
   "RESEARCH_QUERY"; "CHAT"].

(** The unique columns of [users]. *)
Definition user_table_ok (table : list User.t) : Prop :=
  List.NoDup (map User.id table) /\ List.NoDup (map User.email table).

(** Two user rows that differ at most in the password hash. *)
Definition with_password (h : string) (u : User.t) : User.t := {|
  User.id := User.id u; User.email := User.email u; User.password := h;
  User.firstName := User.firstName u; User.lastName := User.lastName u;
  User.role := User.role u; User.experience := User.experience u;
  User.learningGoals := User.learningGoals u;
  User.industry := User.industry u; User.preferences := User.preferences u;
  User.lastActive := User.lastActive u; User.isActive := User.isActive u |}.

Definition same_but_password (u1 u2 : User.t) : Prop :=
  u2 = with_password (User.password u2) u1.

End Spec.

(* ===================================================================== *)
(** ** Concrete requests and stores *)
(* ===================================================================== *)

Module Examples.
Import Orchestrator.

(** An agent that answers every call after five milliseconds. *)
Definition echo : Agent :=
  fun _ t => (Returned (Json.JStr "ok"), (t + 5)%Z).

(** An agent whose every call fails after two milliseconds. *)
Definition failing : Agent :=
  fun _ t => (Threw "upstream unavailable", (t + 2)%Z).

Definition server : System :=
  Server.assemble echo echo failing echo 1000 (fun _ => "k3j9x0q1z").

Definition chat (m : string) (preferred : option AgentType) : RequestData := {|
  content := None; source := None; userProfile := None;
  completedTopics := None; targetRole := None; timeframe := None;
  topicId := None; difficulty := None; scenarioType := None;
  query := None; topics := None; depth := None; message := Some m;
  chatContext := None; preferredAgent := preferred |}.

Definition chat_request (m : string) : LearningRequest :=
  {| type := "CHAT"; data := chat m None |}.

Definition newsletter_request : LearningRequest :=
  {| type := "NEWSLETTER_PROCESSING";
     data := {|
       content := Some "Transformers keep getting cheaper to serve.";
       source := Some "weekly-digest"; userProfile := None;
       completedTopics := None; targetRole := None; timeframe := None;
       topicId := None; difficulty := None; scenarioType := None;
       query := None; topics := None; depth := None; message := None;
       chatContext := None; preferredAgent := None |} |}.

Definition unknown_request : LearningRequest :=
  {| type := "QUIZ"; data := Server.empty_data |}.

(** A registered user, her password hashed by the reference library. *)
Definition ada : User.t := {|
  User.id := "7b1c-ada";
  User.email := "ada@example.org";
  User.password := Reference.hash "correct horse";
  User.firstName := "Ada";
  User.lastName := "Lovelace";
  User.role := "PM";
  User.experience := "Intermediate";
  User.learningGoals := None;
  User.industry := Some "computing";
  User.preferences := AuthService.default_preferences;
  User.lastActive := 0;
  User.isActive := true
|}.

Definition env : AuthService.Env := {|
  AuthService.JWT_SECRET := Some "s3cret";
  AuthService.JWT_EXPIRES_IN := None
|}.

(** The token [login] gives Ada at time 0 under [env]. *)
Definition ada_token : string :=
  @AuthService.generateToken Reference.libraries (AuthService.new env) ada 0.

(** Seven days after time 0, in milliseconds. *)
Definition a_week_later : Z := 604800000.

(** A completion that is prose, not JSON. *)
Definition prose_reply : string :=
  "I found two concepts: retrieval and fine-tuning.".

Definition prose_completion (messages : list (string * string))
    : Outcome (option string) :=
  Returned (Some prose_reply).

(** A topic table that stores what it is given. *)
Definition store_topic (topicData : Json.json) (source : option string)
    (userId : string) (db : list Json.json)
    : Outcome Json.json * list Json.json :=
  (Returned topicData, (db ++ [topicData])%list).

(** The server with a content curator whose completions are prose. *)
Definition prose_server : System :=
  Server.assemble
    (Agents.contentCurator prose_completion "You are a Content Curator Agent"
       store_topic [] echo)
    echo echo echo 1000 (fun _ => "k3j9x0q1z").

(** Ada's learning sessions: one gain of four points, one loss of four. *)
Definition ada_sessions : list LearningSession.t := [
  {| LearningSession.id := "s-1"; LearningSession.userId := "7b1c-ada";
     LearningSession.startTime := 100;
     LearningSession.confidenceBefore := Some 3%Z;
     LearningSession.confidenceAfter := Some 7%Z |};
  {| LearningSession.id := "s-2"; LearningSession.userId := "7b1c-ada";
     LearningSession.startTime := 200;
     LearningSession.confidenceBefore := Some 8%Z;
     LearningSession.confidenceAfter := Some 4%Z |} ].

Definition ada_database : LearningAnalyticsEngine.Database := {|
  LearningAnalyticsEngine.users := [ada];
  LearningAnalyticsEngine.userProgress := [];
  LearningAnalyticsEngine.learningSessions := ada_sessions
|}.

End Examples.

From Stdlib Require Import Qround Sorted.

(* ===================================================================== *)
(** ** src/services/AuthService.ts: renewing a token, changing a
       password, closing an account *)
(* ===================================================================== *)

Module Accounts.
Import Text AuthService.

Section Service.
Context `{Libraries}.
Variable this : AuthService.t.


(** The object literal [{ password: hashedPassword }]. *)
Definition password_change (hashedPassword : string) : User.Changes := {|
  User.c_email := None; User.c_password := Some hashedPassword;
  User.c_firstName := None; User.c_lastName := None;
  User.c_role := None; User.c_experience := None;
  User.c_learningGoals := None; User.c_industry := None;
  User.c_preferences := None; User.c_lastActive := None;
  User.c_isActive := None |}.

(** [changePassword]. *)
Definition changePassword (userId currentPassword newPassword : string)
    (table : list User.t) : Outcome unit * list User.t :=
  match User.findByPk userId table with
  | None => (Threw "Password change failed: User not found", table)
  | Some user =>
      if negb (bcrypt_compare currentPassword (User.password user))
      then (Threw "Password change failed: Current password is incorrect",
            table)
      else
        match User.update user (password_change (bcrypt_hash newPassword))
                table with
        | (Threw m, table') =>
            (Threw ("Password change failed: " +:+ m), table')
        | (Returned _, table') => (Returned tt, table')
        end
  end.



End Service.

End Accounts.

(* ===================================================================== *)
(** ** src/middleware/auth.ts: the optional and the role guard *)
(* ===================================================================== *)

Module Guards.
Import Text Middleware.

(** What a guard that may leave [req.user] unset does with a request:
    answer it, or call [next()] with [req.user] as it is then. *)
Inductive Passage : Type :=
| Answer (status : nat) (body : ErrorBody)
| Proceed (user : option JWTPayload.t).

(** [optionalAuth]. *)
Definition optionalAuth `{Libraries} (env : AuthService.Env)
    (authHeader : option string) (now : Z) : Passage :=
  let token := bearer_token authHeader in
  if negb (truthy token) then Proceed None
  else
    let jwtSecret := AuthService.JWT_SECRET env in
    if negb (truthy jwtSecret) then Proceed None
    else
      match jwt_verify (default EmptyString token)
              (default EmptyString jwtSecret) now with
      | None => Proceed None
      | Some decoded => Proceed (Some decoded)
      end.

(** [requireRole(roles)], on the [req.user] the guards before it
    left. *)
Definition requireRole (roles : list string) (user : option JWTPayload.t)
    : Passage :=
  match user with
  | None =>
      Answer 401 {| success := false; error := "Authentication required" |}
  | Some u =>
      if negb (existsb (String.eqb (JWTPayload.role u)) roles)
      then Answer 403
             {| success := false; error := "Insufficient permissions" |}
      else Proceed (Some u)
  end.

(** A route that lists [authenticateToken] and then [guard]: the
    second runs when the first calls [next()]. *)
Definition after_authenticateToken (r : Result)
    (guard : option JWTPayload.t -> Passage) : Passage :=
  match r with
  | Respond status body => Answer status body
  | Next user => guard (Some user)
  end.

(** A route that lists [optionalAuth] and then [guard]. *)
Definition after_optionalAuth (p : Passage)
    (guard : option JWTPayload.t -> Passage) : Passage :=
  match p with
  | Answer status body => Answer status body
  | Proceed user => guard user
  end.

End Guards.

(* ===================================================================== *)
(** ** src/index.ts: the account routes and the routes that read the
       profile before they call the orchestrator *)
(* ===================================================================== *)

Module Routes.
Import Orchestrator.

(** The response of an account route: the [data] of a success, or the
    status and message of a failure. *)
Inductive Reply (A : Type) : Type :=
| Ok (data : A)
| Error (status : nat) (error : string).
Arguments Ok {A} data.
Arguments Error {A} status error.

(** A property of [req.body], which no route validates before it
    hands it on: left out, or any JSON value; a service that declares a
    [string] parameter gets whatever is there. *)
Inductive Field : Type :=
| Undefined
| Null
| Boolean (b : bool)
| Number (literal : string)
| Text (s : string)
| Structure (v : Json.json).

(** [typeof]; an array or an object is a [Structure]. *)
Definition typeof (f : Field) : string :=
  match f with
  | Undefined => "undefined"
  | Null => "object"
  | Boolean _ => "boolean"
  | Number _ => "number"
  | Text _ => "string"
  | Structure _ => "object"
  end.

Section Routes.
Context `{Libraries}.
Variable authService : AuthService.t.

(** What [User.findOne({ where: { email } })] answers when [email] is
    not a string is the affair of the ORM and the database: a row, none,
    or an error. It is a read: the table stays as it is. *)
Variable findOne_other : Field -> list User.t -> Outcome (option User.t).

Definition findOne_any (email : Field) (table : list User.t)
    : Outcome (option User.t) :=
  match email with
  | Text e => Returned (User.findOne e table)
  | _ => findOne_other email table
  end.

(** [bcrypt.compare(password, user.password)] on whatever [password]
    is: bcryptjs rejects an argument that is not a string with "Illegal
    arguments: " and the two types; the stored hash is a string. *)
Definition compare_any (password : Field) (hashed : string) : Outcome bool :=
  match password with
  | Text pw => Returned (bcrypt_compare pw hashed)
  | _ => Threw ("Illegal arguments: " +:+ typeof password +:+ ", string")
  end.

(** [AuthService.login] as the route reaches it, its two arguments
    being whatever the body holds. *)
Definition login_any (email password : Field) (now : Z)
    (table : list User.t)
    : Outcome (UserProfile.t * string) * list User.t :=
  match findOne_any email table with
  | Threw m => (Threw ("Login failed: " +:+ m), table)
  | Returned None => (Threw "Login failed: Invalid email or password", table)
  | Returned (Some user) =>
      match compare_any password (User.password user) with
      | Threw m => (Threw ("Login failed: " +:+ m), table)
      | Returned false =>
          (Threw "Login failed: Invalid email or password", table)
      | Returned true =>
          match User.update user
                  {| User.c_email := None; User.c_password := None;
                     User.c_firstName := None; User.c_lastName := None;
                     User.c_role := None; User.c_experience := None;
                     User.c_learningGoals := None; User.c_industry := None;
                     User.c_preferences := None;
                     User.c_lastActive := Some now;
                     User.c_isActive := None |} table with
          | (Threw m, table') => (Threw ("Login failed: " +:+ m), table')
          | (Returned user', table') =>
              (Returned (AuthService.sanitizeUser user',
                         AuthService.generateToken authService user' now),
               table')
          end
      end
  end.

(** [POST /api/auth/login]: [const { email, password } = req.body]. *)
Definition post_login (email password : Field) (now : Z)
    (table : list User.t) : Reply (UserProfile.t * string) * list User.t :=
  match login_any email password now table with
  | (Returned result, table') => (Ok result, table')
  | (Threw m, table') => (Error 401 m, table')
  end.

(** [GET /api/auth/me]. *)
Definition get_me (env : AuthService.Env) (authHeader : option string)
    (now : Z) (table : list User.t) : Reply UserProfile.t :=
  match Middleware.authenticateToken env authHeader now with
  | Middleware.Respond status body => Error status (Middleware.error body)
  | Middleware.Next user =>
      match AuthService.getUserById (JWTPayload.userId user) table with
      | Threw m => Error 500 m
      | Returned None => Error 404 "User not found"
      | Returned (Some profile) => Ok profile
      end
  end.

(** The profile object as it is handed to an agent. *)
Variable profile_json : UserProfile.t -> Json.json.

(** [POST /api/agents/generate-learning-path]. The list of completed
    topics is the empty array the route declares. *)
Definition post_generate_learning_path (env : AuthService.Env)
    (authHeader : option string) (targetRole0 : option string)
    (timeframe0 : option Z) (table : list User.t) (s : System)
    : Server.Response * System :=
  Server.guarded env authHeader s (fun user =>
    match AuthService.getUserById (JWTPayload.userId user) table with
    | Threw m => (Server.Failure 500 m, s)
    | Returned None => (Server.Failure 404 "User not found", s)
    | Returned (Some userProfile0) =>
        Server.respond (processLearningRequest (JWTPayload.userId user)
          {| type := "LEARNING_PATH_GENERATION";
             data := {|
               content := None; source := None;
               userProfile := Some (profile_json userProfile0);
               completedTopics := Some (Json.JArr []);
               targetRole := targetRole0; timeframe := timeframe0;
               topicId := None; difficulty := None; scenarioType := None;
               query := None; topics := None; depth := None;
               message := None; chatContext := None;
               preferredAgent := None |} |} s)
    end).

(** [POST /api/agents/generate-practice-scenario]. *)
Definition post_generate_practice_scenario (env : AuthService.Env)
    (authHeader : option string)
    (topicId0 difficulty0 scenarioType0 : option string)
    (table : list User.t) (s : System) : Server.Response * System :=
  Server.guarded env authHeader s (fun user =>
    match AuthService.getUserById (JWTPayload.userId user) table with
    | Threw m => (Server.Failure 500 m, s)
    | Returned None => (Server.Failure 404 "User not found", s)
    | Returned (Some userProfile0) =>
        Server.respond (processLearningRequest (JWTPayload.userId user)
          {| type := "PRACTICE_SCENARIO";
             data := {|
               content := None; source := None;
               userProfile := Some (profile_json userProfile0);
               completedTopics := None; targetRole := None;
               timeframe := None; topicId := topicId0;
               difficulty := difficulty0; scenarioType := scenarioType0;
               query := None; topics := None; depth := None;
               message := None; chatContext := None;
               preferredAgent := None |} |} s)
    end).

End Routes.

(** The [data] that [POST /api/agents/chat] makes of its body. *)
Definition chat_data (body : Server.ChatBody) : RequestData := {|
  content := None; source := None; userProfile := None;
  completedTopics := None; targetRole := None; timeframe := None;
  topicId := Server.b_topicId body; difficulty := None;
  scenarioType := None; query := None; topics := None;
  depth := None; message := Server.b_message body;
  chatContext := Server.b_context body;
  preferredAgent := Server.b_preferredAgent body |}.

End Routes.

(* ===================================================================== *)
(** ** src/services/AgentOrchestrator.ts: getAgentStatistics *)
(* ===================================================================== *)

Module Statistics.
Import Orchestrator.

(** The object kept per agent type. While the sessions are counted
    it has the first five properties; [averageTime] and [successRate] are
    added to every entry afterwards. Quotients are exact rationals, the
    cost is counted in millionths as it is stored. *)
Module PerAgent.
Record Tally : Type := {
  count : nat;
  totalTime : Z;
  tokens : Z;
  cost : Z;
  successes : nat
}.

Record t : Type := {
  tally : Tally;
  averageTime : Q;
  successRate : Q
}.
End PerAgent.

Definition zero : PerAgent.Tally := {|
  PerAgent.count := 0; PerAgent.totalTime := 0; PerAgent.tokens := 0;
  PerAgent.cost := 0; PerAgent.successes := 0 |}.

(** One turn of the [forEach] on the entry of the session's agent. *)
Definition add (session : AgentSessionRow) (agentStats : PerAgent.Tally)
    : PerAgent.Tally := {|
  PerAgent.count := S (PerAgent.count agentStats);
  PerAgent.totalTime :=
    PerAgent.totalTime agentStats + default 0%Z (executionTimeMs session);
  PerAgent.tokens := PerAgent.tokens agentStats + tokensUsed session;
  PerAgent.cost := PerAgent.cost agentStats + Orchestrator.cost session;
  PerAgent.successes :=
    match status session with
    | COMPLETED => S (PerAgent.successes agentStats)
    | _ => PerAgent.successes agentStats
    end
|}.

(** The [forEach] body: the entry is created on the first session of
    its agent type. *)
Definition record (sessionsByAgent : gmap AgentType PerAgent.Tally)
    (session : AgentSessionRow) : gmap AgentType PerAgent.Tally :=
  <[agentType session :=
      add session (default zero (sessionsByAgent !! agentType session))]>
    sessionsByAgent.

(** The second pass over the keys. *)
Definition finish (agentStats : PerAgent.Tally) : PerAgent.t := {|
  PerAgent.tally := agentStats;
  PerAgent.averageTime :=
    (inject_Z (PerAgent.totalTime agentStats)
     / inject_Z (Z.of_nat (PerAgent.count agentStats)))%Q;
  PerAgent.successRate :=
    (inject_Z (Z.of_nat (PerAgent.successes agentStats))
     / inject_Z (Z.of_nat (PerAgent.count agentStats)) * 100)%Q
|}.

Record Stats : Type := {
  totalSessions : nat;
  sessionsByAgent : gmap AgentType PerAgent.t;
  averageExecutionTime : Q;
  totalTokensUsed : Z;
  totalCost : Z;
  successRate : Q
}.

(** [findAll({ where: { endTime: { [Op.ne]: null } } })]. *)
Definition ended (s : System) : list AgentSessionRow :=
  List.filter (fun r => match endTime r with Some _ => true | None => false end)
    (map snd (map_to_list (sessions s))).

(** [getAgentStatistics]. *)
Definition getAgentStatistics (s : System) : Stats :=
  let sessions := ended s in {|
    totalSessions := length sessions;
    sessionsByAgent := finish <$> fold_left record sessions ∅;
    averageExecutionTime := 0;
    totalTokensUsed := 0;
    totalCost := 0;
    successRate := 0
  |}.

(** The five agent types. *)
Definition agent_types : list AgentType :=
  [CONTENT_CURATOR; LEARNING_STRATEGIST; PRACTICE_COACH; RESEARCH_ASSISTANT;
   CONVERSATION_COACH].

Definition of_agent (a : AgentType) (r : AgentSessionRow) : bool :=
  bool_decide (agentType r = a).

Definition is_success (r : AgentSessionRow) : bool :=
  match status r with COMPLETED => true | _ => false end.

(** A row without a duration, a token count or a cost. *)
Definition unmetered (r : AgentSessionRow) : Prop :=
  executionTimeMs r = None /\ tokensUsed r = 0%Z /\ Orchestrator.cost r = 0%Z.

End Statistics.

(* ===================================================================== *)
(** ** src/agents/BaseAgent.ts: retries and the standard responses *)
(* ===================================================================== *)

Module BaseAgent.
Import Json.

(** How [retryWithBackoff] ends: resolved with the value of [fn], or
    rejected with [lastError]; [None] is the [undefined] that is thrown
    when the loop body never ran. *)
Inductive Settled (A : Type) : Type :=
| Resolved (value : A)
| Rejected (lastError : option string).
Arguments Resolved {A} value.
Arguments Rejected {A} lastError.

(** A run of [retryWithBackoff]: how it ended, the state [fn] left,
    how often [fn] was called and the delays slept, in order, in
    milliseconds. *)
Record Run (A St : Type) : Type := {
  settled : Settled A;
  state : St;
  calls : nat;
  delays : list Z
}.
Arguments settled {A St} r.
Arguments state {A St} r.
Arguments calls {A St} r.
Arguments delays {A St} r.

Section Retry.
Context {A St : Type}.
(** [fn] with the state it works on; [maxRetries] is a count. *)
Variable fn : St -> Outcome A * St.
Variable maxRetries : nat.
Variable baseDelay : Z.

(** The [for] loop from [attempt] on, [remaining] turns before
    [attempt < maxRetries] fails. *)
Fixpoint retry_loop (remaining attempt : nat) (lastError : option string)
    (st : St) (slept : list Z) : Run A St :=
  match remaining with
  | O => {| settled := Rejected lastError; state := st; calls := attempt;
            delays := slept |}
  | S remaining' =>
      match fn st with
      | (Returned value, st') =>
          {| settled := Resolved value; state := st'; calls := S attempt;
             delays := slept |}
      | (Threw error, st') =>
          if (attempt =? maxRetries - 1)%nat then
            {| settled := Rejected (Some error); state := st';
               calls := S attempt; delays := slept |}
          else
            retry_loop remaining' (S attempt) (Some error) st'
              (slept ++ [baseDelay * 2 ^ Z.of_nat attempt])%Z%list
      end
  end.

(** [retryWithBackoff]. *)
Definition retryWithBackoff (st : St) : Run A St :=
  retry_loop maxRetries 0 None st [].

(** The state [n] calls of [fn] leave, whatever they return or
    throw. *)
Definition state_after (n : nat) (st : St) : St :=
  Nat.iter n (fun s => snd (fn s)) st.

End Retry.

(** The time slept in all. *)
Definition total (delays : list Z) : Z := fold_right Z.add 0%Z delays.

(** The delay before the retry that follows attempt [i]. *)
Definition backoff (baseDelay : Z) (i : nat) : Z :=
  (baseDelay * 2 ^ Z.of_nat i)%Z.

(** [createErrorResponse] and [createSuccessResponse]; [timestamp]
    is [new Date().toISOString()]. *)
Definition createErrorResponse (agentType timestamp error : string) : json :=
  JObj [("success", JBool false); ("error", JStr error);
        ("agentType", JStr agentType); ("timestamp", JStr timestamp)].

Definition createSuccessResponse (agentType timestamp : string) (data : json)
    : json :=
  JObj [("success", JBool true); ("data", data);
        ("agentType", JStr agentType); ("timestamp", JStr timestamp)].

End BaseAgent.

(* ===================================================================== *)
(** ** models/Topic.js *)
(* ===================================================================== *)

Module Topic.
Import Models.

(** A row of [topics]; the columns no modelled code writes
    ([prerequisites], [isActive], [version]) are left out. *)
Record t : Type := {
  id : string;
  title : string;
  slug : string;
  category : string;
  difficulty : string;
  estimatedTimeMinutes : option Z;
  definition : string;
  explanation : string;
  whyItMatters : string;
  realWorldExample : string;
  tags : option (list string);
  metadata : option Json.json;
  sourceUrl : option string;
  sourceType : option string
}.

Record Values : Type := {
  v_title : Attr string;
  v_slug : Attr string;
  v_category : Attr string;
  v_difficulty : Attr string;
  v_estimatedTimeMinutes : Attr Z;
  v_definition : Attr string;
  v_explanation : Attr string;
  v_whyItMatters : Attr string;
  v_realWorldExample : Attr string;
  v_tags : Attr (list string);
  v_metadata : Attr Json.json;
  v_sourceUrl : Attr string;
  v_sourceType : Attr string
}.

Definition is_category (c : string) : bool :=
  existsb (String.eqb c)
    ["AI_FUNDAMENTALS"; "MACHINE_LEARNING"; "NLP"; "COMPUTER_VISION";
     "ETHICS"; "BUSINESS_AI"; "TOOLS"; "TRENDS"].

Definition is_difficulty (d : string) : bool :=
  existsb (String.eqb d) ["Beginner"; "Intermediate"; "Advanced"].

Definition is_sourceType (o : option string) : bool :=
  match o with
  | None => true
  | Some s => existsb (String.eqb s) ["NEWSLETTER"; "ARTICLE"; "RESEARCH"; "MANUAL"]
  end.

(** The values of the three ENUM columns. *)
Definition valid (r : t) : bool :=
  is_category (category r) && is_difficulty (difficulty r)
  && is_sourceType (sourceType r).

Definition slug_taken (s : string) (table : list t) : bool :=
  existsb (fun r => String.eqb (slug r) s) table.

(** [Topic.create(values)] with the generated key [pk]. *)
Definition create (pk : string) (v : Values) (table : list t)
    : Outcome t * list t :=
  match required None (v_title v), required None (v_slug v),
        required None (v_category v),
        required (Some "Beginner") (v_difficulty v),
        required None (v_definition v), required None (v_explanation v),
        required None (v_whyItMatters v),
        required None (v_realWorldExample v) with
  | Some title0, Some slug0, Some category0, Some difficulty0,
    Some definition0, Some explanation0, Some whyItMatters0,
    Some realWorldExample0 =>
      let row := {|
        id := pk; title := title0; slug := slug0; category := category0;
        difficulty := difficulty0;
        estimatedTimeMinutes := stored (Some 15%Z) (v_estimatedTimeMinutes v);
        definition := definition0; explanation := explanation0;
        whyItMatters := whyItMatters0;
        realWorldExample := realWorldExample0;
        tags := stored (Some []) (v_tags v);
        metadata := stored (Some (Json.JObj [])) (v_metadata v);
        sourceUrl := stored None (v_sourceUrl v);
        sourceType := stored (Some "MANUAL") (v_sourceType v)
      |} in
      if negb (valid row) then (Threw validation_error, table)
      else if existsb (fun r => String.eqb (id r) pk) table
           || slug_taken slug0 table
      then (Threw unique_violation, table)
      else (Returned row, (table ++ [row])%list)
  | _, _, _, _, _, _, _, _ => (Threw not_null_violation, table)
  end.

End Topic.

(* ===================================================================== *)
(** ** src/agents/ContentCuratorAgent.ts: slugs, the topic rows and
       the chat *)
(* ===================================================================== *)

Module Curator.
Import Text Json Models.

(** The characters the pattern [\s] matches in ASCII text. *)
Definition is_space (c : ascii) : bool :=
  let n := nat_of_ascii c in
  ((9 <=? n)%nat && (n <=? 13)%nat) || (n =? 32)%nat.

(** The characters of a slug: [a-z], [0-9] and the hyphen. *)
Definition is_slug_char (c : ascii) : bool :=
  let n := nat_of_ascii c in
  ((97 <=? n)%nat && (n <=? 122)%nat) || ((48 <=? n)%nat && (n <=? 57)%nat)
  || (n =? 45)%nat.

(** [.replace(/[^a-z0-9\s-]/g, '')]. *)
Fixpoint strip (s : string) : string :=
  match s with
  | EmptyString => EmptyString
  | String c r =>
      if is_slug_char c || is_space c then String c (strip r) else strip r
  end.

(** [.replace(/\s+/g, '-')]; [in_run] says that the character before
    was white space. *)
Fixpoint hyphenate (in_run : bool) (s : string) : string :=
  match s with
  | EmptyString => EmptyString
  | String c r =>
      if is_space c then
        if in_run then hyphenate true r
        else String "-" (hyphenate true r)
      else String c (hyphenate false r)
  end.

(** Every character of [s] passes [P]. *)
Fixpoint every (P : ascii -> bool) (s : string) : bool :=
  match s with
  | EmptyString => true
  | String c r => P c && every P r
  end.

(** [generateSlug], on ASCII titles. *)
Definition generateSlug (title : string) : string :=
  substring 0 50 (hyphenate false (strip (toLowerCase title))).

(** The properties [createTopicInDatabase] reads off an element of
    the parsed array, each missing, null or of the type the code expects. *)
Record TopicData : Type := {
  title : Attr string;
  category : Attr string;
  difficulty : Attr string;
  estimatedTimeMinutes : Attr Z;
  definition : Attr string;
  explanation : Attr string;
  whyItMatters : Attr string;
  realWorldExample : Attr string;
  tags : Attr (list string)
}.

(** [topicData.estimatedTimeMinutes || 15] and [topicData.tags || []]. *)
Definition minutes_or_default (a : Attr Z) : Z :=
  match a with
  | Value z => if (z =? 0)%Z then 15%Z else z
  | _ => 15%Z
  end.

Definition tags_or_default (a : Attr (list string)) : list string :=
  match a with
  | Value l => l
  | _ => []
  end.

Definition optional {A} (o : option A) : Attr A :=
  match o with
  | Some a => Value a
  | None => Absent
  end.

Section Store.
(** The key generated for the next row of a table, the time stamp
    of [new Date()] as it is stored, how the properties of a parsed element
    are read and how a stored row is written as JSON. *)
Variable newId : list Topic.t -> string.
Variable timestamp : string.
Variable read : json -> TopicData.
Variable toJSON : Topic.t -> json.

(** [createTopicInDatabase]; its [catch] logs and rethrows. *)
Definition createTopicInDatabase (topicData : TopicData)
    (source : option string) (userId : string) (table : list Topic.t)
    : Outcome Topic.t * list Topic.t :=
  match title topicData with
  | Absent =>
      (Threw "Cannot read properties of undefined (reading 'toLowerCase')",
       table)
  | Null =>
      (Threw "Cannot read properties of null (reading 'toLowerCase')", table)
  | Value title0 =>
      Topic.create (newId table)
        {| Topic.v_title := title topicData;
           Topic.v_slug := Value (generateSlug title0);
           Topic.v_category := category topicData;
           Topic.v_difficulty := difficulty topicData;
           Topic.v_estimatedTimeMinutes :=
             Value (minutes_or_default (estimatedTimeMinutes topicData));
           Topic.v_definition := definition topicData;
           Topic.v_explanation := explanation topicData;
           Topic.v_whyItMatters := whyItMatters topicData;
           Topic.v_realWorldExample := realWorldExample topicData;
           Topic.v_tags := Value (tags_or_default (tags topicData));
           Topic.v_metadata :=
             Value (JObj [("createdBy", JStr userId);
                          ("extractedAt", JStr timestamp);
                          ("agent", JStr "CONTENT_CURATOR")]);
           Topic.v_sourceUrl := optional source;
           Topic.v_sourceType := Value "NEWSLETTER" |}
        table
  end.

(** [createTopicInDatabase] as [processContent] calls it, on an
    element of the parsed array, answering [topic.toJSON()]. *)
Definition createTopic (topicData : json) (source : option string)
    (userId : string) (table : list Topic.t) : Outcome json * list Topic.t :=
  match createTopicInDatabase (read topicData) source userId table with
  | (Returned topic, table') => (Returned (toJSON topic), table')
  | (Threw m, table') => (Threw m, table')
  end.

(** The completion API, the usage figures [tokensUsed] and [cost] of
    a completion, and the picks of the two random shuffles. *)
Variable complete : list (string * string) -> Outcome (option string).
Variable systemPrompt : string.
Variable usage : list (string * string) -> json * json.
Variable suggestions followUpQuestions : list string.

(** [processContent] on the topic table. *)
Definition processContent (content : option string)
    (userId sessionId : string) (source : option string)
    (table : list Topic.t) : Outcome json * list Topic.t :=
  Agents.processContent complete systemPrompt createTopic content userId
    sessionId source table.

(** The context message of [processChat]. *)
Definition topic_context (topic : Topic.t) : string :=
  "Context: User is asking about the topic "
  +:+ String dquote (Topic.title topic)
  +:+ String dquote ". Definition: " +:+ Topic.definition topic
  +:+ ". Here's what they want to know:".

(** [processChat] for a message that is there; its [catch] answers
    with [createErrorResponse]. *)
Definition processChat (message : string) (topicId : option string)
    (table : list Topic.t) : Outcome json :=
  let context :=
    if truthy topicId then
      match find_row Topic.id (default EmptyString topicId) table with
      | Some topic => [("system", topic_context topic)]
      | None => []
      end
    else [] in
  let messages := (context ++ [("user", message)])%list in
  match Agents.generateResponse complete systemPrompt messages with
  | Returned content =>
      Returned (BaseAgent.createSuccessResponse "CONTENT_CURATOR" timestamp
        (JObj [("response", JStr content);
               ("agentType", JStr "CONTENT_CURATOR");
               ("confidence", JNum "0.85");
               ("suggestions", JArr (JStr <$> suggestions));
               ("followUpQuestions", JArr (JStr <$> followUpQuestions));
               ("tokensUsed", fst (usage messages));
               ("cost", snd (usage messages))]))
  | Threw m =>
      Returned (BaseAgent.createErrorResponse "CONTENT_CURATOR" timestamp m)
  end.

(** The object registered under CONTENT_CURATOR, with the topic
    table it reads; calls it has no method for, and a chat without a
    message, are [rest]'s. *)
Definition agent (table : list Topic.t) (rest : Orchestrator.Agent)
    : Orchestrator.Agent :=
  Agents.contentCurator complete systemPrompt createTopic table
    (fun call t =>
       match call with
       | Orchestrator.CallProcessChat (Some message) topicId _ _ _ =>
           (processChat message topicId table, t)
       | _ => rest call t
       end).

End Store.

(** The constraints of the [topics] table: the primary key and the
    unique slug, which is the slug of the title. *)
Definition topic_table_ok (table : list Topic.t) : Prop :=
  List.NoDup (map Topic.id table) /\ List.NoDup (map Topic.slug table).

End Curator.

(* ===================================================================== *)
(** ** JavaScript array primitives *)
(* ===================================================================== *)

Module Arrays.

Section Sort.
Context {A : Type}.
(** [after x y]: the comparator puts [x] after [y], that is
    [compare(x, y) > 0]. *)
Variable after : A -> A -> bool.

Fixpoint insert (x : A) (l : list A) : list A :=
  match l with
  | [] => [x]
  | y :: r => if after x y then y :: insert x r else x :: y :: r
  end.

(** [Array.prototype.sort(compare)]: the sort is stable, elements
    the comparator does not order keep their places. *)
Definition sort (l : list A) : list A := fold_right insert [] l.

End Sort.

(** The elements of [l] in the order of their first occurrence:
    [[...new Set(l)]]. *)
Fixpoint unique_from (seen l : list Z) : list Z :=
  match l with
  | [] => []
  | x :: r =>
      if existsb (Z.eqb x) seen then unique_from seen r
      else x :: unique_from (x :: seen) r
  end.

Definition unique (l : list Z) : list Z := unique_from [] l.

End Arrays.

(* ===================================================================== *)
(** ** src/services/LearningAnalyticsEngine.ts: categories, skill
       gaps, recommendations, streaks and the comparison *)
(* ===================================================================== *)

Module Insights.
Import Text Models LearningAnalyticsEngine.

(** A progress row with the topic the query includes, [null] when
    there is none. *)
Definition Progress : Type := (UserProgress.t * option Topic.t)%type.

(** [UserProgress.findAll({ where: { userId }, include: topic })]. *)
Definition progress_with_topics (uid : string) (db : Database)
    (topics : list Topic.t) : list Progress :=
  map (fun p => (p, find_row Topic.id (UserProgress.topicId p) topics))
    (progress_of uid db).

(** The keys of the two category objects, in the order they are
    written. *)
Definition categories : list string :=
  ["AI_FUNDAMENTALS"; "MACHINE_LEARNING"; "NLP"; "COMPUTER_VISION"; "ETHICS";
   "BUSINESS_AI"; "TOOLS"; "TRENDS"].

(** [categoryCount[category]++]. *)
Definition bump (category : string) (categoryCount : list (string * nat))
    : list (string * nat) :=
  map (fun kn => if String.eqb (fst kn) category then (fst kn, S (snd kn))
                 else kn) categoryCount.

Definition completed (p : Progress) : bool := is_completed (fst p).

(** [calculateTopicsByCategory]. *)
Definition calculateTopicsByCategory (userProgress : list Progress)
    : list (string * nat) :=
  fold_left
    (fun categoryCount progress =>
       match snd progress with
       | Some topic =>
           if existsb (String.eqb (Topic.category topic)) categories
           then bump (Topic.category topic) categoryCount
           else categoryCount
       | None => categoryCount
       end)
    (List.filter completed userProgress)
    (map (fun c => (c, 0%nat)) categories).

(** The count of a category in the object. *)
Definition count_of (category : string) (categoryCount : list (string * nat))
    : nat :=
  match find (fun kn => String.eqb (fst kn) category) categoryCount with
  | Some kn => snd kn
  | None => 0
  end.

(** A completed row that counts for [category]. *)
Definition counts_for (category : string) (p : Progress) : bool :=
  completed p
  && match snd p with
     | Some topic => String.eqb (Topic.category topic) category
     | None => false
     end.

(** *** Skill gaps *)

Record SkillGap : Type := {
  category : string;
  requiredLevel : Z;
  currentLevel : Z;
  gap : Q
}.

Definition levels (a m n c e b t r : Z) : list (string * Z) :=
  [("AI_FUNDAMENTALS", a); ("MACHINE_LEARNING", m); ("NLP", n);
   ("COMPUTER_VISION", c); ("ETHICS", e); ("BUSINESS_AI", b); ("TOOLS", t);
   ("TRENDS", r)].

(** The names every JavaScript object answers to without having
    them as keys of its own. *)
Definition inherited : list string :=
  ["constructor"; "toString"; "toLocaleString"; "valueOf"; "hasOwnProperty";
   "isPrototypeOf"; "propertyIsEnumerable"; "__proto__";
   "__defineGetter__"; "__defineSetter__"; "__lookupGetter__";
   "__lookupSetter__"].

Definition is_inherited (name : string) : bool :=
  existsb (String.eqb name) inherited.

(** [roleRequirements[userRole] || roleRequirements['PM']], as the
    entries the map runs over: an inherited name finds a value without
    entries. *)
Definition requirements (userRole : string) : list (string * Z) :=
  if String.eqb userRole "PM" then levels 8 6 5 4 9 9 7 8
  else if String.eqb userRole "Designer" then levels 7 5 6 8 8 6 8 7
  else if String.eqb userRole "Executive" then levels 8 5 4 3 10 10 5 9
  else if String.eqb userRole "Developer" then levels 9 8 7 7 7 6 9 6
  else if is_inherited userRole then []
  else levels 8 6 5 4 9 9 7 8.

(** The row is pushed on the list of its category. *)
Definition graded (p : Progress) : bool :=
  completed p && match snd p with Some _ => true | None => false end.

(** [progress.masteryScore * 10]; a null score counts 0. *)
Definition level (p : Progress) : Q :=
  (default 0 (UserProgress.masteryScore (fst p)) * 10)%Q.

(** [currentLevels[category]] after the [forEach]. *)
Definition levels_of (category : string) (userProgress : list Progress)
    : list Q :=
  map level (List.filter (counts_for category) userProgress).

Definition sum_Q (l : list Q) : Q := fold_left Qplus l 0%Q.

(** [Math.round]. *)
Definition round (q : Q) : Z := Qfloor (q + (1 # 2)).

Definition Qmax (a b : Q) : Q := if Qle_bool a b then b else a.

Definition skill_gap (userProgress : list Progress) (entry : string * Z)
    : SkillGap :=
  let categoryLevels := levels_of (fst entry) userProgress in
  let currentLevel0 :=
    match categoryLevels with
    | [] => 0%Q
    | _ => (sum_Q categoryLevels
            / inject_Z (Z.of_nat (length categoryLevels)))%Q
    end in
  {| category := fst entry;
     requiredLevel := snd entry;
     currentLevel := round currentLevel0;
     gap := Qmax 0 (inject_Z (snd entry) - currentLevel0) |}.

(** [(a, b) => b.gap - a.gap] is positive. *)
Definition smaller_gap (a b : SkillGap) : bool :=
  negb (Qle_bool (gap b) (gap a)).

(** A completed row whose topic has a category that is no key of
    [currentLevels] but an inherited name: [push] is not a function of what
    is found there, and the [catch] answers with the empty list. *)
Definition breaks (p : Progress) : bool :=
  graded p
  && match snd p with
     | Some topic => is_inherited (Topic.category topic)
     | None => false
     end.

(** [calculateSkillGaps]. *)
Definition calculateSkillGaps (uid userRole : string) (db : Database)
    (topics : list Topic.t) : list SkillGap :=
  let userProgress := progress_with_topics uid db topics in
  if existsb breaks userProgress then []
  else Arrays.sort smaller_gap
         (map (skill_gap userProgress) (requirements userRole)).

(** *** Recommendations *)

(** [s.replace('_', ' ')]: the first underscore only. *)
Fixpoint replace_underscore (s : string) : string :=
  match s with
  | EmptyString => EmptyString
  | String c r =>
      if Ascii.eqb c "_" then String " " r else String c (replace_underscore r)
  end.

Definition seven_days : Z := 7 * 24 * 60 * 60 * 1000.

Definition fallback_recommendation : string :=
  "Keep up the great work! Consider exploring advanced topics in your strongest areas".

Section Recommendations.
(** How a number is written in a template string. *)
Variable numberText : Q -> string.

Definition focus (g : SkillGap) : string :=
  "Focus on " +:+ toLowerCase (replace_underscore (category g))
  +:+ " - you're " +:+ numberText (gap g)
  +:+ " points below the recommended level for your role".

(** The array [recommendations] of [generateRecommendations] at time
    [now], as it is when the [return] is reached. *)
Definition recommendations (uid : string) (skillGaps : list SkillGap)
    (learningVelocity : Q) (db : Database) (now : Z) : list string :=
  let topGaps := firstn 3 skillGaps in
  let r1 :=
    flat_map (fun g => if negb (Qle_bool (gap g) 2) then [focus g] else [])
      topGaps in
  let r2 :=
    if negb (Qle_bool 1 learningVelocity) then
      (r1 ++ ["Try to complete at least 1 topic per week to maintain steady progress"])%list
    else if negb (Qle_bool learningVelocity 3) then
      (r1 ++ ["Great pace! Consider spending more time on practice scenarios to deepen your understanding"])%list
    else r1 in
  let recentActivity :=
    length (List.filter
      (fun s => String.eqb (LearningSession.userId s) uid
                && (now - seven_days <=? LearningSession.startTime s)%Z)
      (learningSessions db)) in
  let r3 :=
    if (recentActivity =? 0)%nat then
      (r2 ++ ["You haven't learned anything this week. Try to maintain a consistent learning schedule"])%list
    else r2 in
  if (length r3 =? 0)%nat then (r3 ++ [fallback_recommendation])%list
  else r3.

(** [generateRecommendations]: [recommendations.slice(0, 5)]. *)
Definition generateRecommendations (uid : string) (skillGaps : list SkillGap)
    (learningVelocity : Q) (db : Database) (now : Z) : list string :=
  firstn 5 (recommendations uid skillGaps learningVelocity db now).

End Recommendations.

(** *** Streaks *)

Definition day_length : Z := 24 * 60 * 60 * 1000.

(** The calendar day of a time, in a zone without clock changes. *)
Definition day_of (t : Z) : Z := (t / day_length)%Z.

(** The first loop: the leading dates that are today, yesterday,
    the day before and so on. *)
Fixpoint current_from (expected : Z) (uniqueDates : list Z) : nat :=
  match uniqueDates with
  | [] => 0
  | d :: r =>
      if (d =? expected)%Z then S (current_from (expected - 1) r) else 0
  end.

(** The second loop from index 1 on, [previous] being the date
    before. *)
Fixpoint longest_from (previous : Z) (tempStreak longestStreak : nat)
    (rest : list Z) : nat :=
  match rest with
  | [] => Nat.max longestStreak tempStreak
  | d :: r =>
      if (previous - d =? 1)%Z
      then longest_from d (S tempStreak) longestStreak r
      else longest_from d 1 (Nat.max longestStreak tempStreak) r
  end.

(** [calculateLearningStreaks] on the start times of the user's
    completed sessions, as the query orders them, at time [now]. *)
Definition calculateLearningStreaks (startTimes : list Z) (now : Z)
    : nat * nat :=
  match startTimes with
  | [] => (0%nat, 0%nat)
  | _ =>
      let dates := map day_of startTimes in
      let uniqueDates := Arrays.sort Z.ltb (Arrays.unique dates) in
      (current_from (day_of now) uniqueDates,
       match uniqueDates with
       | [] => 1%nat
       | d :: r => longest_from d 1 0 r
       end)
  end.

(** *** Weeks *)

(** [getDay()] of a time: 0 is Sunday; the first day of the epoch
    was a Thursday. *)
Definition getDay (t : Z) : Z := ((day_of t + 4) mod 7)%Z.

(** [getWeekStart]: [setDate] moves the date by whole days and keeps
    the time of day. *)
Definition getWeekStart (date : Z) : Z :=
  let day := getDay date in
  let diff := (- day + (if (day =? 0)%Z then -6 else 1))%Z in
  (date + diff * day_length)%Z.

(** *** The comparison with similar users *)

Record Comparison : Type := {
  percentile : Z;
  comparison : string;
  benchmarks : list (string * Q)
}.

(** [getComparativeAnalytics]; [currentStreak] is the streak of the
    user's analytics. *)
Definition getComparativeAnalytics (uid : string) (db : Database) (now : Z)
    (currentStreak : nat) : Comparison :=
  match User.findByPk uid (users db), calculateUserAnalytics uid db now with
  | Some user, Returned userAnalytics =>
      let similarUsers :=
        List.filter (fun u => String.eqb (User.role u) (User.role user)
                              && User.isActive u) (users db) in
      if (length similarUsers <? 2)%nat then
        {| percentile := 50; comparison := "Not enough data for comparison";
           benchmarks := [] |}
      else
        let p1 :=
          if (15 <? totalTopicsCompleted userAnalytics)%nat
          then (50 + 25)%Z else 50%Z in
        let p2 :=
          if negb (Qle_bool (learningVelocity userAnalytics) (3 # 2))
          then (p1 + 15)%Z else p1 in
        let p3 := if (5 <? currentStreak)%nat then (p2 + 10)%Z else p2 in
        let percentile0 := Z.min 95 (Z.max 5 p3) in
        {| percentile := percentile0;
           comparison :=
             if (75 <? percentile0)%Z
             then "You're performing better than most users with your role!"
             else if (50 <? percentile0)%Z
             then "You're doing great! A bit above average."
             else "Keep going! There's room for improvement.";
           benchmarks :=
             [("averageTopicsCompleted", 15%Q);
              ("averageLearningVelocity", (3 # 2)%Q);
              ("averageStreak", 5%Q)] |}
  | _, _ =>
      {| percentile := 50; comparison := "Unable to calculate comparison";
         benchmarks := [] |}
  end.

End Insights.

(* ===================================================================== *)
(** ** src/agents/LearningStrategistAgent.ts: analyzeCurrentKnowledge *)
(* ===================================================================== *)

Module Strategist.

(** [TopicCategory] of src/types. *)
Inductive TopicCategory : Set :=
| AI_FUNDAMENTALS
| MACHINE_LEARNING
| NLP
| COMPUTER_VISION
| ETHICS
| BUSINESS_AI
| TOOLS
| TRENDS.

#[global] Instance TopicCategory_eq_dec : EqDecision TopicCategory.
Proof. solve_decision. Defined.

Section Analysis.
(** The topics, with the category each one has. *)
Context {T : Type}.
Variable category : T -> TopicCategory.

(** The object [knowledgeByCategory]: its keys in the order they
    were added, each with the topics pushed on it. *)
Definition Coverage : Type := list (TopicCategory * list T).

Definition lookup_category (c : TopicCategory) (k : Coverage)
    : option (list T) :=
  snd <$> find (fun e => bool_decide (fst e = c)) k.

(** The body of the [forEach]: the array is created at the first
    topic of a category, then the topic is pushed. *)
Fixpoint push (c : TopicCategory) (topic : T) (k : Coverage) : Coverage :=
  match k with
  | [] => [(c, [topic])]
  | (c', topics) :: rest =>
      if bool_decide (c' = c) then (c', (topics ++ [topic])%list) :: rest
      else (c', topics) :: push c topic rest
  end.

Record Analysis : Type := {
  totalTopicsCompleted : nat;
  categoryCoverage : Coverage;
  strongAreas : list TopicCategory;
  emergingAreas : list TopicCategory;
  gapAreas : list TopicCategory
}.

Definition core_areas : list TopicCategory :=
  [AI_FUNDAMENTALS; MACHINE_LEARNING; BUSINESS_AI; ETHICS].

(** [analyzeCurrentKnowledge]; the profile is not read. *)
Definition analyzeCurrentKnowledge (completedTopics : list T) : Analysis :=
  let knowledgeByCategory :=
    fold_left (fun k topic => push (category topic) topic k)
      completedTopics [] in
  {| totalTopicsCompleted := length completedTopics;
     categoryCoverage := knowledgeByCategory;
     strongAreas :=
       map fst (List.filter (fun e => (3 <=? length (snd e))%nat)
                  knowledgeByCategory);
     emergingAreas :=
       map fst (List.filter
                  (fun e => (length (snd e) =? 1)%nat
                            || (length (snd e) =? 2)%nat)
                  knowledgeByCategory);
     gapAreas :=
       List.filter
         (fun c => match lookup_category c knowledgeByCategory with
                   | Some _ => false
                   | None => true
                   end) core_areas |}.

(** The completed topics of a category, in their order. *)
Definition of_category (c : TopicCategory) (completedTopics : list T)
    : list T :=
  List.filter (fun topic => bool_decide (category topic = c)) completedTopics.

End Analysis.

End Strategist.

(* ===================================================================== *)
(** ** The stand-alone server with in-memory storage: the routes
       that parse a completion *)
(* ===================================================================== *)

Module SimpleServer.
Import Json.

Definition newsletter_prompt : string :=
  "Extract 2-3 key AI concepts from this content. For each concept, provide: title, category (AI_FUNDAMENTALS, BUSINESS_AI, etc), difficulty (Beginner/Intermediate/Advanced), and definition. Return as JSON array.".

Definition fallback_topic : json :=
  JObj [("title", JStr "AI Content Analysis");
        ("category", JStr "AI_FUNDAMENTALS");
        ("difficulty", JStr "Intermediate");
        ("definition",
         JStr "The process of extracting meaningful insights from text using AI models.")].

Definition fallback_path (targetRole : string) (timeframe : Z) : json :=
  JObj [("title", JStr ("AI Learning Path for " +:+ targetRole));
        ("description",
         JStr "A comprehensive learning journey tailored to your role");
        ("estimatedDays", Orchestrator.JInt timeframe);
        ("topics",
         JArr [JStr "AI Fundamentals"; JStr "Business Applications";
               JStr "Implementation Strategies"])].

Definition fallback_research (query : string) : json :=
  JObj [("query", JStr query);
        ("analysis",
         JObj [("keyFindings",
                JArr [JStr "AI adoption is accelerating";
                      JStr "Integration challenges remain";
                      JStr "ROI potential is significant"]);
               ("trends",
                JArr [JStr "Increased automation";
                      JStr "Better user experiences"; JStr "Cost reduction"]);
               ("confidence", JNum "8")]);
        ("insights",
         JObj [("recommendations",
                JArr [JStr "Start with pilot projects";
                      JStr "Invest in training";
                      JStr "Focus on high-impact areas"]);
               ("nextSteps",
                JArr [JStr "Assess current capabilities";
                      JStr "Define success metrics";
                      JStr "Create implementation plan"])])].

(** [JSON.parse(response.choices[0].message.content)] inside its
    [try]: a content of [null] parses to [null]; [None] is the
    [SyntaxError] the [catch] takes. *)
Definition parse_content (content : option string) : option json :=
  match content with
  | None => Some JNull
  | Some text => JSON_parse text
  end.

(** [topics.join(', ')]. *)
Fixpoint join (topics : list string) : string :=
  match topics with
  | [] => EmptyString
  | [t] => t
  | t :: rest => t +:+ ", " +:+ join rest
  end.

Section Routes.
(** The client, [undefined] without an API key; and the object
    stored for an extracted topic: its properties with [id], [source] and
    [createdAt] added. *)
Variable openai : option (list (string * string) -> Outcome (option string)).
Variable stored_topic : option string -> json -> json.

(** The handler of [POST /api/agents/process-newsletter], behind the
    token check, on the array [topics]. *)
Definition process_newsletter (content : string) (source : option string)
    (topics : list json) : Server.Response * list json :=
  match openai with
  | None => (Server.Failure 400 "OpenAI API key not configured", topics)
  | Some complete =>
      match complete [("system", newsletter_prompt); ("user", content)] with
      | Threw m => (Server.Failure 500 m, topics)
      | Returned reply =>
          let extractedTopics :=
            match parse_content reply with
            | Some v => v
            | None => JArr [fallback_topic]
            end in
          match extractedTopics with
          | JArr items =>
              (Server.Success extractedTopics,
               (topics ++ map (stored_topic source) items)%list)
          | JNull =>
              (Server.Failure 500
                 "Cannot read properties of null (reading 'forEach')",
               topics)
          | _ =>
              (Server.Failure 500 "extractedTopics.forEach is not a function",
               topics)
          end
      end
  end.

(** The handler of [POST /api/agents/generate-learning-path]. *)
Definition generate_learning_path (targetRole : string) (timeframe : Z)
    : Server.Response :=
  match openai with
  | None => Server.Failure 400 "OpenAI API key not configured"
  | Some complete =>
      match complete
              [("system",
                "Create a personalized " +:+ pretty timeframe
                +:+ "-day learning path for someone targeting the role: "
                +:+ targetRole
                +:+ ". Return a JSON object with title, description, estimatedDays, and topics array.");
               ("user",
                "Create a learning path for " +:+ targetRole +:+ " role")] with
      | Threw m => Server.Failure 500 m
      | Returned reply =>
          Server.Success
            match parse_content reply with
            | Some v => v
            | None => fallback_path targetRole timeframe
            end
      end
  end.

(** The handler of [POST /api/agents/conduct-research]. *)
Definition conduct_research (query : string) (topics : list string)
    (depth : string) : Server.Response :=
  match openai with
  | None => Server.Failure 400 "OpenAI API key not configured"
  | Some complete =>
      match complete
              [("system",
                "Conduct " +:+ depth +:+ " research on: " +:+ query
                +:+ ". Focus on topics: " +:+ join topics
                +:+ ". Provide key findings, trends, and actionable insights. Return as JSON with analysis and insights.");
               ("user", query)] with
      | Threw m => Server.Failure 500 m
      | Returned reply =>
          Server.Success
            match parse_content reply with
            | Some v => v
            | None => fallback_research query
            end
      end
  end.

End Routes.

End SimpleServer.

(* ===================================================================== *)
(** ** More concrete requests and stores *)
(* ===================================================================== *)

Module Scenarios.

Definition service : AuthService.t := AuthService.new Examples.env.

(** A registration, and a second one that reuses its address. *)
Definition grace : AuthService.Registration := {|
  AuthService.email := "grace@example.org";
  AuthService.password := "nanoseconds";
  AuthService.firstName := "Grace";
  AuthService.lastName := "Hopper";
  AuthService.role := Some "Developer";
  AuthService.experience := Some "Advanced";
  AuthService.learningGoals := None;
  AuthService.industry := None
|}.

Definition grace_again : AuthService.Registration := {|
  AuthService.email := "grace@example.org";
  AuthService.password := "compilers";
  AuthService.firstName := "G.";
  AuthService.lastName := "Hopper";
  AuthService.role := None;
  AuthService.experience := None;
  AuthService.learningGoals := Some "prompting";
  AuthService.industry := None
|}.

(** Two topic objects whose titles differ in case, spacing and
    punctuation only. *)
Definition rag : Curator.TopicData := {|
  Curator.title := Models.Value "Retrieval-Augmented Generation";
  Curator.category := Models.Value "NLP";
  Curator.difficulty := Models.Absent;
  Curator.estimatedTimeMinutes := Models.Absent;
  Curator.definition :=
    Models.Value "Answering with passages fetched at question time.";
  Curator.explanation :=
    Models.Value "The model reads retrieved passages before it answers.";
  Curator.whyItMatters :=
    Models.Value "Answers can cite sources that are newer than the model.";
  Curator.realWorldExample :=
    Models.Value "A support desk that answers from its own manuals.";
  Curator.tags := Models.Absent
|}.

Definition rag_shouted : Curator.TopicData := {|
  Curator.title := Models.Value "RETRIEVAL-AUGMENTED   generation!?";
  Curator.category := Curator.category rag;
  Curator.difficulty := Curator.difficulty rag;
  Curator.estimatedTimeMinutes := Models.Value 20%Z;
  Curator.definition := Curator.definition rag;
  Curator.explanation := Curator.explanation rag;
  Curator.whyItMatters := Curator.whyItMatters rag;
  Curator.realWorldExample := Curator.realWorldExample rag;
  Curator.tags := Models.Value ["rag"]
|}.

(** A key generator that numbers the rows. *)
Definition numbered (table : list Topic.t) : string :=
  "t-" +:+ pretty (length table).

(** A reader of parsed topic objects: the last member with the name
    counts, a string is a value, [null] is null. *)
Fixpoint member (name : string) (members : list (string * Json.json))
    : option Json.json :=
  match members with
  | [] => None
  | (k, v) :: rest =>
      match member name rest with
      | Some x => Some x
      | None => if String.eqb k name then Some v else None
      end
  end.

Definition text_of (name : string) (j : Json.json) : Models.Attr string :=
  match j with
  | Json.JObj members =>
      match member name members with
      | Some (Json.JStr body) => Models.Value body
      | Some Json.JNull => Models.Null
      | _ => Models.Absent
      end
  | _ => Models.Absent
  end.

Definition read_topic (j : Json.json) : Curator.TopicData := {|
  Curator.title := text_of "title" j;
  Curator.category := text_of "category" j;
  Curator.difficulty := text_of "difficulty" j;
  Curator.estimatedTimeMinutes := Models.Absent;
  Curator.definition := text_of "definition" j;
  Curator.explanation := text_of "explanation" j;
  Curator.whyItMatters := text_of "whyItMatters" j;
  Curator.realWorldExample := text_of "realWorldExample" j;
  Curator.tags := Models.Absent
|}.

Definition slug_of (t : Topic.t) : Json.json := Json.JStr (Topic.slug t).

(** A completion that lists the same topic twice. *)
Definition quoted (s : string) : string :=
  String Json.dquote s +:+ String Json.dquote EmptyString.

Definition topic_text : string :=
  "{" +:+ quoted "title" +:+ ":" +:+ quoted "Vector search"
  +:+ "," +:+ quoted "category" +:+ ":" +:+ quoted "TOOLS"
  +:+ "," +:+ quoted "definition" +:+ ":" +:+ quoted "Search by nearness."
  +:+ "," +:+ quoted "explanation" +:+ ":" +:+ quoted "Texts become points."
  +:+ "," +:+ quoted "whyItMatters" +:+ ":" +:+ quoted "It finds paraphrases."
  +:+ "," +:+ quoted "realWorldExample" +:+ ":" +:+ quoted "A help centre."
  +:+ "}".

Definition twice_completion (messages : list (string * string))
    : Outcome (option string) :=
  Returned (Some ("[" +:+ topic_text +:+ "," +:+ topic_text +:+ "]")).

(** A completion API that is down. *)
Definition no_completion (messages : list (string * string))
    : Outcome (option string) :=
  Threw "quota exceeded".

Definition no_usage (messages : list (string * string))
    : Json.json * Json.json :=
  (Json.JNum "0", Json.JNum "0").

(** The server of the examples with a content curator whose
    completion API is down. *)
Definition curator_down : Orchestrator.Agent :=
  Curator.agent numbered "2026-01-01T00:00:00.000Z" read_topic slug_of
    no_completion "You are a Content Curator Agent" no_usage
    ["What should I learn next?"] ["Would examples be helpful?"] []
    Examples.echo.

Definition down_server : Orchestrator.System :=
  Orchestrator.registerAgent Orchestrator.CONTENT_CURATOR curator_down
    Examples.server.

Definition attention_body : Server.ChatBody := {|
  Server.b_message := Some "Explain attention";
  Server.b_topicId := None;
  Server.b_context := None;
  Server.b_preferredAgent := Some Orchestrator.CONTENT_CURATOR
|}.

(** A chat that names no agent; the word article sends it to the
    content curator. *)
Definition article_body : Server.ChatBody := {|
  Server.b_message := Some "Sum up this article on attention";
  Server.b_topicId := None;
  Server.b_context := None;
  Server.b_preferredAgent := None
|}.

(** A topic on ethics, and Ada's completed progress on it with a
    mastery of four fifths. *)
Definition ethics_topic : Topic.t := {|
  Topic.id := "t-ethics";
  Topic.title := "Bias in training data";
  Topic.slug := "bias-in-training-data";
  Topic.category := "ETHICS";
  Topic.difficulty := "Beginner";
  Topic.estimatedTimeMinutes := Some 15%Z;
  Topic.definition := "Skew a model inherits from its examples.";
  Topic.explanation := "A model repeats the patterns of its data.";
  Topic.whyItMatters := "Decisions made with it can be unfair.";
  Topic.realWorldExample := "A screening tool that prefers one group.";
  Topic.tags := Some [];
  Topic.metadata := Some (Json.JObj []);
  Topic.sourceUrl := None;
  Topic.sourceType := Some "MANUAL"
|}.

Definition ada_progress : Models.UserProgress.t := {|
  Models.UserProgress.id := "p-1";
  Models.UserProgress.userId := "7b1c-ada";
  Models.UserProgress.topicId := "t-ethics";
  Models.UserProgress.status := Some Models.UserProgress.COMPLETED;
  Models.UserProgress.confidenceLevel := Some 7%Z;
  Models.UserProgress.masteryScore := Some (4 # 5)%Q;
  Models.UserProgress.timeSpentMinutes := Some 25%Z;
  Models.UserProgress.completedAt := Some 100%Z;
  Models.UserProgress.difficultyRating := None
|}.

Definition learner_database : LearningAnalyticsEngine.Database := {|
  LearningAnalyticsEngine.users := [Examples.ada];
  LearningAnalyticsEngine.userProgress := [ada_progress];
  LearningAnalyticsEngine.learningSessions := Examples.ada_sessions
|}.

End Scenarios.

(* ===================================================================== *)
(** * Theorems *)
(* ===================================================================== *)

(** ** Text *)

Lemma startsWith_spec (p s : string) :
  Text.startsWith p s = true <-> exists post, s = p +:+ post.
Proof.
  revert s. induction p as [|a p IH]; intros s; simpl.
  - split; [intros _; by exists s | done].
  - destruct s as [|b s]; simpl.
    + split; [done | intros [post Hpost]; discriminate].
    + rewrite andb_true_iff, IH. split.
      * intros [Hab [post ->]]. apply Ascii.eqb_eq in Hab as ->. by exists post.
      * intros [post Heq]. injection Heq as -> ->. split.
        -- apply Ascii.eqb_refl.
        -- by exists post.
Qed.

Lemma includes_spec (s kw : string) :
  Text.includes s kw = true <-> Text.Substring kw s.
Proof.
  split.
  - induction s as [|c r IH]; simpl; rewrite orb_true_iff.
    + intros [H|H]; [|done].
      apply startsWith_spec in H as [post ->]. by exists EmptyString, post.
    + intros [H|H].
      * apply startsWith_spec in H as [post ->]. by exists EmptyString, post.
      * destruct (IH H) as (pre & post & ->). by exists (String c pre), post.
  - intros (pre & post & ->). induction pre as [|c pre IH]; simpl.
    + assert (H : Text.startsWith kw (kw +:+ post) = true)
        by (apply startsWith_spec; by exists post).
      destruct (kw +:+ post); simpl; by rewrite H.
    + rewrite orb_true_iff. by right.
Qed.

Lemma includes_false_spec (s kw : string) :
  Text.includes s kw = false <-> ~ Text.Substring kw s.
Proof.
  rewrite <- includes_spec. by destruct (Text.includes s kw).
Qed.

(** One group of three keywords of [determineOptimalAgent]. *)
Lemma mentions_three (m a b c : string) :
  Text.includes (Text.toLowerCase m) a
  || Text.includes (Text.toLowerCase m) b
  || Text.includes (Text.toLowerCase m) c = true
  <-> Spec.mentions m [a; b; c].
Proof.
  rewrite !orb_true_iff, !includes_spec. unfold Spec.mentions. split.
  - intros [[H|H]|H]; eexists; (split; [|exact H]); simpl; auto.
  - intros (kw & Hin & H). simpl in Hin.
    destruct Hin as [<-|[<-|[<-|[]]]]; auto.
Qed.

Lemma not_mentions_three (m a b c : string) :
  Text.includes (Text.toLowerCase m) a
  || Text.includes (Text.toLowerCase m) b
  || Text.includes (Text.toLowerCase m) c = false
  <-> ~ Spec.mentions m [a; b; c].
Proof.
  rewrite <- mentions_three.
  by destruct (_ || _ || _).
Qed.

Lemma determineOptimalAgent_selects (m : string) :
  Spec.selects m (Orchestrator.determineOptimalAgent m).
Proof.
  unfold Orchestrator.determineOptimalAgent.
  destruct (_ || _ || _) eqn:H1.
  { apply Spec.select_practice. by apply mentions_three. }
  apply not_mentions_three in H1.
  destruct (_ || _ || _) eqn:H2.
  { apply Spec.select_research; [done | by apply mentions_three]. }
  apply not_mentions_three in H2.
  destruct (_ || _ || _) eqn:H3.
  { apply Spec.select_strategy; [done | done | by apply mentions_three]. }
  apply not_mentions_three in H3.
  destruct (_ || _ || _) eqn:H4.
  { apply Spec.select_content; [done | done | done | by apply mentions_three]. }
  apply not_mentions_three in H4.
  by apply Spec.select_default.
Qed.

(** The scan looks for substrings, in any letter case, and the first
    group wins. *)
Example determineOptimalAgent_on_messages :
  Orchestrator.determineOptimalAgent "Plan my PRACTICE for this week"
  = Orchestrator.PRACTICE_COACH
  /\ Orchestrator.determineOptimalAgent "A newsletter on the latest models"
     = Orchestrator.RESEARCH_ASSISTANT
  /\ Orchestrator.determineOptimalAgent "What is sociopathy?"
     = Orchestrator.LEARNING_STRATEGIST
  /\ Orchestrator.determineOptimalAgent "Summarise this article"
     = Orchestrator.CONTENT_CURATOR
  /\ Orchestrator.determineOptimalAgent "What is a neural network?"
     = Orchestrator.CONVERSATION_COACH.
Proof. repeat split; reflexivity. Qed.

Lemma selects_functional (m : string) (a b : Orchestrator.AgentType) :
  Spec.selects m a -> Spec.selects m b -> a = b.
Proof. intros Ha Hb. destruct Ha; destruct Hb; done. Qed.

(** ** The orchestrator *)

Section OrchestratorFacts.
Import Orchestrator.

Lemma new_key_fresh (m : gmap nat AgentSessionRow) : m !! new_key m = None.
Proof. apply not_elem_of_dom. unfold new_key. apply is_fresh. Qed.

Lemma call_agent_sessions a missing c s :
  sessions (snd (call_agent a missing c s)) = sessions s
  /\ agents (snd (call_agent a missing c s)) = agents s.
Proof.
  unfold call_agent. destruct (agents s !! a) as [agent|]; [|done].
  by destruct (agent c (clock s)).
Qed.

Lemma call_agent_missing a missing c s :
  agents s !! a = None -> call_agent a missing c s = (Threw missing, s).
Proof. unfold call_agent. by intros ->. Qed.

(** What [settle] leaves in the table. *)
Lemma settle_row key field o s row :
  sessions s !! key = Some row ->
  fst (settle key field (o, s)) = o
  /\ agents (snd (settle key field (o, s))) = agents s
  /\ clock (snd (settle key field (o, s))) = clock s
  /\ (forall k, k <> key ->
        sessions (snd (settle key field (o, s))) !! k = sessions s !! k)
  /\ exists final,
       sessions (snd (settle key field (o, s))) !! key = Some final
       /\ id final = id row /\ userId final = userId row
       /\ agentType final = agentType row
       /\ startTime final = startTime row
       /\ endTime final = Some (clock s)
       /\ tokensUsed final = tokensUsed row /\ cost final = cost row
       /\ match o with
          | Returned v =>
              status final = COMPLETED
              /\ resultData final = Json.JObj [(field, v)]
              /\ errorMessage final = errorMessage row
          | Threw msg =>
              status final = FAILED /\ errorMessage final = Some msg
              /\ resultData final = resultData row
          end.
Proof.
  intros Hrow. destruct o as [v|msg]; simpl;
    (repeat split; [by intros k Hk; rewrite lookup_alter_ne|]);
    rewrite lookup_alter_eq, Hrow; simpl; eexists; (split; [done|]);
    simpl; by repeat split.
Qed.

(** Every handler is [tracked]. *)
Lemma processNewsletter_tracked uid d s :
  processNewsletter uid d s =
  Spec.tracked uid CONTENT_CURATOR
    (obj [("source", Json.JStr <$> source d)]) "topics"
    "Content Curator Agent not available"
    (fun sid => CallProcessContent (content d) uid sid (source d)) s.
Proof. done. Qed.

Lemma generateLearningPath_tracked uid d s :
  generateLearningPath uid d s =
  Spec.tracked uid LEARNING_STRATEGIST
    (obj [("targetRole", Json.JStr <$> targetRole d);
          ("timeframe", JInt <$> timeframe d)]) "learningPath"
    "Learning Strategist Agent not available"
    (fun sid => CallGeneratePath (userProfile d) (completedTopics d)
                  (targetRole d) (timeframe d) sid) s.
Proof. done. Qed.

Lemma generatePracticeScenario_tracked uid d s :
  generatePracticeScenario uid d s =
  Spec.tracked uid PRACTICE_COACH
    (obj [("topicId", Json.JStr <$> topicId d);
          ("difficulty", Json.JStr <$> difficulty d)]) "scenario"
    "Practice Coach Agent not available"
    (fun sid => CallGenerateScenario (topicId d) (difficulty d)
                  (userProfile d) (scenarioType d) sid) s.
Proof. done. Qed.

Lemma processResearchQuery_tracked uid d s :
  processResearchQuery uid d s =
  Spec.tracked uid RESEARCH_ASSISTANT
    (obj [("query", Json.JStr <$> query d);
          ("topics", (fun l => Json.JArr (Json.JStr <$> l)) <$> topics d)])
    "research" "Research Assistant Agent not available"
    (fun sid => CallConductResearch (query d) (topics d)
                  (if Text.truthy (depth d) then default "detailed" (depth d)
                   else "detailed") sid) s.
Proof. done. Qed.

Lemma processChatRequest_tracked uid d s a :
  chooseAgent d = Returned a ->
  processChatRequest uid d s =
  Spec.tracked uid a
    (obj [("topicId", Json.JStr <$> topicId d);
          ("originalMessage", Json.JStr <$> message d)]) "response"
    (AgentType_text a +:+ " Agent not available")
    (fun sid => CallProcessChat (message d) (topicId d) (chatContext d)
                  uid sid) s.
Proof. unfold processChatRequest. simpl. by intros ->. Qed.

(** The session record of a tracked call, from creation to the end. *)
Lemma tracked_lifecycle uid a ctx field missing call s :
  let sid := fst (generateSessionId s) in
  let created :=
    createAgentSession uid a sid ctx (snd (generateSessionId s)) in
  let active := fst created in
  let result := Spec.tracked uid a ctx field missing call s in
  id active = new_key (sessions s)
  /\ sessions s !! id active = None
  /\ sessions (snd created) !! id active = Some active
  /\ fst result = fst (call_agent a missing (call sid) (snd created))
  /\ agents (snd result) = agents s
  /\ (forall k, k <> id active ->
        sessions (snd result) !! k = sessions s !! k)
  /\ exists final,
       sessions (snd result) !! id active = Some final
       /\ userId final = uid /\ agentType final = a
       /\ startTime final = Some (clock s)
       /\ endTime final = Some (clock (snd result))
       /\ tokensUsed final = 0%Z /\ cost final = 0%Z
       /\ match fst result with
          | Returned v =>
              status final = COMPLETED
              /\ resultData final = Json.JObj [(field, v)]
          | Threw msg =>
              status final = FAILED /\ errorMessage final = Some msg
          end.
Proof.
  intros sid created active result.
  assert (Hkey : id active = new_key (sessions s)) by done.
  assert (Hfresh : sessions s !! id active = None)
    by (rewrite Hkey; apply new_key_fresh).
  assert (Hact : sessions (snd created) !! id active = Some active)
    by (simpl; apply lookup_insert_eq).
  destruct (call_agent_sessions a missing (call sid) (snd created))
    as [Hs Ha].
  assert (Hrow : sessions (snd (call_agent a missing (call sid) (snd created)))
                 !! id active = Some active) by (by rewrite Hs).
  unfold result, Spec.tracked. fold sid. fold created. fold active.
  destruct (call_agent a missing (call sid) (snd created)) as [o s2] eqn:Hc.
  simpl in Hrow, Hs, Ha.
  destruct (settle_row (id active) field o s2 active Hrow)
    as (Ho & Hag & Hck & Hother & final & Hfin & _ & Hu & Hty & Hst & Hen
        & Htok & Hcost & Hout).
  split; [done|]. split; [done|]. split; [done|].
  split; [by rewrite Ho|]. split; [by rewrite Hag, Ha|].
  split.
  { intros k Hk. rewrite Hother, Hs by done. simpl.
    apply lookup_insert_ne. congruence. }
  exists final. rewrite Ho, Hck.
  repeat split; try done.
  destruct o; tauto.
Qed.

(** A request leaves the registry of agents as it is. *)
Lemma processLearningRequest_agents uid request s :
  agents (snd (processLearningRequest uid request s)) = agents s.
Proof.
  unfold processLearningRequest.
  repeat (destruct (String.eqb _ _); [
    first [ rewrite processNewsletter_tracked
          | rewrite generateLearningPath_tracked
          | rewrite generatePracticeScenario_tracked
          | rewrite processResearchQuery_tracked
          | idtac ] |]); try done;
    try (by apply tracked_lifecycle).
  unfold processChatRequest. simpl.
  destruct (chooseAgent (data request)) as [a|msg] eqn:Ha; [|done].
  by apply (tracked_lifecycle uid a).
Qed.

(** In the server as assembled the chat fallback has no agent. *)
Lemma assemble_agents c l p r start rand (a : AgentType) :
  agents (Server.assemble c l p r start rand) !! a =
  match a with
  | CONTENT_CURATOR => Some c
  | LEARNING_STRATEGIST => Some l
  | PRACTICE_COACH => Some p
  | RESEARCH_ASSISTANT => Some r
  | CONVERSATION_COACH => None
  end.
Proof.
  unfold Server.assemble, registerAgent. simpl.
  destruct a; by simplify_map_eq.
Qed.

Lemma reachable_agents s :
  Server.reachable s ->
  exists c l p r,
    forall a : AgentType,
      agents s !! a =
      match a with
      | CONTENT_CURATOR => Some c
      | LEARNING_STRATEGIST => Some l
      | PRACTICE_COACH => Some p
      | RESEARCH_ASSISTANT => Some r
      | CONVERSATION_COACH => None
      end.
Proof.
  induction 1 as [c l p r start rand|s uid request _ IH|s t _ IH].
  - exists c, l, p, r. apply assemble_agents.
  - destruct IH as (c & l & p & r & IH). exists c, l, p, r.
    by rewrite processLearningRequest_agents.
  - done.
Qed.

End OrchestratorFacts.

(** ** Claims about the orchestrator *)

Section OrchestratorClaims.
Import Orchestrator.



(** C4. A request whose type tag is none of the five fails with
    "Unknown request type: <tag>"; the system is left as it was: no
    session record is written and no agent is called, whatever agents are
    registered. *)
Theorem unknown_request_type (uid : string) (request : LearningRequest)
    (s : System) :
  ~ In (type request) Spec.request_types ->
  processLearningRequest uid request s
  = (Threw ("Unknown request type: " +:+ type request), s)
  /\ sessions (snd (processLearningRequest uid request s)) = sessions s
  /\ forall registry,
       fst (processLearningRequest uid request
              (with_agents (fun _ => registry) s))
       = Threw ("Unknown request type: " +:+ type request).
Proof.
  intros Hnot.
  assert (Hgen : forall s0, processLearningRequest uid request s0
            = (Threw ("Unknown request type: " +:+ type request), s0)).
  { intros s0. unfold processLearningRequest.
    repeat match goal with
    | |- context [String.eqb (type request) ?tag] =>
        destruct (String.eqb_spec (type request) tag) as [Heq|_];
        [exfalso; apply Hnot; rewrite Heq; simpl; tauto|]
    end.
    done. }
  split; [apply Hgen|]. split; [by rewrite Hgen|].
  intros registry. by rewrite Hgen.
Qed.

Lemma unknown_request_type_witness :
  ~ In (type Examples.unknown_request) Spec.request_types
  /\ processLearningRequest "u1" Examples.unknown_request Examples.server
     = (Threw "Unknown request type: QUIZ", Examples.server).
Proof.
  assert (H : ~ In (type Examples.unknown_request) Spec.request_types).
  { simpl. intros [H|[H|[H|[H|[H|[]]]]]]; discriminate H. }
  split; [exact H|].
  exact (proj1 (unknown_request_type "u1" Examples.unknown_request
                  Examples.server H)).
Defined.

End OrchestratorClaims.

Section SessionClaims.
Import Orchestrator.

Lemma request_is_tracked (uid : string) (request : LearningRequest)
    (s : System) :
  In (type request) Spec.request_types ->
  (type request = "CHAT" -> preferredAgent (data request) = None ->
   message (data request) <> None) ->
  exists a ctx field missing call,
    processLearningRequest uid request s
    = Spec.tracked uid a ctx field missing call s.
Proof.
  intros Hin Hmsg. unfold processLearningRequest. simpl in Hin.
  destruct Hin as [H|[H|[H|[H|[H|[]]]]]]; symmetry in H; rewrite H; simpl.
  - rewrite processNewsletter_tracked. by repeat eexists.
  - rewrite generateLearningPath_tracked. by repeat eexists.
  - rewrite generatePracticeScenario_tracked. by repeat eexists.
  - rewrite processResearchQuery_tracked. by repeat eexists.
  - specialize (Hmsg H).
    assert (Ha : exists a, chooseAgent (data request) = Returned a).
    { unfold chooseAgent. destruct (preferredAgent (data request)); [by eexists|].
      destruct (message (data request)); [by eexists | by destruct Hmsg]. }
    destruct Ha as [a Ha].
    rewrite (processChatRequest_tracked uid (data request) s a Ha).
    by repeat eexists.
Qed.




(** C9. In every system the assembled server goes through, the agents
    registered are the four of the start and CONVERSATION_COACH is not
    among them. A chat request that names no agent and whose lowercased
    message contains none of the twelve keywords is given to
    CONVERSATION_COACH, fails with "CONVERSATION_COACH Agent not
    available", and leaves its session record FAILED with that message;
    the chat route answers it with status 500 and that error. *)
Theorem default_fallback_fails `{Libraries} (s : System) (m : string) :
  Server.reachable s ->
  (forall kw,
     In kw (Spec.practice_words ++ Spec.research_words
            ++ Spec.strategy_words ++ Spec.content_words)%list ->
     ~ Text.Substring kw (Text.toLowerCase m)) ->
  (forall a : AgentType, is_Some (agents s !! a) <-> a <> CONVERSATION_COACH)
  /\ (forall uid d,
       message d = Some m -> preferredAgent d = None ->
       chooseAgent d = Returned CONVERSATION_COACH
       /\ fst (processLearningRequest uid {| type := "CHAT"; data := d |} s)
          = Threw "CONVERSATION_COACH Agent not available"
       /\ exists row,
            sessions (snd (processLearningRequest uid
                             {| type := "CHAT"; data := d |} s))
              !! new_key (sessions s) = Some row
            /\ agentType row = CONVERSATION_COACH
            /\ status row = FAILED
            /\ errorMessage row
               = Some "CONVERSATION_COACH Agent not available")
  /\ (forall env authHeader body user,
       Server.b_message body = Some m ->
       Server.b_preferredAgent body = None ->
       Middleware.authenticateToken env authHeader (clock s)
       = Middleware.Next user ->
       fst (Server.post_chat env authHeader body s)
       = Server.Failure 500 "CONVERSATION_COACH Agent not available").
Proof.
  intros Hreach Hnone.
  destruct (reachable_agents s Hreach) as (c & l & p & r & Hagents).
  assert (Hdefault : determineOptimalAgent m = CONVERSATION_COACH).
  { apply (selects_functional m); [apply determineOptimalAgent_selects|].
    apply Spec.select_default; intros (kw & Hin & Hsub);
      apply (Hnone kw); try done; simpl in *; tauto. }
  assert (Hcore : forall uid d,
    message d = Some m -> preferredAgent d = None ->
    chooseAgent d = Returned CONVERSATION_COACH
    /\ fst (processLearningRequest uid {| type := "CHAT"; data := d |} s)
       = Threw "CONVERSATION_COACH Agent not available"
    /\ exists row,
         sessions (snd (processLearningRequest uid
                          {| type := "CHAT"; data := d |} s))
           !! new_key (sessions s) = Some row
         /\ agentType row = CONVERSATION_COACH
         /\ status row = FAILED
         /\ errorMessage row = Some "CONVERSATION_COACH Agent not available").
  { intros uid d Hm Hp.
    assert (Ha : chooseAgent d = Returned CONVERSATION_COACH)
      by (unfold chooseAgent; rewrite Hp, Hm; by rewrite Hdefault).
    split; [exact Ha|].
    change (processLearningRequest uid {| type := "CHAT"; data := d |} s)
      with (processChatRequest uid d s).
    rewrite (processChatRequest_tracked uid d s _ Ha).
    match goal with
    | |- context [Spec.tracked uid ?a ?ctx ?f ?mi ?cl s] =>
        destruct (tracked_lifecycle uid a ctx f mi cl s)
          as (_ & _ & _ & Hfst & _ & _ & final & Hfin & _ & Hty & _ & _ & _
              & _ & Hout)
    end.
    rewrite call_agent_missing in Hfst
      by (simpl; rewrite Hagents; reflexivity).
    rewrite Hfst in Hout. rewrite Hfst.
    split; [reflexivity|]. exists final.
    split; [exact Hfin|]. split; [exact Hty|]. exact Hout. }
  split.
  { intros a. rewrite Hagents. destruct a; split; try done;
      intros; try (by eexists); by destruct 1. }
  split; [exact Hcore|].
  intros env authHeader body user Hm Hp Hauth.
  unfold Server.post_chat, Server.guarded. rewrite Hauth.
  match goal with
  | |- context [processLearningRequest ?u {| type := "CHAT"; data := ?d |} s] =>
      destruct (Hcore u d Hm Hp) as (_ & Hfst & _);
      destruct (processLearningRequest u {| type := "CHAT"; data := d |} s)
        as [o s'] eqn:Hreq
  end.
  simpl in Hfst. subst o. reflexivity.
Qed.

Lemma default_fallback_fails_witness :
  Server.reachable Examples.server
  /\ (forall kw,
       In kw (Spec.practice_words ++ Spec.research_words
              ++ Spec.strategy_words ++ Spec.content_words)%list ->
       ~ Text.Substring kw (Text.toLowerCase "What is a neural network?"))
  /\ fst (processLearningRequest "u1"
            (Examples.chat_request "What is a neural network?")
            Examples.server)
     = Threw "CONVERSATION_COACH Agent not available".
Proof.
  assert (H1 : Server.reachable Examples.server) by apply Server.reach_start.
  assert (H2 : forall kw,
       In kw (Spec.practice_words ++ Spec.research_words
              ++ Spec.strategy_words ++ Spec.content_words)%list ->
       ~ Text.Substring kw (Text.toLowerCase "What is a neural network?")).
  { intros kw Hin. apply includes_false_spec. simpl in Hin.
    repeat (destruct Hin as [<-|Hin]; [reflexivity|]). destruct Hin. }
  split; [exact H1|]. split; [exact H2|].
  exact (proj1 (proj2 (proj1 (proj2
    (@default_fallback_fails Reference.libraries Examples.server
       "What is a neural network?" H1 H2))
    "u1" (Examples.chat "What is a neural network?" None) eq_refl eq_refl))).
Defined.

End SessionClaims.

(** ** The reference library obeys the laws the claims assume *)

Section ReferenceFacts.
Import Text.

Lemma chars_app (a b : string) :
  list_ascii_of_string (a +:+ b)
  = (list_ascii_of_string a ++ list_ascii_of_string b)%list.
Proof. induction a as [|c a IH]; simpl; [done|]. by rewrite IH. Qed.

(** A text without the separator is one piece. *)
Lemma includes_char (sep c : ascii) (r : string) :
  includes (String c r) (String sep EmptyString)
  = Ascii.eqb sep c || includes r (String sep EmptyString).
Proof. simpl. by destruct (Ascii.eqb sep c), r. Qed.

Lemma free_includes (sep : ascii) (s : string) :
  Forall (fun c => c <> sep) (list_ascii_of_string s) ->
  includes s (String sep EmptyString) = false.
Proof.
  induction s as [|c r IH]; [done|]. intros Hall.
  apply Forall_cons in Hall as [Hc Hr]. rewrite includes_char, (IH Hr).
  destruct (Ascii.eqb_spec sep c); [by subst|done].
Qed.

Lemma split_on_piece (sep : ascii) (s rest : string) :
  includes s (String sep EmptyString) = false ->
  split_on sep (s +:+ String sep rest) = s :: split_on sep rest.
Proof.
  induction s as [|c r IH]; intros Hfree.
  - simpl. by rewrite Ascii.eqb_refl.
  - rewrite includes_char in Hfree. apply orb_false_iff in Hfree as [Hc Hr].
    simpl. rewrite (IH Hr).
    rewrite Ascii.eqb_sym in Hc. by rewrite Hc.
Qed.

Lemma split_on_whole (sep : ascii) (s : string) :
  includes s (String sep EmptyString) = false ->
  split_on sep s = [s].
Proof.
  induction s as [|c r IH]; intros Hfree; [done|].
  rewrite includes_char in Hfree. apply orb_false_iff in Hfree as [Hc Hr].
  simpl. rewrite (IH Hr). rewrite Ascii.eqb_sym in Hc.
  by rewrite Hc.
Qed.

(** The header [Bearer <token>] of a token without blanks. *)
Lemma bearer_token_of (token : string) :
  includes token " " = false ->
  Middleware.bearer_token (Some ("Bearer " +:+ token)) = Some token.
Proof.
  intros Hfree. unfold Middleware.bearer_token.
  change ("Bearer " +:+ token) with ("Bearer" +:+ String " " token).
  rewrite (split_on_piece " " "Bearer" token) by reflexivity.
  by rewrite (split_on_whole " " token Hfree).
Qed.

(** Hexadecimal text and back. *)
Lemma hex_value_digit (n : nat) :
  (n < 16)%nat -> Reference.hex_value (Reference.hex_digit n) = Some n.
Proof.
  intros Hn. do 16 (destruct n as [|n]; [reflexivity|]). lia.
Qed.

Lemma unhex_hex (s : string) : Reference.unhex (Reference.hex s) = Some s.
Proof.
  induction s as [|c r IH]; [done|].
  cbn [Reference.hex Reference.unhex].
  pose proof (nat_ascii_bounded c) as Hc.
  assert (Hhi : (nat_of_ascii c / 16 < 16)%nat)
    by (apply Nat.Div0.div_lt_upper_bound; lia).
  assert (Hlo : (nat_of_ascii c mod 16 < 16)%nat)
    by (apply Nat.mod_upper_bound; lia).
  rewrite (hex_value_digit _ Hhi), (hex_value_digit _ Hlo), IH.
  cbn [mbind option_bind]. by rewrite <- Nat.div_mod_eq, ascii_nat_embedding.
Qed.

Lemma hex_digit_char (n : nat) :
  In (Reference.hex_digit n) (list_ascii_of_string "0123456789abcdef").
Proof.
  unfold Reference.hex_digit.
  do 16 (destruct n as [|n];
           [simpl; repeat first [left; reflexivity | right]|]).
  rewrite nth_overflow by (simpl; lia). simpl. by left.
Qed.

Lemma hex_free (sep : ascii) (s : string) :
  ~ In sep (list_ascii_of_string "0123456789abcdef-") ->
  Forall (fun c => c <> sep) (list_ascii_of_string (Reference.hex s)).
Proof.
  intros Hsep.
  assert (Hd : forall n, Reference.hex_digit n <> sep).
  { intros n <-. apply Hsep. pose proof (hex_digit_char n) as Hin.
    change (list_ascii_of_string "0123456789abcdef-")
      with (list_ascii_of_string "0123456789abcdef" ++ ["-"%char])%list.
    apply in_or_app. by left. }
  induction s as [|c r IH]; simpl; [constructor|].
  constructor; [apply Hd|]. constructor; [apply Hd|]. exact IH.
Qed.

(** Decimal text and back. *)
Lemma pretty_N_char_digit (d : N) :
  (d < 10)%N ->
  Json.is_digit (pretty_N_char d) = true
  /\ Z.of_nat (nat_of_ascii (pretty_N_char d) - 48) = Z.of_N d
  /\ In (pretty_N_char d) (list_ascii_of_string "0123456789abcdef-").
Proof.
  intros Hd.
  assert (Hcases : (d = 0 \/ d = 1 \/ d = 2 \/ d = 3 \/ d = 4 \/ d = 5
                    \/ d = 6 \/ d = 7 \/ d = 8 \/ d = 9)%N) by lia.
  decompose [or] Hcases; subst d; (split; [reflexivity|]);
    (split; [reflexivity|]); simpl;
    repeat first [left; reflexivity | right].
Qed.

Lemma digits_of_pretty (x : N) :
  forall s, exists k : Z,
    forall acc,
      Reference.digits_value (pretty_N_go x s) acc
      = Reference.digits_value s (acc * k + Z.of_N x)%Z.
Proof.
  induction (N.lt_wf_0 x) as [x _ IH]. intros s.
  destruct (N.eq_dec x 0%N) as [->|Hx].
  - exists 1%Z. intros acc. rewrite pretty_N_go_0. f_equal. lia.
  - assert (Hpos : (0 < x)%N) by lia.
    rewrite pretty_N_go_step by done.
    destruct (IH (x `div` 10)%N ltac:(by apply N.div_lt)
                (String (pretty_N_char (x `mod` 10)) s)) as [k Hk].
    exists (10 * k)%Z. intros acc. rewrite Hk.
    assert (Hd : (x `mod` 10 < 10)%N) by (by apply N.mod_lt).
    destruct (pretty_N_char_digit _ Hd) as (Hdig & Hval & _).
    cbn [Reference.digits_value]. rewrite Hdig, Hval. f_equal.
    pose proof (N.div_mod x 10 ltac:(done)) as Hdm.
    apply (f_equal Z.of_N) in Hdm.
    rewrite N2Z.inj_add, N2Z.inj_mul in Hdm. change (Z.of_N 10) with 10%Z in Hdm.
    lia.
Qed.

Lemma pretty_N_go_free (sep : ascii) (x : N) :
  ~ In sep (list_ascii_of_string "0123456789abcdef-") ->
  forall s, Forall (fun c => c <> sep) (list_ascii_of_string s) ->
  Forall (fun c => c <> sep) (list_ascii_of_string (pretty_N_go x s)).
Proof.
  intros Hsep. induction (N.lt_wf_0 x) as [x _ IH]. intros s Hs.
  destruct (N.eq_dec x 0%N) as [->|Hx]; [by rewrite pretty_N_go_0|].
  rewrite pretty_N_go_step by lia.
  apply IH; [apply N.div_lt; lia|]. simpl. constructor; [|done].
  intros <-. apply Hsep.
  by apply pretty_N_char_digit, N.mod_lt.
Qed.

Lemma pretty_positive_digits (p : positive) :
  exists c r,
    pretty (Z.pos p) = String c r /\ c <> "-"%char
    /\ Reference.digits_value (String c r) 0 = Some (Z.pos p).
Proof.
  change (pretty (Z.pos p)) with (pretty_N_go (N.pos p) "").
  destruct (digits_of_pretty (N.pos p) "") as [k Hk].
  specialize (Hk 0%Z). cbn [Reference.digits_value] in Hk.
  destruct (pretty_N_go (N.pos p) "") as [|c r] eqn:Hs.
  - simpl in Hk. by injection Hk.
  - exists c, r. split; [done|]. split; [|by rewrite Hk].
    intros ->. simpl in Hk. discriminate Hk.
Qed.

Lemma parse_Z_unsigned (c : ascii) (r : string) :
  c <> "-"%char ->
  Reference.parse_Z (String c r) = Reference.digits_value (String c r) 0.
Proof.
  intros Hc. unfold Reference.parse_Z.
  destruct c as [[] [] [] [] [] [] [] []]; try reflexivity. by destruct Hc.
Qed.

Lemma parse_Z_pretty (z : Z) : Reference.parse_Z (pretty z) = Some z.
Proof.
  destruct z as [|p|p].
  - reflexivity.
  - destruct (pretty_positive_digits p) as (c & r & -> & Hc & Hv).
    by rewrite parse_Z_unsigned.
  - change (pretty (Z.neg p)) with ("-" +:+ pretty (Z.pos p)).
    destruct (pretty_positive_digits p) as (c & r & -> & Hc & Hv).
    change ("-" +:+ String c r) with (String "-" (String c r)).
    unfold Reference.parse_Z. cbn [Json.nonempty]. by rewrite Hv.
Qed.

Lemma pretty_Z_free (sep : ascii) (z : Z) :
  ~ In sep (list_ascii_of_string "0123456789abcdef-") ->
  Forall (fun c => c <> sep) (list_ascii_of_string (pretty z)).
Proof.
  intros Hsep.
  assert (Hdash : "-"%char <> sep) by (intros <-; apply Hsep; simpl; tauto).
  assert (Hzero : "0"%char <> sep) by (intros <-; apply Hsep; simpl; tauto).
  destruct z as [|p|p].
  - by repeat constructor.
  - change (pretty (Z.pos p)) with (pretty_N_go (N.pos p) "").
    apply pretty_N_go_free; [done|constructor].
  - change (pretty (Z.neg p)) with (String "-" (pretty_N_go (N.pos p) "")).
    simpl. constructor; [done|]. apply pretty_N_go_free; [done|constructor].
Qed.

(** The reference library verifies what it signed, and its tokens are
    non-empty texts without a blank. *)
Lemma reference_round_trip (p : JWTPayload.t) (key : string) :
  Reference.decode (Reference.sign p key) key = Some p.
Proof.
  assert (Hdot : ~ In "."%char (list_ascii_of_string "0123456789abcdef-"))
    by (simpl; intuition discriminate).
  unfold Reference.decode, Reference.sign.
  change ("ref." +:+ ?x) with ("ref" +:+ String "." x).
  rewrite (split_on_piece "." "ref") by reflexivity.
  repeat match goal with
  | |- context [split_on "." (Reference.hex ?a +:+ "." +:+ ?x)] =>
      change (Reference.hex a +:+ "." +:+ x)
        with (Reference.hex a +:+ String "." x);
      rewrite (split_on_piece "." (Reference.hex a))
        by (apply free_includes, hex_free, Hdot)
  | |- context [split_on "." (pretty ?z +:+ "." +:+ ?x)] =>
      change (pretty z +:+ "." +:+ x) with (pretty z +:+ String "." x);
      rewrite (split_on_piece "." (pretty z))
        by (apply free_includes, pretty_Z_free, Hdot)
  end.
  rewrite (split_on_whole "." (pretty (JWTPayload.exp p)))
    by (apply free_includes, pretty_Z_free, Hdot).
  rewrite !String.eqb_refl. cbn [andb].
  rewrite !unhex_hex, !parse_Z_pretty. simpl. by destruct p.
Qed.

Lemma reference_token_shape (p : JWTPayload.t) (key : string) :
  truthy (Some (Reference.sign p key)) = true
  /\ includes (Reference.sign p key) " " = false.
Proof.
  assert (Hsep : ~ In " "%char (list_ascii_of_string "0123456789abcdef-"))
    by (simpl; intuition discriminate).
  split; [reflexivity|]. apply free_includes.
  unfold Reference.sign. rewrite !chars_app.
  repeat (apply Forall_app; split);
    first [ apply hex_free, Hsep | apply pretty_Z_free, Hsep
          | repeat constructor; discriminate ].
Qed.

End ReferenceFacts.

(** ** Claims about authentication *)

Section AuthClaims.
Import AuthService Middleware.
Context `{Libraries}.

Lemma login_update_succeeds (u : User.t) (now : Z) (table : list User.t) :
  User.update u
    {| User.c_email := None; User.c_password := None;
       User.c_firstName := None; User.c_lastName := None;
       User.c_role := None; User.c_experience := None;
       User.c_learningGoals := None; User.c_industry := None;
       User.c_preferences := None; User.c_lastActive := Some now;
       User.c_isActive := None |} table
  = (Returned
       {| User.id := User.id u; User.email := User.email u;
          User.password := User.password u;
          User.firstName := User.firstName u;
          User.lastName := User.lastName u; User.role := User.role u;
          User.experience := User.experience u;
          User.learningGoals := User.learningGoals u;
          User.industry := User.industry u;
          User.preferences := User.preferences u;
          User.lastActive := now; User.isActive := User.isActive u |},
     Models.replace_row User.id (User.id u)
       {| User.id := User.id u; User.email := User.email u;
          User.password := User.password u;
          User.firstName := User.firstName u;
          User.lastName := User.lastName u; User.role := User.role u;
          User.experience := User.experience u;
          User.learningGoals := User.learningGoals u;
          User.industry := User.industry u;
          User.preferences := User.preferences u;
          User.lastActive := now; User.isActive := User.isActive u |}
       table).
Proof.
  unfold User.update, User.valid_changes, User.apply. simpl.
  rewrite String.eqb_refl. simpl.
  destruct (User.learningGoals u), (User.industry u); reflexivity.
Qed.

(** What [login] returns for a stored user and her password. *)
Lemma login_returns (this : AuthService.t) (table : list User.t) (u : User.t)
    (pw : string) (now : Z) :
  User.findOne (User.email u) table = Some u ->
  bcrypt_compare pw (User.password u) = true ->
  exists u' table',
    login this (User.email u) pw now table
    = (Returned (sanitizeUser u', generateToken this u now), table')
    /\ u' = User.apply {| User.c_email := None; User.c_password := None;
            User.c_firstName := None; User.c_lastName := None;
            User.c_role := None; User.c_experience := None;
            User.c_learningGoals := None; User.c_industry := None;
            User.c_preferences := None; User.c_lastActive := Some now;
            User.c_isActive := None |} u
    /\ table' = Models.replace_row User.id (User.id u) u' table.
Proof.
  intros Hfind Hpw. unfold login. rewrite Hfind, Hpw. simpl.
  rewrite login_update_succeeds. eexists _, _. split; [reflexivity|].
  unfold User.apply. simpl.
  destruct (User.learningGoals u), (User.industry u); by split.
Qed.

(** The middleware on four headers; the last environment sets no
    secret. *)
Example authenticateToken_on_headers :
  @authenticateToken Reference.libraries Examples.env (Some "Bearer") 1000
  = Respond 401 {| success := false; error := "Access token is required" |}
  /\ @authenticateToken Reference.libraries Examples.env
       (Some "Bearer not.a.token") 1000
     = Respond 403 {| success := false; error := "Invalid or expired token" |}
  /\ @authenticateToken Reference.libraries Examples.env
       (Some ("Bearer " +:+ Examples.ada_token)) 1000
     = Next {| JWTPayload.userId := "7b1c-ada";
               JWTPayload.email := "ada@example.org";
               JWTPayload.role := "PM";
               JWTPayload.iat := 0;
               JWTPayload.exp := 604800 |}
  /\ @authenticateToken Reference.libraries
       {| JWT_SECRET := None; JWT_EXPIRES_IN := None |}
       (Some ("Bearer " +:+ Examples.ada_token)) 1000
     = Respond 500 {| success := false; error := "JWT configuration error" |}.
Proof. repeat split; vm_compute; reflexivity. Qed.

(** C6, as amended. A request behind [authenticateToken]: without a
    header, or with a header that has no second, non-empty piece after a
    blank, the answer is 401 with [{ success: false, error }]; with a
    token, in an environment that sets no secret, it is 500 with such a
    body, whatever the token; with a token that does not verify against
    the secret the environment sets it is 403 with such a body; the
    request goes on, and a guarded route runs its handler, only with the
    payload of a token that verifies. *)
Theorem authenticateToken_responses (env : Env) (authHeader : option string)
    (now : Z) :
  authenticateToken env None now
  = Respond 401 {| success := false; error := "Access token is required" |}
  /\ (Text.truthy (bearer_token authHeader) = false ->
      authenticateToken env authHeader now
      = Respond 401
          {| success := false; error := "Access token is required" |})
  /\ (Text.truthy (bearer_token authHeader) = true ->
      Text.truthy (JWT_SECRET env) = false ->
      authenticateToken env authHeader now
      = Respond 500
          {| success := false; error := "JWT configuration error" |})
  /\ (forall token secret,
        bearer_token authHeader = Some token -> token <> EmptyString ->
        JWT_SECRET env = Some secret -> secret <> EmptyString ->
        jwt_verify token secret now = None ->
        authenticateToken env authHeader now
        = Respond 403
            {| success := false; error := "Invalid or expired token" |})
  /\ (forall user,
        authenticateToken env authHeader now = Next user ->
        exists token secret,
          bearer_token authHeader = Some token
          /\ JWT_SECRET env = Some secret
          /\ jwt_verify token secret now = Some user)
  /\ (forall s handler,
        (forall user,
           authenticateToken env authHeader (Orchestrator.clock s) = Next user ->
           jwt_verify (default EmptyString (bearer_token authHeader))
             (default EmptyString (JWT_SECRET env)) (Orchestrator.clock s)
           = Some user
           /\ Server.guarded env authHeader s handler = handler user)
        /\ ((forall user,
               authenticateToken env authHeader (Orchestrator.clock s)
               <> Next user) ->
            exists status message,
              Server.guarded env authHeader s handler
              = (Server.Failure status message, s))).
Proof.
  split; [reflexivity|]. split.
  { intros Hno. unfold authenticateToken. by rewrite Hno. }
  split.
  { intros Htok Hsec. unfold authenticateToken. by rewrite Htok, Hsec. }
  split.
  { intros token secret Htok Hne Hsec Hsne Hver. unfold authenticateToken.
    rewrite Htok, Hsec. destruct token; [done|]. destruct secret; [done|].
    simpl. simpl in Hver. by rewrite Hver. }
  assert (Hnext : forall t user,
    authenticateToken env authHeader t = Next user ->
    exists token secret,
      bearer_token authHeader = Some token /\ JWT_SECRET env = Some secret
      /\ jwt_verify token secret t = Some user).
  { intros t user. unfold authenticateToken.
    destruct (bearer_token authHeader) as [[|c token]|]; simpl; try done.
    destruct (JWT_SECRET env) as [[|c' secret]|]; simpl; try done.
    destruct (jwt_verify _ _ t) as [p|] eqn:Hver; [|done].
    intros [= <-]. by eexists _, _. }
  split; [apply Hnext|].
  intros s handler. split.
  - intros user Hauth. unfold Server.guarded. rewrite Hauth.
    destruct (Hnext _ _ Hauth) as (token & secret & -> & -> & Hver).
    by split.
  - intros Hnever. unfold Server.guarded.
    destruct (authenticateToken env authHeader (Orchestrator.clock s))
      as [status body|user] eqn:Hauth.
    + by eexists _, _.
    + by destruct (Hnever user).
Qed.

(** C5, as amended. A registered user who logs in with her email and
    her password gets a token. With a token library that verifies what it
    signed and whose tokens are non-empty texts without a blank, verifying
    the token with the secret of the service before its expiry, that is
    less than [jwtExpiresIn] seconds after the login, succeeds with a
    payload that carries her stored id, email and role; and when the
    environment sets the secret, the middleware lets the request with the
    header [Bearer <token>] through with that payload. *)
Theorem login_token_verifies (env : Env) (table : list User.t) (u : User.t)
    (pw : string) (now later : Z) :
  let this := AuthService.new env in
  (forall p key, jwt_decode (jwt_sign p key) key = Some p) ->
  (forall p key,
     Text.truthy (Some (jwt_sign p key)) = true
     /\ Text.includes (jwt_sign p key) " " = false) ->
  User.findOne (User.email u) table = Some u ->
  bcrypt_compare pw (User.password u) = true ->
  (later / 1000 < now / 1000 + jwtExpiresIn this)%Z ->
  exists profile token table' payload,
    login this (User.email u) pw now table
    = (Returned (profile, token), table')
    /\ verifyToken this token later = Returned payload
    /\ JWTPayload.userId payload = User.id u
    /\ JWTPayload.email payload = User.email u
    /\ JWTPayload.role payload = User.role u
    /\ (Text.truthy (JWT_SECRET env) = true ->
        authenticateToken env (Some ("Bearer " +:+ token)) later
        = Next payload).
Proof.
  intros this Hlaw Hshape Hfind Hpw Hlater.
  destruct (login_returns this table u pw now Hfind Hpw)
    as (u' & table' & Hlogin & _ & _).
  set (token := generateToken this u now) in *.
  set (payload := {| JWTPayload.userId := User.id u;
                     JWTPayload.email := User.email u;
                     JWTPayload.role := User.role u;
                     JWTPayload.iat := (now / 1000)%Z;
                     JWTPayload.exp := (now / 1000 + jwtExpiresIn this)%Z |}).
  assert (Htoken : token = jwt_sign payload (jwtSecret this)) by reflexivity.
  assert (Hver : jwt_verify token (jwtSecret this) later = Some payload).
  { unfold jwt_verify. rewrite Htoken, Hlaw. cbn [JWTPayload.exp payload].
    by rewrite (proj2 (Z.leb_gt _ _) Hlater). }
  exists (sanitizeUser u'), token, table', payload.
  split; [exact Hlogin|].
  split; [unfold verifyToken; by rewrite Hver|].
  do 3 (split; [reflexivity|]).
  intros Henv. unfold authenticateToken.
  destruct (Hshape payload (jwtSecret this)) as [Hfull Hfree].
  rewrite <- Htoken in Hfull, Hfree.
  rewrite (bearer_token_of token Hfree), Hfull, Henv. simpl.
  assert (Hsecret : default EmptyString (JWT_SECRET env) = jwtSecret this)
    by (unfold this, AuthService.new; simpl; by rewrite Henv).
  by rewrite Hsecret, Hver.
Qed.

End AuthClaims.

Lemma login_token_verifies_witness :
  User.findOne (User.email Examples.ada) [Examples.ada] = Some Examples.ada
  /\ @AuthService.verifyToken Reference.libraries
       (AuthService.new Examples.env) Examples.ada_token 86400000
     = Returned {| JWTPayload.userId := "7b1c-ada";
                   JWTPayload.email := "ada@example.org";
                   JWTPayload.role := "PM";
                   JWTPayload.iat := 0;
                   JWTPayload.exp := 604800 |}.
Proof.
  split; [reflexivity|].
  destruct (@login_token_verifies Reference.libraries Examples.env
              [Examples.ada] Examples.ada "correct horse" 0 86400000
              reference_round_trip reference_token_shape
              eq_refl eq_refl eq_refl)
    as (profile & token & table' & payload & Hlogin & Hver & _).
  assert (Htoken : token = Examples.ada_token).
  { assert (Hrun : @AuthService.login Reference.libraries
                     (AuthService.new Examples.env)
                     (User.email Examples.ada) "correct horse" 0
                     [Examples.ada]
                   = (Returned (profile, Examples.ada_token), table')).
    { rewrite Hlogin. f_equal. f_equal. f_equal.
      assert (Hfst : fst (@AuthService.login Reference.libraries
                 (AuthService.new Examples.env)
                 (User.email Examples.ada) "correct horse" 0 [Examples.ada])
               = Returned (profile, token)) by (by rewrite Hlogin).
      vm_compute in Hfst. injection Hfst as _ <-. vm_compute. reflexivity. }
    rewrite Hlogin in Hrun. by injection Hrun. }
  subst token. vm_compute. reflexivity.
Defined.

(** C5, as worded, fails twice. Ada logs in at time 0 with her
    password; seven days later the same secret no longer verifies her
    token, and the middleware answers 403. And where the environment sets
    no [JWT_SECRET] the service signs with its built-in secret and
    verifies its own token, while the middleware answers 500 to a request
    that carries it. *)
Lemma login_token_expires :
  (exists profile table',
     @AuthService.login Reference.libraries (AuthService.new Examples.env)
       "ada@example.org" "correct horse" 0 [Examples.ada]
     = (Returned (profile, Examples.ada_token), table')
     /\ User.isActive Examples.ada = true
     /\ @AuthService.verifyToken Reference.libraries
          (AuthService.new Examples.env) Examples.ada_token
          Examples.a_week_later
        = Threw "Invalid token"
     /\ @Middleware.authenticateToken Reference.libraries Examples.env
          (Some ("Bearer " +:+ Examples.ada_token)) Examples.a_week_later
        = Middleware.Respond 403
            {| Middleware.success := false;
               Middleware.error := "Invalid or expired token" |})
  /\ (let bare := {| AuthService.JWT_SECRET := None;
                     AuthService.JWT_EXPIRES_IN := None |} in
      exists profile token table' payload,
        @AuthService.login Reference.libraries (AuthService.new bare)
          "ada@example.org" "correct horse" 0 [Examples.ada]
        = (Returned (profile, token), table')
        /\ @AuthService.verifyToken Reference.libraries
             (AuthService.new bare) token 1000
           = Returned payload
        /\ JWTPayload.userId payload = User.id Examples.ada
        /\ @Middleware.authenticateToken Reference.libraries bare
             (Some ("Bearer " +:+ token)) 1000
           = Middleware.Respond 500
               {| Middleware.success := false;
                  Middleware.error := "JWT configuration error" |}).
Proof.
  split.
  - eexists _, _. split; [vm_compute; reflexivity|].
    split; [reflexivity|]. split; vm_compute; reflexivity.
  - eexists _, _, _, _. split; [vm_compute; reflexivity|].
    split; [vm_compute; reflexivity|]. split; vm_compute; reflexivity.
Qed.

(** C6, as worded, fails: in an environment that sets no [JWT_SECRET]
    a request with a bearer token that no secret verifies is answered with
    status 500, not 403. *)
Lemma bad_token_without_secret :
  let bare := {| AuthService.JWT_SECRET := None;
                 AuthService.JWT_EXPIRES_IN := None |} in
  let header := Some "Bearer not.a.token" in
  Middleware.bearer_token header = Some "not.a.token"
  /\ (forall secret,
        @jwt_verify Reference.libraries "not.a.token" secret 1000 = None)
  /\ @Middleware.authenticateToken Reference.libraries bare header 1000
     = Middleware.Respond 500
         {| Middleware.success := false;
            Middleware.error := "JWT configuration error" |}.
Proof.
  split; [reflexivity|]. split; [|vm_compute; reflexivity].
  intros secret. reflexivity.
Qed.

(** ** The password hash and the public profile *)

Section ProfileClaims.
Import AuthService.
Context `{Libraries}.

Lemma same_but_password_fields (u1 u2 : User.t) :
  Spec.same_but_password u1 u2 ->
  User.id u1 = User.id u2 /\ User.email u1 = User.email u2
  /\ User.role u1 = User.role u2 /\ User.experience u1 = User.experience u2
  /\ sanitizeUser u1 = sanitizeUser u2.
Proof.
  destruct u1, u2. unfold Spec.same_but_password, Spec.with_password. simpl.
  intros [= -> -> -> -> -> -> -> -> -> -> ->]. by repeat split.
Qed.

Lemma same_but_password_apply (c : User.Changes) (u1 u2 : User.t) :
  User.c_password c = None ->
  Spec.same_but_password u1 u2 ->
  Spec.same_but_password (User.apply c u1) (User.apply c u2).
Proof.
  destruct u1, u2. unfold Spec.same_but_password, Spec.with_password. simpl.
  intros Hc [= -> -> -> -> -> -> -> -> -> -> ->]. unfold User.apply. simpl.
  by rewrite Hc.
Qed.

(** Tables that differ at most in the password hashes. *)
Lemma find_related (P : User.t -> bool) (t1 t2 : list User.t) :
  (forall a b, Spec.same_but_password a b -> P a = P b) ->
  Forall2 Spec.same_but_password t1 t2 ->
  match find P t1, find P t2 with
  | Some a, Some b => Spec.same_but_password a b
  | None, None => True
  | _, _ => False
  end.
Proof.
  intros HP. induction 1 as [|a b l1 l2 Hab _ IH]; simpl; [done|].
  rewrite (HP a b Hab). by destruct (P b).
Qed.

Lemma existsb_related (P : User.t -> bool) (t1 t2 : list User.t) :
  (forall a b, Spec.same_but_password a b -> P a = P b) ->
  Forall2 Spec.same_but_password t1 t2 ->
  existsb P t1 = existsb P t2.
Proof.
  intros HP. induction 1 as [|a b l1 l2 Hab _ IH]; simpl; [done|].
  by rewrite (HP a b Hab), IH.
Qed.

Lemma other_rows_related (pk : string) (t1 t2 : list User.t) :
  Forall2 Spec.same_but_password t1 t2 ->
  Forall2 Spec.same_but_password
    (Models.other_rows User.id pk t1) (Models.other_rows User.id pk t2).
Proof.
  induction 1 as [|a b l1 l2 Hab _ IH]; simpl; [constructor|].
  destruct (same_but_password_fields a b Hab) as (-> & _).
  destruct (negb _); [by constructor | done].
Qed.

Lemma by_email_related (e : string) (a b : User.t) :
  Spec.same_but_password a b ->
  String.eqb (User.email a) e = String.eqb (User.email b) e.
Proof. intros Hab. by destruct (same_but_password_fields a b Hab) as (_ & -> & _). Qed.

Lemma by_id_related (pk : string) (a b : User.t) :
  Spec.same_but_password a b ->
  String.eqb (User.id a) pk = String.eqb (User.id b) pk.
Proof. intros Hab. by destruct (same_but_password_fields a b Hab) as (-> & _). Qed.

(** [update] answers alike on rows and tables that differ at most in the
    password hashes, when the password is not what is changed. *)
Lemma update_related (c : User.Changes) (u1 u2 : User.t)
    (t1 t2 : list User.t) :
  User.c_password c = None ->
  Spec.same_but_password u1 u2 ->
  Forall2 Spec.same_but_password t1 t2 ->
  match fst (User.update u1 c t1), fst (User.update u2 c t2) with
  | Returned a, Returned b =>
      Spec.same_but_password a b /\ a = User.apply c u1 /\ b = User.apply c u2
  | Threw m1, Threw m2 => m1 = m2
  | _, _ => False
  end.
Proof.
  intros Hc Hu Ht. unfold User.update, User.valid_changes.
  pose proof (same_but_password_apply c u1 u2 Hc Hu) as Hu'.
  destruct (same_but_password_fields u1 u2 Hu) as (Hid & Hem & Hro & Hex & _).
  destruct (same_but_password_fields _ _ Hu') as (_ & Hem' & _).
  rewrite Hid, Hem, Hro, Hex, Hem'.
  destruct (negb (_ && _ && _)); [done|].
  unfold User.email_taken.
  rewrite (existsb_related _ _ _ (by_email_related _)
             (other_rows_related (User.id u2) t1 t2 Ht)).
  by destruct (_ && _).
Qed.

Lemma replace_row_In {A} (key : A -> string) (r r' : A) (table : list A) :
  In r table -> In r' (Models.replace_row key (key r) r' table).
Proof.
  induction table as [|x rest IH]; simpl; [done|].
  intros [->|Hin].
  - rewrite String.eqb_refl. by left.
  - destruct (String.eqb (key x) (key r)); right; by apply IH.
Qed.

Lemma update_stores (c : User.Changes) (u u' : User.t)
    (table table' : list User.t) :
  In u table ->
  User.update u c table = (Returned u', table') -> In u' table'.
Proof.
  intros Hin. unfold User.update.
  destruct (negb _); [done|]. destruct (_ && _); [done|].
  intros [= <- <-]. by apply replace_row_In.
Qed.

(** C10. The profile [sanitizeUser] builds does not depend on the
    password hash. The user that [register], [login], [getUserById] and
    [updateUser] return is [sanitizeUser] of a row of the table; and on two
    tables that differ at most in the password hashes, [getUserById],
    [updateUser] and [register] give the same answers, and two successful
    logins the same profile and token. *)
Theorem profiles_hide_password (this : AuthService.t) :
  (forall u h, sanitizeUser (Spec.with_password h u) = sanitizeUser u)
  /\ (forall userData pk now table profile token table',
       register this userData pk now table
       = (Returned (profile, token), table') ->
       exists u, In u table' /\ profile = sanitizeUser u)
  /\ (forall email password now table profile token table',
       login this email password now table
       = (Returned (profile, token), table') ->
       exists u, In u table' /\ profile = sanitizeUser u)
  /\ (forall userId table profile,
       getUserById userId table = Returned (Some profile) ->
       exists u, In u table /\ profile = sanitizeUser u)
  /\ (forall userId updates table profile table',
       updateUser userId updates table = (Returned profile, table') ->
       exists u, In u table' /\ profile = sanitizeUser u)
  /\ (forall t1 t2,
       Forall2 Spec.same_but_password t1 t2 ->
       (forall userId, getUserById userId t1 = getUserById userId t2)
       /\ (forall userId updates,
            fst (updateUser userId updates t1)
            = fst (updateUser userId updates t2))
       /\ (forall userData pk now,
            fst (register this userData pk now t1)
            = fst (register this userData pk now t2))
       /\ (forall email password now r1 r2,
            fst (login this email password now t1) = Returned r1 ->
            fst (login this email password now t2) = Returned r2 ->
            r1 = r2)).
Proof.
  split; [by intros [] h|]. split.
  { intros userData pk now table profile token table'. unfold register.
    destruct (User.findOne _ table); [done|].
    unfold User.create. destruct (negb _); [done|]. destruct (_ || _); [done|].
    intros [= <- _ <-]. eexists. split; [|reflexivity].
    apply in_or_app. right. by left. }
  split.
  { intros email0 password0 now table profile token table'. unfold login.
    destruct (User.findOne email0 table) as [u|] eqn:Hfind; [|done].
    destruct (negb _); [done|].
    destruct (User.update u _ table) as [[u'|m] tb] eqn:Hupd; [|done].
    intros [= <- _ <-]. exists u'. split; [|done].
    eapply update_stores; [|exact Hupd].
    by apply find_some in Hfind as [Hin _]. }
  split.
  { intros userId table profile. unfold getUserById, User.findByPk.
    destruct (Models.find_row User.id userId table) as [u|] eqn:Hfind; [|done].
    intros [= <-]. exists u. split; [|done].
    by apply find_some in Hfind as [Hin _]. }
  split.
  { intros userId updates table profile table'. unfold updateUser, User.findByPk.
    destruct (Models.find_row User.id userId table) as [u|] eqn:Hfind; [|done].
    destruct (User.update u _ table) as [[u'|m] tb] eqn:Hupd; [|done].
    intros [= <- <-]. exists u'. split; [|done].
    eapply update_stores; [|exact Hupd].
    by apply find_some in Hfind as [Hin _]. }
  intros t1 t2 Ht. split.
  { intros userId. unfold getUserById, User.findByPk, Models.find_row.
    pose proof (find_related (fun r => String.eqb (User.id r) userId) t1 t2
                  (by_id_related userId) Ht) as Hf.
    destruct (find _ t1) as [a|], (find _ t2) as [b|]; try done.
    by destruct (same_but_password_fields a b Hf) as (_ & _ & _ & _ & ->). }
  split.
  { intros userId updates. unfold updateUser, User.findByPk, Models.find_row.
    pose proof (find_related (fun r => String.eqb (User.id r) userId) t1 t2
                  (by_id_related userId) Ht) as Hf.
    destruct (find _ t1) as [a|], (find _ t2) as [b|]; try done.
    pose proof (update_related (changes_of updates) a b t1 t2 eq_refl Hf Ht)
      as Hu.
    destruct (User.update a _ t1) as [[a'|m1] tb1],
             (User.update b _ t2) as [[b'|m2] tb2]; simpl in *; try done.
    - destruct Hu as (Hu & _).
      by destruct (same_but_password_fields a' b' Hu) as (_ & _ & _ & _ & ->).
    - by subst. }
  split.
  { intros userData pk now. unfold register, User.findOne.
    pose proof (find_related
                  (fun r => String.eqb (User.email r) (email userData)) t1 t2
                  (by_email_related _) Ht) as Hf.
    destruct (find _ t1) as [a|], (find _ t2) as [b|]; try done.
    unfold User.create. destruct (negb _); [done|].
    unfold User.email_taken.
    rewrite (existsb_related _ t1 t2 (by_id_related pk) Ht).
    rewrite (existsb_related _ t1 t2 (by_email_related _) Ht).
    by destruct (_ || _). }
  intros email0 password0 now r1 r2. unfold login, User.findOne.
  pose proof (find_related (fun r => String.eqb (User.email r) email0) t1 t2
                (by_email_related email0) Ht) as Hf.
  destruct (find _ t1) as [a|], (find _ t2) as [b|]; try done.
  destruct (negb (bcrypt_compare password0 (User.password a))); [done|].
  destruct (negb (bcrypt_compare password0 (User.password b))); [done|].
  match goal with
  | |- context [User.update a ?c t1] =>
      pose proof (update_related c a b t1 t2 eq_refl Hf Ht) as Hu;
      destruct (User.update a c t1) as [[a'|m1] tb1],
               (User.update b c t2) as [[b'|m2] tb2]
  end; simpl in *; try done.
  destruct Hu as (Hu & _).
  destruct (same_but_password_fields a' b' Hu) as (Hid & Hem & Hro & _ & Hsan).
  intros [= <-] [= <-]. unfold generateToken.
  by rewrite Hid, Hem, Hro, Hsan.
Qed.

End ProfileClaims.

(** ** The constraints of the tables *)

Section TableFacts.
Import Models.

Lemma key_not_taken {A} (key : A -> string) (k : string) (table : list A) :
  existsb (fun r => String.eqb (key r) k) table = false ->
  ~ In k (map key table).
Proof.
  induction table as [|x rest IH]; simpl; [tauto|].
  intros Hex. apply orb_false_iff in Hex as [Hx Hrest].
  apply String.eqb_neq in Hx. intros [Heq|Hin]; [done | by apply IH].
Qed.

Lemma NoDup_map_snoc {A B} (f : A -> B) (table : list A) (row : A) :
  List.NoDup (map f table) -> ~ In (f row) (map f table) ->
  List.NoDup (map f (table ++ [row])).
Proof.
  intros Hnd Hnot. rewrite map_app. simpl.
  apply (Permutation.Permutation_NoDup
           (Permutation.Permutation_cons_append (map f table) (f row))).
  by constructor.
Qed.

Lemma NoDup_map_replace {A B} (f : A -> B) (l1 l2 : list A) (r r' : A) :
  List.NoDup (map f (l1 ++ r :: l2)) ->
  f r' = f r \/ ~ In (f r') (map f (l1 ++ l2)) ->
  List.NoDup (map f (l1 ++ r' :: l2)).
Proof.
  rewrite !map_app. simpl. intros Hnd [Heq|Hnot]; [by rewrite Heq|].
  apply (Permutation.Permutation_NoDup
           (Permutation.Permutation_middle (map f l1) (map f l2) (f r'))).
  constructor; [done|]. by apply List.NoDup_remove_1 in Hnd.
Qed.

(** The row found by its key splits the table; with unique keys the
    replacement and the other rows are what the split shows. *)
Lemma find_row_split {A} (key : A -> string) (pk : string) (r' : A)
    (table : list A) (r : A) :
  List.NoDup (map key table) ->
  find_row key pk table = Some r ->
  exists l1 l2,
    table = (l1 ++ r :: l2)%list /\ key r = pk
    /\ replace_row key pk r' table = (l1 ++ r' :: l2)%list
    /\ other_rows key pk table = (l1 ++ l2)%list.
Proof.
  unfold find_row, other_rows.
  induction table as [|x rest IH]; simpl; [done|].
  intros Hnd Hfind. inversion Hnd as [|? ? Hx Hrest]; subst.
  destruct (String.eqb_spec (key x) pk) as [Heq|Hne].
  - injection Hfind as ->. exists [], rest. simpl.
    assert (Hnone : forall l, ~ In pk (map key l) ->
              replace_row key pk r' l = l
              /\ List.filter (fun y => negb (String.eqb (key y) pk)) l = l).
    { induction l as [|y l IHl]; simpl; [done|]. intros Hnot.
      destruct (String.eqb_spec (key y) pk) as [Hy|Hy]; [tauto|].
      simpl. destruct IHl as [-> ->]; tauto. }
    rewrite Heq in Hx.
    destruct (Hnone rest Hx) as [-> ->]. by repeat split.
  - destruct (IH Hrest Hfind) as (l1 & l2 & -> & Hk & -> & Hoth).
    exists (x :: l1), l2. simpl. rewrite Hoth. by repeat split.
Qed.

End TableFacts.

Section TableLookups.
Import Models.

Lemma find_row_of_In {A} (key : A -> string) (u : A) (table : list A) :
  List.NoDup (map key table) -> In u table ->
  find_row key (key u) table = Some u.
Proof.
  unfold find_row. induction table as [|x rest IH]; simpl; [done|].
  intros Hnd Hin. inversion Hnd as [|? ? Hx Hrest]; subst.
  destruct Hin as [->|Hin]; [by rewrite String.eqb_refl|].
  destruct (String.eqb_spec (key x) (key u)) as [Heq|Hne]; [|by apply IH].
  exfalso. apply Hx. rewrite Heq. by apply in_map.
Qed.

End TableLookups.

(** ** The analytics *)

Section AnalyticsClaims.
Import LearningAnalyticsEngine.

Lemma fold_left_sum {A} (f : A -> Z) (l : list A) (start : Z) :
  fold_left (fun sum x => (sum + f x)%Z) l start
  = (start + Spec.sum_Z (map f l))%Z.
Proof.
  revert start. induction l as [|x l IH]; intros start; simpl; [lia|].
  rewrite IH. lia.
Qed.

Lemma filter_twice {A} (f g : A -> bool) (l : list A) :
  List.filter f (List.filter g l) = List.filter (fun x => g x && f x) l.
Proof.
  induction l as [|x l IH]; simpl; [done|].
  destruct (g x); simpl; [|done]. destruct (f x); by rewrite IH.
Qed.

Lemma has_gain_spec (s : LearningSession.t) :
  has_gain s = true <->
  exists before after,
    LearningSession.confidenceBefore s = Some before
    /\ LearningSession.confidenceAfter s = Some after
    /\ before <> 0%Z /\ after <> 0%Z /\ (before < after)%Z.
Proof.
  unfold has_gain, truthy_number.
  destruct (LearningSession.confidenceBefore s) as [b|],
           (LearningSession.confidenceAfter s) as [a|]; simpl.
  - rewrite !andb_true_iff, !negb_true_iff, !Z.eqb_neq, Z.ltb_lt. split.
    + intros [[Hb Ha] Hlt]. by exists b, a.
    + intros (b' & a' & [= <-] & [= <-] & Hb & Ha & Hlt). by repeat split.
  - rewrite !andb_false_r. split; [done | by intros (? & ? & _ & ? & _)].
  - split; [done | by intros (? & ? & ? & _)].
  - split; [done | by intros (? & ? & ? & _)].
Qed.

(** C8, as amended. For a user of the table: the number of her progress
    rows with status COMPLETED, the sum of the minutes of her progress
    rows, a quarter of the number of her completions no older than 28
    days, and the mean gain over her sessions whose two confidence values
    are recorded, not zero, and rising (0 when there is none). *)
Theorem user_analytics_aggregates (uid : string) (db : Database) (now : Z)
    (user : User.t) :
  User.findByPk uid (users db) = Some user ->
  exists a,
    calculateUserAnalytics uid db now = Returned a
    /\ totalTopicsCompleted a
       = length (List.filter
                   (fun p => String.eqb (Models.UserProgress.userId p) uid
                             && is_completed p)
                   (userProgress db))
    /\ totalTimeSpentMinutes a
       = Spec.sum_Z
           (map (fun p => default 0%Z (Models.UserProgress.timeSpentMinutes p))
              (progress_of uid db))
    /\ learningVelocity a
       == inject_Z (Z.of_nat (length (Spec.recent_completions uid db now))) / 4
    /\ averageConfidenceGain a = Spec.mean_gain_of_improved (sessions_of uid db)
    /\ forall s,
         In s (List.filter has_gain (sessions_of uid db)) <->
         In s (learningSessions db)
         /\ LearningSession.userId s = uid
         /\ exists before after,
              LearningSession.confidenceBefore s = Some before
              /\ LearningSession.confidenceAfter s = Some after
              /\ before <> 0%Z /\ after <> 0%Z /\ (before < after)%Z.
Proof.
  intros Huser. unfold calculateUserAnalytics. rewrite Huser.
  eexists. split; [reflexivity|]. simpl.
  split.
  { unfold progress_of. by rewrite filter_twice. }
  split.
  { by rewrite fold_left_sum. }
  split.
  { unfold calculateLearningVelocity, Spec.recent_completions, progress_of.
    rewrite !filter_twice.
    rewrite (List.filter_ext
               (fun x => String.eqb (Models.UserProgress.userId x) uid
                         && (is_completed x
                             && match Models.UserProgress.completedAt x with
                                | Some t => (now - twenty_eight_days <=? t)%Z
                                | None => false
                                end))
               _ (fun x => andb_assoc _ _ _)).
    unfold Qeq, Qdiv, Qmult, Qinv, inject_Z. simpl. lia. }
  split.
  { unfold calculateAverageConfidenceGain, Spec.mean_gain_of_improved, Spec.mean.
    destruct (List.filter has_gain (sessions_of uid db)) as [|x l] eqn:Hf;
      [done|].
    simpl length. cbn [map]. rewrite fold_left_sum, length_map. by simpl. }
  intros s. unfold sessions_of. rewrite !filter_In, has_gain_spec.
  rewrite String.eqb_eq. tauto.
Qed.

End AnalyticsClaims.

Lemma user_analytics_aggregates_witness :
  User.findByPk "7b1c-ada"
    (LearningAnalyticsEngine.users Examples.ada_database) = Some Examples.ada
  /\ exists a,
       LearningAnalyticsEngine.calculateUserAnalytics "7b1c-ada"
         Examples.ada_database 1000 = Returned a
       /\ LearningAnalyticsEngine.averageConfidenceGain a == 4.
Proof.
  split; [reflexivity|].
  destruct (user_analytics_aggregates "7b1c-ada" Examples.ada_database 1000
              Examples.ada eq_refl)
    as (a & Ha & _ & _ & _ & Hgain & _).
  exists a. split; [exact Ha|]. rewrite Hgain. reflexivity.
Defined.

(** C8, as worded, fails: of Ada's two sessions, both with the two
    confidence values recorded, one gains four points and one loses four;
    the mean over the two is 0, and [averageConfidenceGain] is 4. *)
Lemma average_gain_skips_losses :
  exists a,
    LearningAnalyticsEngine.calculateUserAnalytics "7b1c-ada"
      Examples.ada_database 1000 = Returned a
    /\ LearningAnalyticsEngine.averageConfidenceGain a == 4
    /\ LearningAnalyticsEngine.Spec.mean_gain_of_recorded
         (LearningAnalyticsEngine.sessions_of "7b1c-ada" Examples.ada_database)
       == 0
    /\ ~ LearningAnalyticsEngine.averageConfidenceGain a
         == LearningAnalyticsEngine.Spec.mean_gain_of_recorded
              (LearningAnalyticsEngine.sessions_of "7b1c-ada"
                 Examples.ada_database).
Proof.
  eexists. split; [reflexivity|]. split; [reflexivity|].
  split; [reflexivity|]. by intros Heq.
Qed.

(** ** Replies of the completion API that are not JSON *)

Section ParseClaims.
Import Json Agents Orchestrator.
Context {Db : Type}.
Variable complete : list (string * string) -> Outcome (option string).
Variable systemPrompt : string.
Variable createTopicInDatabase :
  json -> option string -> string -> Db -> Outcome json * Db.

Lemma truthy_nonempty (x : string) :
  x <> EmptyString -> Text.truthy (Some x) = true.
Proof. by destruct x. Qed.

(** [processContent] rejects whatever [extractInformation] returns that
    is not an array. *)
Lemma processContent_rejects (text : string) (v : json)
    (userId sessionId : string) (source : option string) (db : Db) :
  userId <> EmptyString -> sessionId <> EmptyString ->
  extractInformation complete systemPrompt text extractionPrompt = Returned v ->
  isArray v = false ->
  processContent complete systemPrompt createTopicInDatabase (Some text)
    userId sessionId source db
  = (Threw "Failed to extract topics in expected format", db).
Proof.
  intros Hu Hs Hext Harr. unfold processContent, validateRequired.
  rewrite (truthy_nonempty userId Hu), (truthy_nonempty sessionId Hs), Hext.
  by destruct v.
Qed.

(** C2, as amended. Given the reply of the completion API,
    [extractInformation] returns what [JSON.parse] makes of it, and when
    [JSON.parse] fails it returns the object [{ content: reply }] instead
    of throwing. [processContent] takes nothing but an array: on a reply
    that does not parse, or parses to something else, it throws "Failed to
    extract topics in expected format", the newsletter request throws the
    same, and its session record ends FAILED. *)
Theorem parse_failure_fallback (text extraction reply : string) :
  generateResponse complete systemPrompt
    [("user", extraction +:+ newline +:+ newline
              +:+ "Text to analyze:" +:+ newline +:+ text)]
  = Returned reply ->
  (forall v, JSON_parse reply = Some v ->
     extractInformation complete systemPrompt text extraction = Returned v)
  /\ (JSON_parse reply = None ->
      extractInformation complete systemPrompt text extraction
      = Returned (JObj [("content", JStr reply)]))
  /\ (JSON_parse reply = None
      \/ (exists v, JSON_parse reply = Some v /\ isArray v = false) ->
      extraction = extractionPrompt ->
      (forall userId sessionId source db,
         userId <> EmptyString -> sessionId <> EmptyString ->
         processContent complete systemPrompt createTopicInDatabase
           (Some text) userId sessionId source db
         = (Threw "Failed to extract topics in expected format", db))
      /\ (forall rest db s uid d,
            agents s !! CONTENT_CURATOR
            = Some (contentCurator complete systemPrompt
                      createTopicInDatabase db rest) ->
            content d = Some text -> uid <> EmptyString ->
            fst (processNewsletter uid d s)
            = Threw "Failed to extract topics in expected format"
            /\ exists row,
                 sessions (snd (processNewsletter uid d s))
                   !! new_key (sessions s) = Some row
                 /\ status row = FAILED)).
Proof.
  intros Hreply.
  assert (Hsome : forall v, JSON_parse reply = Some v ->
            extractInformation complete systemPrompt text extraction
            = Returned v).
  { intros v Hv. unfold extractInformation. by rewrite Hreply, Hv. }
  assert (Hnone : JSON_parse reply = None ->
            extractInformation complete systemPrompt text extraction
            = Returned (JObj [("content", JStr reply)])).
  { intros Hv. unfold extractInformation. by rewrite Hreply, Hv. }
  split; [exact Hsome|]. split; [exact Hnone|].
  intros Hbad ->.
  assert (Hext : exists v,
            extractInformation complete systemPrompt text extractionPrompt
            = Returned v /\ isArray v = false).
  { destruct Hbad as [Hv|(v & Hv & Harr)].
    - eexists. split; [by apply Hnone | done].
    - exists v. split; [by apply Hsome | done]. }
  destruct Hext as (v & Hext & Harr).
  assert (Hcontent : forall userId sessionId source db,
            userId <> EmptyString -> sessionId <> EmptyString ->
            processContent complete systemPrompt createTopicInDatabase
              (Some text) userId sessionId source db
            = (Threw "Failed to extract topics in expected format", db)).
  { intros userId sessionId source db Hu Hs.
    by apply (processContent_rejects text v). }
  split; [exact Hcontent|].
  intros rest db s uid d Hagent Hd Hu.
  rewrite processNewsletter_tracked.
  match goal with
  | |- context [Spec.tracked uid ?a ?ctx ?f ?mi ?cl s] =>
      destruct (tracked_lifecycle uid a ctx f mi cl s)
        as (_ & _ & _ & Hfst & _ & _ & final & Hfin & _ & _ & _ & _ & _
            & _ & Hout)
  end.
  assert (Hcall : fst (call_agent CONTENT_CURATOR
                         "Content Curator Agent not available"
                         (CallProcessContent (content d) uid
                            (fst (generateSessionId s)) (source d))
                         (snd (createAgentSession uid CONTENT_CURATOR
                                 (fst (generateSessionId s))
                                 (obj [("source", JStr <$> source d)])
                                 (snd (generateSessionId s)))))
                  = Threw "Failed to extract topics in expected format").
  { unfold call_agent. simpl agents. rewrite Hagent. unfold contentCurator.
    rewrite Hd, Hcontent; [done | done | done]. }
  rewrite Hcall in Hfst. rewrite Hfst in Hout. rewrite Hfst.
  split; [reflexivity|]. exists final. split; [exact Hfin | apply Hout].
Qed.

End ParseClaims.

Lemma parse_failure_fallback_witness :
  Agents.generateResponse Examples.prose_completion "You are a Content Curator Agent"
    [("user", Agents.extractionPrompt +:+ Agents.newline +:+ Agents.newline
              +:+ "Text to analyze:" +:+ Agents.newline
              +:+ "Transformers keep getting cheaper to serve.")]
  = Returned Examples.prose_reply
  /\ Agents.extractInformation Examples.prose_completion
       "You are a Content Curator Agent"
       "Transformers keep getting cheaper to serve." Agents.extractionPrompt
     = Returned (Json.JObj [("content", Json.JStr Examples.prose_reply)]).
Proof.
  split; [reflexivity|].
  exact (proj1 (proj2 (@parse_failure_fallback (list Json.json)
    Examples.prose_completion "You are a Content Curator Agent"
    Examples.store_topic "Transformers keep getting cheaper to serve."
    Agents.extractionPrompt Examples.prose_reply eq_refl)) eq_refl).
Defined.

(** C2, as worded, fails: the completion is prose, [JSON.parse] fails on
    it, the fallback object is not an array, and the newsletter route
    answers the signed-in user with status 500 and the error; the session
    record of the request ends FAILED. *)
Lemma prose_reply_fails_request :
  Json.JSON_parse Examples.prose_reply = None
  /\ @Middleware.authenticateToken Reference.libraries Examples.env
       (Some ("Bearer " +:+ Examples.ada_token))
       (Orchestrator.clock Examples.prose_server)
     = Middleware.Next {| JWTPayload.userId := "7b1c-ada";
                          JWTPayload.email := "ada@example.org";
                          JWTPayload.role := "PM";
                          JWTPayload.iat := 0;
                          JWTPayload.exp := 604800 |}
  /\ fst (@Server.post_process_newsletter Reference.libraries Examples.env
            (Some ("Bearer " +:+ Examples.ada_token))
            (Some "Transformers keep getting cheaper to serve.")
            (Some "weekly-digest") Examples.prose_server)
     = Server.Failure 500 "Failed to extract topics in expected format"
  /\ Orchestrator.status
       <$> (Orchestrator.sessions
              (snd (@Server.post_process_newsletter Reference.libraries
                      Examples.env (Some ("Bearer " +:+ Examples.ada_token))
                      (Some "Transformers keep getting cheaper to serve.")
                      (Some "weekly-digest") Examples.prose_server))
            !! 0%nat)
     = Some Orchestrator.FAILED.
Proof.
  split; [vm_compute; reflexivity|]. split; [vm_compute; reflexivity|].
  split; vm_compute; reflexivity.
Qed.

(* ===================================================================== *)
(** ** Accounts: registering, signing in, passwords and closed accounts *)
(* ===================================================================== *)

Section AccountFacts.
Import Models AuthService Accounts.
Context `{Libraries}.

Lemma findOne_snoc (e : string) (table : list User.t) (row : User.t) :
  User.findOne e table = None ->
  User.findOne e (table ++ [row])%list
  = if String.eqb (User.email row) e then Some row else None.
Proof.
  unfold User.findOne. induction table as [|x rest IH]; simpl; [done|].
  destruct (String.eqb (User.email x) e); [done|exact IH].
Qed.

Lemma findOne_of_In (u : User.t) (table : list User.t) :
  List.NoDup (map User.email table) -> In u table ->
  User.findOne (User.email u) table = Some u.
Proof. apply (find_row_of_In User.email). Qed.

Lemma findOne_email (e : string) (u : User.t) (table : list User.t) :
  User.findOne e table = Some u -> User.email u = e /\ In u table.
Proof.
  unfold User.findOne. intros Hfind. apply find_some in Hfind as [Hin He].
  by apply String.eqb_eq in He.
Qed.

Lemma findByPk_id (pk : string) (u : User.t) (table : list User.t) :
  User.findByPk pk table = Some u -> User.id u = pk /\ In u table.
Proof.
  unfold User.findByPk, find_row. intros Hfind.
  apply find_some in Hfind as [Hin He]. by apply String.eqb_eq in He.
Qed.

(** What a successful [register] stored. *)
Lemma register_returns (this : AuthService.t) (userData : Registration)
    (pk : string) (now : Z) (table table' : list User.t)
    (r : UserProfile.t * string) :
  register this userData pk now table = (Returned r, table') ->
  exists row,
    table' = (table ++ [row])%list
    /\ r = (sanitizeUser row, generateToken this row now)
    /\ User.findOne (email userData) table = None
    /\ User.id row = pk
    /\ User.email row = email userData
    /\ User.password row = bcrypt_hash (password userData)
    /\ User.lastActive row = now.
Proof.
  unfold register. destruct (User.findOne _ table) eqn:Hfind; [done|].
  unfold User.create.
  match goal with |- context [User.valid ?r] => set (row := r) end.
  destruct (negb (User.valid row)); [done|].
  destruct (_ || _); [done|].
  intros [= <- <-]. by exists row.
Qed.

(** An update that changes neither the address nor a validated
    column is always accepted. *)
Lemma update_accepted (u : User.t) (c : User.Changes) (table : list User.t) :
  User.c_email c = None -> User.c_role c = None ->
  User.c_experience c = None ->
  User.update u c table
  = (Returned (User.apply c u),
     replace_row User.id (User.id u) (User.apply c u) table).
Proof.
  intros He Hr Hx. unfold User.update, User.valid_changes, User.apply.
  rewrite He, Hr, Hx. simpl. by rewrite String.eqb_refl.
Qed.

(** A stored row replaced by one with the same key and address is
    what both lookups find afterwards. *)
Lemma replaced_row_found (u u' : User.t) (table : list User.t) :
  Spec.user_table_ok table -> In u table ->
  User.id u' = User.id u -> User.email u' = User.email u ->
  let table' := replace_row User.id (User.id u) u' table in
  Spec.user_table_ok table'
  /\ User.findByPk (User.id u) table' = Some u'
  /\ User.findOne (User.email u) table' = Some u'.
Proof.
  intros [Hids Hemails] Hin Hid Hemail table'.
  pose proof (find_row_of_In User.id u table Hids Hin) as Hfind.
  destruct (find_row_split User.id (User.id u) u' table u Hids Hfind)
    as (l1 & l2 & Htable & _ & Hrep & _).
  subst table'. rewrite Hrep. subst table.
  assert (Hok : Spec.user_table_ok (l1 ++ u' :: l2)%list).
  { split.
    - apply (NoDup_map_replace User.id l1 l2 u); [done | by left].
    - apply (NoDup_map_replace User.email l1 l2 u); [done | by left]. }
  split; [exact Hok|]. destruct Hok as [Hids' Hemails'].
  assert (Hin' : In u' (l1 ++ u' :: l2)%list)
    by (apply in_or_app; right; by left).
  split.
  - rewrite <- Hid. by apply (find_row_of_In User.id).
  - rewrite <- Hemail. by apply findOne_of_In.
Qed.

End AccountFacts.

Section AccountExtras.
Import Models AuthService Accounts.
Context `{Libraries}.

(** X1. A second registration with an address that a successful
    registration has just stored is rejected, whatever else it says and
    whenever it comes, with the message "Registration failed: User with
    this email already exists", and stores nothing. *)
Theorem register_twice_rejected (this : AuthService.t)
    (first second : Registration) (pk pk' : string) (now now' : Z)
    (table table' : list User.t) (r : UserProfile.t * string) :
  register this first pk now table = (Returned r, table') ->
  email second = email first ->
  register this second pk' now' table'
  = (Threw "Registration failed: User with this email already exists",
     table').
Proof.
  intros Hreg Hsame.
  destruct (register_returns _ _ _ _ _ _ _ Hreg)
    as (row & -> & _ & Hnone & _ & Hemail & _).
  unfold register. rewrite Hsame, (findOne_snoc _ _ row Hnone), Hemail.
  by rewrite String.eqb_refl.
Qed.

(** X2. Registration followed by a sign-in with the same address and
    password succeeds, provided the password library accepts a password
    against its own hash: the profile returned is the one registration
    returned with [lastActive] moved to the time of the sign-in, and the
    token carries the same identity. *)
Theorem register_then_login (this : AuthService.t) (userData : Registration)
    (pk : string) (now later : Z) (table table' : list User.t)
    (profile : UserProfile.t) (token : string) :
  register this userData pk now table = (Returned (profile, token), table') ->
  bcrypt_compare (password userData) (bcrypt_hash (password userData)) = true ->
  exists table'',
    login this (email userData) (password userData) later table'
    = (Returned
         ({| UserProfile.id := pk;
             UserProfile.email := email userData;
             UserProfile.firstName := UserProfile.firstName profile;
             UserProfile.lastName := UserProfile.lastName profile;
             UserProfile.role := UserProfile.role profile;
             UserProfile.experience := UserProfile.experience profile;
             UserProfile.learningGoals := UserProfile.learningGoals profile;
             UserProfile.industry := UserProfile.industry profile;
             UserProfile.preferences := UserProfile.preferences profile;
             UserProfile.lastActive := later;
             UserProfile.isActive := UserProfile.isActive profile |},
          jwt_sign
            {| JWTPayload.userId := pk;
               JWTPayload.email := email userData;
               JWTPayload.role := UserProfile.role profile;
               JWTPayload.iat := (later / 1000)%Z;
               JWTPayload.exp := (later / 1000 + jwtExpiresIn this)%Z |}
            (jwtSecret this)),
       table'')
    /\ UserProfile.id profile = pk
    /\ UserProfile.email profile = email userData.
Proof.
  intros Hreg Hlaw.
  destruct (register_returns _ _ _ _ _ _ _ Hreg)
    as (row & -> & [= -> _] & Hnone & Hid & Hemail & Hpw & _).
  assert (Hfind : User.findOne (User.email row) (table ++ [row])%list
                  = Some row).
  { rewrite Hemail, (findOne_snoc _ _ row Hnone), Hemail.
    by rewrite String.eqb_refl. }
  assert (Hcmp : bcrypt_compare (password userData) (User.password row) = true)
    by (by rewrite Hpw).
  destruct (login_returns this _ row _ later Hfind Hcmp)
    as (u' & t'' & Hlogin & -> & _).
  rewrite Hemail in Hlogin. exists t''. rewrite Hlogin.
  unfold generateToken, sanitizeUser, User.apply. simpl.
  rewrite Hid, Hemail.
  destruct (User.learningGoals row), (User.industry row); done.
Qed.

(** X3. A sign-in that fails always fails with the same message,
    "Login failed: Invalid email or password", whether the address is
    unknown or the password is wrong, and leaves the table as it was; a
    sign-in that succeeds is one for a stored address with a password the
    library accepts against the stored hash. *)
Theorem login_failure_is_uniform (this : AuthService.t) (e pw : string)
    (now : Z) (table : list User.t) :
  match login this e pw now table with
  | (Returned (profile, _), _) =>
      exists u,
        User.findOne e table = Some u
        /\ bcrypt_compare pw (User.password u) = true
        /\ UserProfile.id profile = User.id u
  | (Threw m, table') =>
      m = "Login failed: Invalid email or password"
      /\ table' = table
      /\ (User.findOne e table = None
          \/ exists u,
               User.findOne e table = Some u
               /\ bcrypt_compare pw (User.password u) = false)
  end.
Proof.
  unfold login. destruct (User.findOne e table) as [u|] eqn:Hfind.
  - destruct (bcrypt_compare pw (User.password u)) eqn:Hcmp; simpl.
    + rewrite login_update_succeeds. by exists u.
    + repeat split; [right; by exists u].
  - repeat split. by left.
Qed.

(** X4. After a successful change of password, on a table with unique
    keys and addresses: the caller knew the old password; the table is the
    old one with the row of that user, and no other, replaced in place by
    the same row with the hash of the new password; and a sign-in for that
    user succeeds with exactly the passwords the library accepts against
    the hash of the new one. *)
Theorem changePassword_then_login (this : AuthService.t)
    (uid current new : string) (now : Z) (table table' : list User.t) :
  Spec.user_table_ok table ->
  changePassword uid current new table = (Returned tt, table') ->
  exists u,
    User.findByPk uid table = Some u
    /\ bcrypt_compare current (User.password u) = true
    /\ User.findByPk uid table'
       = Some (Spec.with_password (bcrypt_hash new) u)
    /\ (exists before after,
          table = (before ++ u :: after)%list
          /\ table'
             = (before ++ Spec.with_password (bcrypt_hash new) u :: after)%list)
    /\ Spec.user_table_ok table'
    /\ forall pw,
         (exists r, fst (login this (User.email u) pw now table') = Returned r)
         <-> bcrypt_compare pw (bcrypt_hash new) = true.
Proof.
  intros Hok. unfold changePassword.
  destruct (User.findByPk uid table) as [u|] eqn:Hfind; [|done].
  destruct (bcrypt_compare current (User.password u)) eqn:Hcur; [|done].
  simpl. rewrite update_accepted by done.
  intros [= <-]. exists u.
  destruct (findByPk_id _ _ _ Hfind) as [Hid Hin].
  set (u' := User.apply (password_change (bcrypt_hash new)) u).
  assert (Hu' : u' = Spec.with_password (bcrypt_hash new) u).
  { unfold u', User.apply, Spec.with_password. simpl.
    by destruct (User.learningGoals u), (User.industry u). }
  destruct (replaced_row_found u u' table Hok Hin)
    as (Hok' & Hpk & Hone); [by rewrite Hu'| by rewrite Hu'|].
  subst uid.
  split; [done|]. split; [done|]. split; [by rewrite Hpk, Hu'|].
  split; [|split; [done|]].
  - destruct Hok as [Hids _].
    destruct (find_row_split User.id (User.id u) u' table u Hids Hfind)
      as (l1 & l2 & Htable & _ & Hrep & _).
    exists l1, l2. split; [exact Htable|]. by rewrite Hrep, Hu'.
  - intros pw. split.
    + intros [r Hr]. unfold login in Hr. rewrite Hone in Hr.
      destruct (bcrypt_compare pw (User.password u')) eqn:Hcmp; [|done].
      by rewrite Hu' in Hcmp.
    + intros Hcmp. unfold login. rewrite Hone.
      replace (User.password u') with (bcrypt_hash new) by (by rewrite Hu').
      rewrite Hcmp. simpl. rewrite login_update_succeeds. by eexists.
Qed.


End AccountExtras.

Lemma register_twice_rejected_witness :
  AuthService.email Scenarios.grace_again = AuthService.email Scenarios.grace
  /\ @AuthService.register Reference.libraries Scenarios.service
       Scenarios.grace_again "u-3" 9000
       (snd (@AuthService.register Reference.libraries Scenarios.service
               Scenarios.grace "u-2" 5000 [Examples.ada]))
     = (Threw "Registration failed: User with this email already exists",
        snd (@AuthService.register Reference.libraries Scenarios.service
               Scenarios.grace "u-2" 5000 [Examples.ada])).
Proof.
  split; [reflexivity|].
  exact (@register_twice_rejected Reference.libraries Scenarios.service
           Scenarios.grace Scenarios.grace_again "u-2" "u-3" 5000 9000
           [Examples.ada] _ _ eq_refl eq_refl).
Defined.

Lemma register_then_login_witness :
  @bcrypt_compare Reference.libraries "nanoseconds"
    (@bcrypt_hash Reference.libraries "nanoseconds") = true
  /\ exists profile token table'',
       @AuthService.login Reference.libraries Scenarios.service
         "grace@example.org" "nanoseconds" 9000
         (snd (@AuthService.register Reference.libraries Scenarios.service
                 Scenarios.grace "u-2" 5000 [Examples.ada]))
       = (Returned (profile, token), table'')
       /\ UserProfile.id profile = "u-2"
       /\ UserProfile.lastActive profile = 9000%Z.
Proof.
  split; [reflexivity|].
  destruct (@register_then_login Reference.libraries Scenarios.service
              Scenarios.grace "u-2" 5000 9000 [Examples.ada] _ _ _
              eq_refl eq_refl) as (table'' & Hlogin & _).
  eexists _, _, table''. split; [exact Hlogin|]. by split.
Defined.

Lemma changePassword_then_login_witness :
  Spec.user_table_ok [Examples.ada]
  /\ exists r,
       fst (@AuthService.login Reference.libraries Scenarios.service
              "ada@example.org" "battery staple" 9000
              (snd (@Accounts.changePassword Reference.libraries
                      "7b1c-ada" "correct horse" "battery staple"
                      [Examples.ada])))
       = Returned r.
Proof.
  assert (Hok : Spec.user_table_ok [Examples.ada]).
  { split; (apply List.NoDup_cons; [simpl; tauto | apply List.NoDup_nil]). }
  split; [exact Hok|].
  destruct (@changePassword_then_login Reference.libraries Scenarios.service
              "7b1c-ada" "correct horse" "battery staple" 9000
              [Examples.ada] _ Hok eq_refl)
    as (u & Hfind & _ & _ & _ & _ & Hlogin).
  injection Hfind as <-. by apply Hlogin.
Defined.


(* ===================================================================== *)
(** ** The optional guard, the role guard and the profile routes *)
(* ===================================================================== *)

Section GuardExtras.
Import AuthService Middleware Guards.
Context `{Libraries}.

Local Ltac refuted :=
  repeat split; intros;
  repeat match goal with
         | H : exists _, _ |- _ => destruct H
         | H : _ /\ _ |- _ => destruct H
         end;
  try match goal with H : _ = _ |- _ => discriminate H end; try done.

(** X6. The optional guard never answers a request itself, and it
    attaches a user exactly when the mandatory guard would let the same
    request through, and then the same one: a missing header, a missing
    secret and a rejected token all go on anonymously. *)
Theorem optionalAuth_never_rejects (env : Env) (authHeader : option string)
    (now : Z) :
  exists user,
    optionalAuth env authHeader now = Proceed user
    /\ forall payload,
         user = Some payload
         <-> authenticateToken env authHeader now = Next payload.
Proof.
  unfold optionalAuth, authenticateToken.
  destruct (negb (Text.truthy (bearer_token authHeader)));
    [exists None; by split|].
  destruct (negb (Text.truthy (JWT_SECRET env)));
    [exists None; by split|].
  destruct (jwt_verify _ _ now) as [p|]; eexists; (split; [reflexivity|]).
  - intros payload. split; congruence.
  - by intros payload.
Qed.

(** X7. The role guard behind the mandatory guard: the handler is
    reached exactly by a verified token whose role is listed, a verified
    token with another role gets 403 "Insufficient permissions", and the
    answer 401 "Authentication required" is never given, since the first
    guard has answered every request without a user. Behind the optional
    guard that 401 is the answer to every request the mandatory guard
    would have refused. *)
Theorem requireRole_behind_guards (env : Env) (authHeader : option string)
    (now : Z) (roles : list string) :
  let strict :=
    after_authenticateToken (authenticateToken env authHeader now)
      (requireRole roles) in
  let lenient :=
    after_optionalAuth (optionalAuth env authHeader now)
      (requireRole roles) in
  (forall user,
     strict = Proceed user
     <-> exists p,
           user = Some p
           /\ authenticateToken env authHeader now = Next p
           /\ In (JWTPayload.role p) roles)
  /\ (strict
      = Answer 403 {| success := false; error := "Insufficient permissions" |}
      <-> exists p,
            authenticateToken env authHeader now = Next p
            /\ ~ In (JWTPayload.role p) roles)
  /\ strict
     <> Answer 401 {| success := false; error := "Authentication required" |}
  /\ (lenient
      = Answer 401 {| success := false; error := "Authentication required" |}
      <-> forall p, authenticateToken env authHeader now <> Next p)
  /\ (forall p,
        authenticateToken env authHeader now = Next p -> lenient = strict).
Proof.
  intros strict lenient.
  assert (Hmem : forall p : JWTPayload.t,
            existsb (String.eqb (JWTPayload.role p)) roles = true
            <-> In (JWTPayload.role p) roles).
  { intros p. rewrite existsb_exists. split.
    - intros (x & Hin & Heq). apply String.eqb_eq in Heq. by subst.
    - intros Hin. exists (JWTPayload.role p). by rewrite String.eqb_refl. }
  subst strict lenient. unfold optionalAuth, authenticateToken.
  destruct (negb (Text.truthy (bearer_token authHeader))); simpl;
    [refuted|].
  destruct (negb (Text.truthy (JWT_SECRET env))); simpl;
    [refuted|].
  destruct (jwt_verify _ _ now) as [q|]; simpl; [|refuted].
  unfold requireRole.
  destruct (existsb (String.eqb (JWTPayload.role q)) roles) eqn:Hex; simpl.
  - apply Hmem in Hex. clear Hmem.
    repeat split; try done.
    + intros [= <-]. by exists q.
    + intros (p & -> & [= <-] & _). done.
    + intros (p & [= <-] & Hnot). by destruct Hnot.
    + intros Hall. by destruct (Hall q).
  - assert (Hnot : ~ In (JWTPayload.role q) roles).
    { intros Hin. apply Hmem in Hin. by rewrite Hin in Hex. }
    clear Hmem. repeat split; try done.
    + intros (p & _ & [= <-] & Hin). by destruct Hnot.
    + intros _. by exists q.
    + intros Hall. by destruct (Hall q).
Qed.

End GuardExtras.

Section RouteExtras.
Import AuthService Middleware Orchestrator.
Context `{Libraries}.

(** X8. Sign in, then ask who you are: on a table with unique keys
    and addresses, with a secret set in the environment and a token
    library that verifies what it signed and whose tokens are non-empty
    texts without a blank, the token of a successful sign-in presented to
    [GET /api/auth/me] before it expires gets back the very profile the
    sign-in returned. *)
Theorem login_then_me (env : Env) (e pw : string) (now later : Z)
    (table table' : list User.t) (profile : UserProfile.t) (token : string) :
  let this := AuthService.new env in
  (forall p key, jwt_decode (jwt_sign p key) key = Some p) ->
  (forall p key,
     Text.truthy (Some (jwt_sign p key)) = true
     /\ Text.includes (jwt_sign p key) " " = false) ->
  Spec.user_table_ok table ->
  Text.truthy (JWT_SECRET env) = true ->
  login this e pw now table = (Returned (profile, token), table') ->
  (later / 1000 < now / 1000 + jwtExpiresIn this)%Z ->
  Routes.get_me env (Some ("Bearer " +:+ token)) later table' = Routes.Ok profile.
Proof.
  intros this Hlaw Hshape Hok Hsecret Hlogin Hlater.
  unfold login in Hlogin.
  destruct (User.findOne e table) as [u|] eqn:Hfind; [|done].
  destruct (negb (bcrypt_compare pw (User.password u))); [done|].
  rewrite login_update_succeeds in Hlogin.
  injection Hlogin as <- <- <-.
  set (payload := {| JWTPayload.userId := User.id u;
                     JWTPayload.email := User.email u;
                     JWTPayload.role := User.role u;
                     JWTPayload.iat := (now / 1000)%Z;
                     JWTPayload.exp := (now / 1000 + jwtExpiresIn this)%Z |}).
  change (generateToken this _ now) with (jwt_sign payload (jwtSecret this)).
  destruct (Hshape payload (jwtSecret this)) as [Hfull Hfree].
  assert (Hkey : default EmptyString (JWT_SECRET env) = jwtSecret this).
  { unfold this, AuthService.new. simpl. by rewrite Hsecret. }
  set (token := jwt_sign payload (jwtSecret this)) in *.
  unfold Routes.get_me, authenticateToken.
  rewrite (bearer_token_of _ Hfree), Hfull, Hsecret. simpl.
  unfold jwt_verify, token. rewrite Hkey, Hlaw. cbn [JWTPayload.exp payload].
  rewrite (proj2 (Z.leb_gt _ _) Hlater).
  cbn [JWTPayload.userId].
  destruct (findOne_email _ _ _ Hfind) as [_ Hin].
  match goal with
  | |- context [Models.replace_row User.id (User.id u) ?r table] =>
      set (u' := r)
  end.
  destruct (replaced_row_found u u' table Hok Hin) as (_ & Hpk & _);
    [done|done|].
  unfold getUserById.
  change (JWTPayload.userId payload) with (User.id u). by rewrite Hpk.
Qed.

(** X9. The two routes that read the profile first answer 404 "User
    not found" to a verified token whose user is not stored, before the
    orchestrator is called: the system is as it was, no session is
    recorded. For a stored user the learning-path route hands the
    strategist an empty list of completed topics, whatever the user has
    completed. *)
Theorem profile_routes_need_the_user
    (profile_json : UserProfile.t -> Json.json) (env : Env)
    (authHeader : option string) (user : JWTPayload.t)
    (table : list User.t) (s : System) :
  authenticateToken env authHeader (clock s) = Next user ->
  (User.findByPk (JWTPayload.userId user) table = None ->
   (forall targetRole0 timeframe0,
      Routes.post_generate_learning_path profile_json env authHeader
        targetRole0 timeframe0 table s
      = (Server.Failure 404 "User not found", s))
   /\ (forall topicId0 difficulty0 scenarioType0,
         Routes.post_generate_practice_scenario profile_json env authHeader
           topicId0 difficulty0 scenarioType0 table s
         = (Server.Failure 404 "User not found", s)))
  /\ (forall u targetRole0 timeframe0,
        User.findByPk (JWTPayload.userId user) table = Some u ->
        Routes.post_generate_learning_path profile_json env authHeader
          targetRole0 timeframe0 table s
        = Server.respond
            (Spec.tracked (JWTPayload.userId user) LEARNING_STRATEGIST
               (obj [("targetRole", Json.JStr <$> targetRole0);
                     ("timeframe", JInt <$> timeframe0)]) "learningPath"
               "Learning Strategist Agent not available"
               (fun sid =>
                  CallGeneratePath (Some (profile_json (sanitizeUser u)))
                    (Some (Json.JArr [])) targetRole0 timeframe0 sid) s)).
Proof.
  intros Hauth. split.
  - intros Hnone. split; intros;
      unfold Routes.post_generate_learning_path,
        Routes.post_generate_practice_scenario, Server.guarded, getUserById;
      by rewrite Hauth, Hnone.
  - intros u targetRole0 timeframe0 Hfind.
    unfold Routes.post_generate_learning_path, Server.guarded, getUserById.
    by rewrite Hauth, Hfind.
Qed.

End RouteExtras.

Lemma login_then_me_witness :
  Spec.user_table_ok [Examples.ada]
  /\ exists profile,
       @Routes.get_me Reference.libraries Examples.env
         (Some ("Bearer " +:+ Examples.ada_token)) 86400000
         (snd (@AuthService.login Reference.libraries Scenarios.service
                 "ada@example.org" "correct horse" 0 [Examples.ada]))
       = Routes.Ok profile
       /\ UserProfile.id profile = "7b1c-ada".
Proof.
  assert (Hok : Spec.user_table_ok [Examples.ada]).
  { split; (apply List.NoDup_cons; [simpl; tauto | apply List.NoDup_nil]). }
  split; [exact Hok|].
  eexists. split.
  - exact (@login_then_me Reference.libraries Examples.env
             "ada@example.org" "correct horse" 0 86400000 [Examples.ada]
             _ _ _ reference_round_trip reference_token_shape Hok
             eq_refl eq_refl eq_refl).
  - reflexivity.
Defined.

Lemma profile_routes_need_the_user_witness :
  @Middleware.authenticateToken Reference.libraries Examples.env
    (Some ("Bearer " +:+ Examples.ada_token))
    (Orchestrator.clock Examples.server)
  = Middleware.Next {| JWTPayload.userId := "7b1c-ada";
                       JWTPayload.email := "ada@example.org";
                       JWTPayload.role := "PM";
                       JWTPayload.iat := 0;
                       JWTPayload.exp := 604800 |}
  /\ @Routes.post_generate_learning_path Reference.libraries
       (fun _ => Json.JNull) Examples.env
       (Some ("Bearer " +:+ Examples.ada_token)) (Some "PM") (Some 30%Z) []
       Examples.server
     = (Server.Failure 404 "User not found", Examples.server).
Proof.
  split; [reflexivity|].
  exact (proj1 (proj1 (@profile_routes_need_the_user Reference.libraries
           (fun _ => Json.JNull) Examples.env
           (Some ("Bearer " +:+ Examples.ada_token)) _ [] Examples.server
           eq_refl) eq_refl) (Some "PM") (Some 30%Z)).
Defined.

(* ===================================================================== *)
(** ** The orchestrator: what requests add to the session table, and
       the statistics read from it *)
(* ===================================================================== *)

Section SessionTableFacts.
Import Orchestrator.


Lemma tracked_unmetered uid a ctx field missing call s :
  map_Forall (fun _ r => Statistics.unmetered r) (sessions s) ->
  map_Forall (fun _ r => Statistics.unmetered r)
    (sessions (snd (Spec.tracked uid a ctx field missing call s))).
Proof.
  intros Hall. unfold Spec.tracked.
  set (created := createAgentSession uid a (fst (generateSessionId s)) ctx
                    (snd (generateSessionId s))).
  assert (Hcreated : map_Forall (fun _ r => Statistics.unmetered r)
                       (sessions (snd created))).
  { subst created. simpl. by apply map_Forall_insert_2. }
  destruct (call_agent_sessions a missing
              (call (fst (generateSessionId s))) (snd created))
    as [Hsess _].
  destruct (call_agent a missing (call (fst (generateSessionId s)))
              (snd created)) as [o s2].
  cbn [snd] in Hsess. rewrite <- Hsess in Hcreated.
  assert (Halter : forall u,
            map_Forall (fun _ r => Statistics.unmetered r)
              (alter (apply_update u) (id (fst created)) (sessions s2))).
  { intros u k r. rewrite lookup_alter_Some.
    intros [(_ & r0 & Hr0 & ->)|[_ Hr]]; [|by apply (Hcreated k)].
    exact (Hcreated _ _ Hr0). }
  destruct o; simpl; apply Halter.
Qed.

(** A request either reaches the creation of a session, or is a chat
    without agent and message, or has an unknown type tag. *)
Lemma classic_request (request : LearningRequest) :
  (In (type request) Spec.request_types
   /\ ((type request = "CHAT" -> preferredAgent (data request) = None ->
        message (data request) <> None)
       \/ (type request = "CHAT" /\ preferredAgent (data request) = None
           /\ message (data request) = None)))
  \/ ~ In (type request) Spec.request_types.
Proof.
  destruct (in_dec string_dec (type request) Spec.request_types)
    as [Hin|Hnot]; [left|by right].
  split; [done|].
  destruct (string_dec (type request) "CHAT") as [Hty|Hty]; [|by left].
  destruct (preferredAgent (data request)); [by left|].
  destruct (message (data request)); [by left|by right].
Qed.

End SessionTableFacts.

Section OrchestratorExtras.
Import Orchestrator.


End OrchestratorExtras.

Section StatisticsFacts.
Import Orchestrator Statistics.

Lemma record_fold (rows : list AgentSessionRow)
    (acc : gmap AgentType PerAgent.Tally) (a : AgentType) :
  fold_left record rows acc !! a
  = match List.filter (of_agent a) rows with
    | [] => acc !! a
    | l => Some (fold_left (fun t r => add r t) l (default zero (acc !! a)))
    end.
Proof.
  revert acc. induction rows as [|r rows IH]; intros acc; simpl; [done|].
  rewrite IH. unfold of_agent at 2, record.
  destruct (decide (agentType r = a)) as [Heq|Hne].
  - rewrite bool_decide_eq_true_2 by done. subst a.
    rewrite lookup_insert_eq. simpl.
    by destruct (List.filter _ rows).
  - rewrite bool_decide_eq_false_2 by done.
    by rewrite lookup_insert_ne.
Qed.

Lemma add_fold (l : list AgentSessionRow) (z : PerAgent.Tally) :
  let t := fold_left (fun t r => add r t) l z in
  PerAgent.count t = (PerAgent.count z + length l)%nat
  /\ PerAgent.successes t
     = (PerAgent.successes z + length (List.filter is_success l))%nat
  /\ (Forall unmetered l ->
      PerAgent.totalTime t = PerAgent.totalTime z
      /\ PerAgent.tokens t = PerAgent.tokens z
      /\ PerAgent.cost t = PerAgent.cost z).
Proof.
  revert z. induction l as [|r l IH]; intros z; simpl.
  - repeat split; lia.
  - destruct (IH (add r z)) as (Hc & Hs & Hm). split; [|split].
    + rewrite Hc. simpl. lia.
    + rewrite Hs. unfold is_success at 2. simpl.
      destruct (status r); simpl; lia.
    + intros Hall. inversion Hall as [|? ? (Ht & Hk & Hco) Hrest]; subst.
      destruct (Hm Hrest) as (-> & -> & ->). simpl.
      rewrite Ht, Hk, Hco. simpl. repeat split; lia.
Qed.

Lemma filter_length_le {A} (P : A -> bool) (l : list A) :
  (length (List.filter P l) <= length l)%nat.
Proof.
  induction l as [|x l IH]; simpl; [lia|]. destruct (P x); simpl; lia.
Qed.

Lemma by_agent_partition (rows : list AgentSessionRow) :
  sum_list (map (fun a => length (List.filter (of_agent a) rows)) agent_types)
  = length rows.
Proof.
  induction rows as [|r rows IH]; [done|].
  assert (Hcons : forall a,
            length (List.filter (of_agent a) (r :: rows))
            = ((if of_agent a r then 1 else 0)
               + length (List.filter (of_agent a) rows))%nat).
  { intros a. simpl. by destruct (of_agent a r). }
  unfold agent_types in *. cbn [map sum_list sum_list_with] in *.
  rewrite !Hcons. cbn [length]. rewrite <- IH. clear IH Hcons.
  unfold of_agent, Datatypes.id.
  destruct (agentType r);
    repeat first [rewrite bool_decide_eq_true_2 by done
                 | rewrite bool_decide_eq_false_2 by done];
    lia.
Qed.

(** The entry of an agent type in the statistics. *)
Lemma statistics_entry (s : System) (a : AgentType) :
  sessionsByAgent (getAgentStatistics s) !! a
  = match List.filter (of_agent a) (ended s) with
    | [] => None
    | l => Some (finish (fold_left (fun t r => add r t) l zero))
    end.
Proof.
  unfold getAgentStatistics. simpl. rewrite lookup_fmap, record_fold.
  rewrite lookup_empty. by destruct (List.filter _ _).
Qed.

Lemma statistics_count (s : System) (a : AgentType) :
  match sessionsByAgent (getAgentStatistics s) !! a with
  | Some e => PerAgent.count (PerAgent.tally e)
  | None => 0%nat
  end = length (List.filter (of_agent a) (ended s)).
Proof.
  rewrite statistics_entry.
  destruct (List.filter (of_agent a) (ended s)) as [|r l]; [done|].
  destruct (add_fold (r :: l) zero) as (Hc & _).
  unfold finish. cbn [PerAgent.tally]. by rewrite Hc.
Qed.

End StatisticsFacts.

Section StatisticsExtras.
Import Orchestrator Statistics.

(** X11. The statistics count the sessions that have ended. An
    agent type has an entry exactly when one of them is its own, so no
    average divides by zero; the entry counts the ended sessions of that
    type and, as successes, those among them that are COMPLETED; the
    success rate lies between 0 and 100; the counts of the entries add up
    to the total. The four totals at the top of the object
    ([averageExecutionTime], [totalTokensUsed], [totalCost],
    [successRate]) are never filled in: they are 0 whatever the table
    holds. *)
Theorem agent_statistics_add_up (s : System) :
  let stats := getAgentStatistics s in
  totalSessions stats = length (ended s)
  /\ (forall a,
        sessionsByAgent stats !! a = None
        <-> List.filter (of_agent a) (ended s) = [])
  /\ (forall a e,
        sessionsByAgent stats !! a = Some e ->
        (1 <= PerAgent.count (PerAgent.tally e))%nat
        /\ PerAgent.count (PerAgent.tally e)
           = length (List.filter (of_agent a) (ended s))
        /\ PerAgent.successes (PerAgent.tally e)
           = length (List.filter is_success
                       (List.filter (of_agent a) (ended s)))
        /\ (PerAgent.successes (PerAgent.tally e)
            <= PerAgent.count (PerAgent.tally e))%nat
        /\ (0 <= PerAgent.successRate e)%Q
        /\ (PerAgent.successRate e <= 100)%Q)
  /\ sum_list
       (map (fun a =>
               match sessionsByAgent stats !! a with
               | Some e => PerAgent.count (PerAgent.tally e)
               | None => 0%nat
               end) agent_types)
     = totalSessions stats
  /\ (averageExecutionTime stats == 0)%Q
  /\ totalTokensUsed stats = 0%Z
  /\ totalCost stats = 0%Z
  /\ (successRate stats == 0)%Q.
Proof.
  intros stats.
  assert (Hentry : forall a e,
            sessionsByAgent stats !! a = Some e ->
            PerAgent.count (PerAgent.tally e)
            = length (List.filter (of_agent a) (ended s))
            /\ PerAgent.successes (PerAgent.tally e)
               = length (List.filter is_success
                           (List.filter (of_agent a) (ended s)))
            /\ List.filter (of_agent a) (ended s) <> []).
  { intros a e. subst stats. rewrite statistics_entry.
    destruct (List.filter (of_agent a) (ended s)) as [|r l] eqn:Hl; [done|].
    intros [= <-].
    destruct (add_fold (r :: l) zero) as (Hc & Hs & _).
    cbn [fold_left] in Hc, Hs.
    unfold finish. cbn [PerAgent.tally]. rewrite Hc, Hs. by simpl. }
  split; [done|]. split; [|split; [|split; [|done]]].
  - intros a. subst stats. rewrite statistics_entry.
    by destruct (List.filter (of_agent a) (ended s)).
  - intros a e He. destruct (Hentry a e He) as (Hc & Hs & Hne).
    assert (Hpos : (1 <= PerAgent.count (PerAgent.tally e))%nat).
    { rewrite Hc. destruct (List.filter (of_agent a) (ended s)); [done|].
      simpl. lia. }
    assert (Hle : (PerAgent.successes (PerAgent.tally e)
                   <= PerAgent.count (PerAgent.tally e))%nat).
    { rewrite Hc, Hs. apply filter_length_le. }
    split; [done|]. split; [done|]. split; [done|]. split; [done|].
    assert (Hrate : PerAgent.successRate e
                    = (inject_Z (Z.of_nat (PerAgent.successes (PerAgent.tally e)))
                       / inject_Z (Z.of_nat (PerAgent.count (PerAgent.tally e)))
                       * 100)%Q).
    { subst stats. rewrite statistics_entry in He.
      destruct (List.filter (of_agent a) (ended s)); [done|].
      by injection He as <-. }
    rewrite Hrate.
    destruct (PerAgent.count (PerAgent.tally e)) as [|n]; [lia|].
    unfold Qle, Qdiv, Qmult, Qinv, inject_Z. simpl. lia.
  - change (totalSessions stats) with (length (ended s)).
    rewrite <- (by_agent_partition (ended s)). subst stats.
    unfold agent_types. cbn [map].
    by rewrite !statistics_count.
Qed.

(** X12. The handlers never write a duration, a token count or a
    cost into a session record, so on every table the server reaches
    from its start the statistics report, for every agent type, a total
    time, a token count, a cost and an average time of 0. *)
Theorem statistics_of_the_server_are_zero (s : System) :
  Server.reachable s ->
  (forall k row, sessions s !! k = Some row -> unmetered row)
  /\ forall a e,
       sessionsByAgent (getAgentStatistics s) !! a = Some e ->
       PerAgent.totalTime (PerAgent.tally e) = 0%Z
       /\ PerAgent.tokens (PerAgent.tally e) = 0%Z
       /\ PerAgent.cost (PerAgent.tally e) = 0%Z
       /\ (PerAgent.averageTime e == 0)%Q.
Proof.
  intros Hreach.
  assert (Hall : map_Forall (fun _ r => unmetered r) (sessions s)).
  { induction Hreach as [c l p r start rand|s uid request Hreach IH|s t _ IH].
    - simpl. apply map_Forall_empty.
    - destruct (classic_request request) as [[Hin [Hmsg|Hmsg]]|Hnot].
      + destruct (request_is_tracked uid request s Hin Hmsg)
          as (a & ctx & field & missing & call & ->).
        by apply tracked_unmetered.
      + destruct Hmsg as (Hty & Hpref & Hmsg).
        unfold processLearningRequest. rewrite Hty. simpl.
        unfold processChatRequest, chooseAgent. by rewrite Hpref, Hmsg.
      + unfold processLearningRequest.
        repeat match goal with
        | |- context [String.eqb (type request) ?t] =>
            destruct (String.eqb_spec (type request) t) as [Heq|_];
            [exfalso; apply Hnot; rewrite Heq; simpl; tauto|]
        end. done.
    - exact IH. }
  split; [exact Hall|].
  intros a e. rewrite statistics_entry.
  destruct (List.filter (of_agent a) (ended s)) as [|r l] eqn:Hl; [done|].
  intros [= <-].
  assert (Hrows : Forall unmetered (r :: l)).
  { rewrite <- Hl. apply List.Forall_forall. intros x Hx.
    apply filter_In in Hx as [Hx _]. unfold ended in Hx.
    apply filter_In in Hx as [Hx _].
    apply in_map_iff in Hx as ([k row] & <- & Hx).
    apply list_elem_of_In, elem_of_map_to_list in Hx.
    exact (Hall _ _ Hx). }
  destruct (add_fold (r :: l) zero) as (_ & _ & Hm).
  destruct (Hm Hrows) as (Ht & Hk & Hc).
  cbn [fold_left] in Ht, Hk, Hc.
  unfold finish. cbn [PerAgent.tally PerAgent.averageTime].
  rewrite Ht, Hk, Hc. by repeat split.
Qed.

(** X13. Registration decides who answers. A chat request sent to a
    system in which an agent has just been registered under the chosen
    type is answered by that agent, whatever was registered there before,
    and the registration of the other types is as it was; on a system
    with nothing registered under the chosen type the request fails with
    "<TYPE> Agent not available", for every type. *)
Theorem registered_agent_answers (uid : string) (d : RequestData)
    (s : System) (a : AgentType) (agent : Agent) :
  chooseAgent d = Returned a ->
  let request := {| type := "CHAT"; data := d |} in
  let call :=
    CallProcessChat (message d) (topicId d) (chatContext d) uid
      (fst (generateSessionId s)) in
  fst (processLearningRequest uid request (registerAgent a agent s))
  = fst (agent call (clock s))
  /\ (forall b, b <> a ->
        agents (registerAgent a agent s) !! b = agents s !! b)
  /\ (agents s !! a = None ->
      fst (processLearningRequest uid request s)
      = Threw (AgentType_text a +:+ " Agent not available")).
Proof.
  intros Hchoose request call.
  assert (Hreq : forall s0,
            processLearningRequest uid request s0
            = Spec.tracked uid a
                (obj [("topicId", Json.JStr <$> topicId d);
                      ("originalMessage", Json.JStr <$> message d)])
                "response" (AgentType_text a +:+ " Agent not available")
                (fun sid => CallProcessChat (message d) (topicId d)
                              (chatContext d) uid sid) s0).
  { intros s0. unfold processLearningRequest, request. simpl.
    by apply processChatRequest_tracked. }
  split; [|split].
  - rewrite Hreq.
    destruct (tracked_lifecycle uid a
                (obj [("topicId", Json.JStr <$> topicId d);
                      ("originalMessage", Json.JStr <$> message d)])
                "response" (AgentType_text a +:+ " Agent not available")
                (fun sid => CallProcessChat (message d) (topicId d)
                              (chatContext d) uid sid)
                (registerAgent a agent s))
      as (_ & _ & _ & Hfst & _).
    rewrite Hfst. unfold call_agent. simpl.
    rewrite lookup_insert_eq. subst call. simpl.
    by destruct (agent _ (clock s)).
  - intros b Hne. simpl. by rewrite lookup_insert_ne.
  - intros Hnone. rewrite Hreq.
    destruct (tracked_lifecycle uid a
                (obj [("topicId", Json.JStr <$> topicId d);
                      ("originalMessage", Json.JStr <$> message d)])
                "response" (AgentType_text a +:+ " Agent not available")
                (fun sid => CallProcessChat (message d) (topicId d)
                              (chatContext d) uid sid) s)
      as (_ & _ & _ & Hfst & _).
    rewrite Hfst. by rewrite call_agent_missing.
Qed.

End StatisticsExtras.

Lemma statistics_of_the_server_are_zero_witness :
  Server.reachable
    (snd (Orchestrator.processLearningRequest "u1"
            Examples.newsletter_request Examples.server))
  /\ exists e,
       Statistics.sessionsByAgent
         (Statistics.getAgentStatistics
            (snd (Orchestrator.processLearningRequest "u1"
                    Examples.newsletter_request Examples.server)))
         !! Orchestrator.CONTENT_CURATOR = Some e
       /\ Statistics.PerAgent.count (Statistics.PerAgent.tally e) = 1%nat
       /\ Statistics.PerAgent.totalTime (Statistics.PerAgent.tally e) = 0%Z.
Proof.
  assert (Hreach : Server.reachable
            (snd (Orchestrator.processLearningRequest "u1"
                    Examples.newsletter_request Examples.server))).
  { apply Server.reach_request. apply Server.reach_start. }
  split; [exact Hreach|].
  destruct (statistics_of_the_server_are_zero _ Hreach) as [_ Hstats].
  destruct (Statistics.sessionsByAgent _ !! Orchestrator.CONTENT_CURATOR)
    as [e|] eqn:He; [|by vm_compute in He].
  exists e. split; [reflexivity|]. split.
  - vm_compute in He. by injection He as <-.
  - by apply (Hstats Orchestrator.CONTENT_CURATOR).
Defined.

Lemma registered_agent_answers_witness :
  Orchestrator.chooseAgent (Examples.chat "What is a neural network?" None)
  = Returned Orchestrator.CONVERSATION_COACH
  /\ fst (Orchestrator.processLearningRequest "u1"
            (Examples.chat_request "What is a neural network?")
            (Orchestrator.registerAgent Orchestrator.CONVERSATION_COACH
               Examples.echo Examples.server))
     = Returned (Json.JStr "ok")
  /\ fst (Orchestrator.processLearningRequest "u1"
            (Examples.chat_request "What is a neural network?")
            Examples.server)
     = Threw "CONVERSATION_COACH Agent not available".
Proof.
  split; [reflexivity|].
  destruct (registered_agent_answers "u1"
              (Examples.chat "What is a neural network?" None)
              Examples.server Orchestrator.CONVERSATION_COACH Examples.echo
              eq_refl) as (Hanswer & _ & Hmissing).
  split; [exact Hanswer | exact (Hmissing eq_refl)].
Defined.

(* ===================================================================== *)
(** ** The agents: retries, required fields, slugs, topic rows and
       the chat of the content curator *)
(* ===================================================================== *)

Section RetryFacts.
Import BaseAgent.
Context {A St : Type}.
Variable fn : St -> Outcome A * St.
Variable maxRetries : nat.
Variable baseDelay : Z.

Lemma total_snoc (l : list Z) (x : Z) : total (l ++ [x]) = (total l + x)%Z.
Proof.
  unfold total. induction l as [|y l IH]; simpl; [lia|]. rewrite IH. lia.
Qed.

Lemma total_backoff (n : nat) :
  total (map (backoff baseDelay) (seq 0 n))
  = (baseDelay * (2 ^ Z.of_nat n - 1))%Z.
Proof.
  induction n as [|n IH]; [simpl; lia|].
  rewrite seq_S, map_app.
  change (map (backoff baseDelay) [(0 + n)%nat]) with [backoff baseDelay n].
  rewrite total_snoc, IH. unfold backoff.
  rewrite Nat2Z.inj_succ, Z.pow_succ_r by lia. lia.
Qed.

Lemma retry_loop_run (remaining attempt : nat) (lastError : option string)
    (st : St) :
  (remaining + attempt = maxRetries)%nat ->
  (remaining = 0%nat -> attempt = 0%nat) ->
  (lastError = None <-> attempt = 0%nat) ->
  let r := retry_loop fn maxRetries baseDelay remaining attempt lastError st
             (map (backoff baseDelay) (seq 0 attempt)) in
  (calls r <= maxRetries)%nat
  /\ delays r = map (backoff baseDelay) (seq 0 (calls r - 1))
  /\ (forall v, settled r = Resolved v -> (1 <= calls r)%nat)
  /\ (forall e, settled r = Rejected e ->
        calls r = maxRetries /\ (e = None <-> maxRetries = 0%nat)).
Proof.
  revert attempt lastError st.
  induction remaining as [|k IH]; intros attempt lastError st Hsum Hzero Hlast.
  - simpl. rewrite (Hzero eq_refl) in *. simpl in Hsum.
    split; [lia|]. split; [done|]. split; [done|].
    intros e [= <-]. split; [lia|]. split; [lia|].
    intros _. by apply Hlast.
  - simpl. destruct (fn st) as [[v|e] st'].
    + simpl. rewrite Nat.sub_0_r.
      split; [lia|]. split; [done|]. split; [intros; lia|done].
    + destruct (Nat.eqb_spec attempt (maxRetries - 1)) as [Heq|Hne].
      * simpl. rewrite Nat.sub_0_r.
        split; [lia|]. split; [done|]. split; [done|].
        intros e' [= <-]. split; [lia|]. split; [done|lia].
      * assert (Hseq : (map (backoff baseDelay) (seq 0 attempt)
                        ++ [baseDelay * 2 ^ Z.of_nat attempt])%Z%list
                       = map (backoff baseDelay) (seq 0 (S attempt))).
        { by rewrite seq_S, map_app. }
        rewrite Hseq. apply IH; [lia|lia|]. split; [done|lia].
Qed.

(** The calls of the loop, one after the other on the state the
    one before left. *)
Lemma retry_loop_trace (st0 : St) (remaining attempt : nat)
    (lastError : option string) (slept : list Z) :
  (remaining + attempt = maxRetries)%nat ->
  (forall i, (i < attempt)%nat ->
     exists e, fst (fn (state_after fn i st0)) = Threw e) ->
  match lastError with
  | None => attempt = 0%nat
  | Some m =>
      (1 <= attempt)%nat
      /\ fst (fn (state_after fn (attempt - 1) st0)) = Threw m
  end ->
  let r := retry_loop fn maxRetries baseDelay remaining attempt lastError
             (state_after fn attempt st0) slept in
  state r = state_after fn (calls r) st0
  /\ (forall i, (i < calls r - 1)%nat ->
        exists e, fst (fn (state_after fn i st0)) = Threw e)
  /\ (forall v, settled r = Resolved v ->
        fst (fn (state_after fn (calls r - 1) st0)) = Returned v)
  /\ (forall e, settled r = Rejected e ->
        match e with
        | None => maxRetries = 0%nat
        | Some m =>
            (1 <= maxRetries)%nat
            /\ fst (fn (state_after fn (maxRetries - 1) st0)) = Threw m
        end).
Proof.
  revert attempt lastError slept.
  induction remaining as [|k IH]; intros attempt lastError slept Hsum Hpast Hlast.
  - simpl in Hsum. subst attempt. simpl.
    split; [done|]. split; [intros i Hi; apply Hpast; lia|].
    split; [done|]. intros e [= <-].
    destruct lastError as [m|]; [exact Hlast|done].
  - cbn [retry_loop].
    destruct (fn (state_after fn attempt st0)) as [[v|e] st'] eqn:Hcall.
    + cbn [state calls settled]. rewrite Nat.sub_succ, Nat.sub_0_r.
      split; [simpl; by rewrite Hcall|]. split; [exact Hpast|].
      split; [|done]. intros v' [= <-]. by rewrite Hcall.
    + destruct (Nat.eqb_spec attempt (maxRetries - 1)) as [Heq|Hne].
      * cbn [state calls settled]. rewrite Nat.sub_succ, Nat.sub_0_r.
        split; [simpl; by rewrite Hcall|]. split; [exact Hpast|].
        split; [done|]. intros e' [= <-]. split; [lia|].
        by rewrite <- Heq, Hcall.
      * assert (Hst : st' = state_after fn (S attempt) st0)
          by (simpl; by rewrite Hcall).
        rewrite Hst. apply IH; [lia| |].
        -- intros i Hi. destruct (Nat.eq_dec i attempt) as [->|Hi'].
           ++ exists e. by rewrite Hcall.
           ++ apply Hpast. lia.
        -- split; [lia|]. rewrite Nat.sub_succ, Nat.sub_0_r. by rewrite Hcall.
Qed.

End RetryFacts.

Section AgentExtras.
Import BaseAgent Agents.

(** X14. [retryWithBackoff] calls [fn] one call after the other, each
    on the state the one before left, at most [maxRetries] times, and
    sleeps before every call but the first: the delays are [baseDelay],
    twice that, four times that and so on, one fewer than the calls made,
    [baseDelay * (2^(calls-1) - 1)] in all, and nothing is slept after the
    last failure. Every call but the last one made threw. It resolves only
    after a call, with the value that call, the last one, returned; it
    rejects only when all [maxRetries] calls have been made, with the
    error the last of them threw; with [maxRetries] 0 it rejects with
    [undefined] without calling [fn]. *)
Theorem retryWithBackoff_bounds {A St : Type} (fn : St -> Outcome A * St)
    (maxRetries : nat) (baseDelay : Z) (st : St) :
  let r := retryWithBackoff fn maxRetries baseDelay st in
  (calls r <= maxRetries)%nat
  /\ state r = state_after fn (calls r) st
  /\ delays r = map (backoff baseDelay) (seq 0 (calls r - 1))
  /\ total (delays r) = (baseDelay * (2 ^ Z.of_nat (calls r - 1) - 1))%Z
  /\ (forall i, (i < calls r - 1)%nat ->
        exists e, fst (fn (state_after fn i st)) = Threw e)
  /\ (forall v, settled r = Resolved v ->
        (1 <= calls r)%nat
        /\ fst (fn (state_after fn (calls r - 1) st)) = Returned v)
  /\ (forall e, settled r = Rejected e ->
        calls r = maxRetries
        /\ (e = None <-> maxRetries = 0%nat)
        /\ forall m, e = Some m ->
             fst (fn (state_after fn (maxRetries - 1) st)) = Threw m)
  /\ (maxRetries = 0%nat ->
      settled r = Rejected None /\ calls r = 0%nat /\ state r = st).
Proof.
  intros r. subst r. unfold retryWithBackoff.
  pose proof (retry_loop_run fn maxRetries baseDelay maxRetries 0 None st)
    as Hrun.
  cbn [seq map] in Hrun.
  destruct Hrun as (Hcalls & Hdelays & Hres & Hrej); [lia|lia|done|].
  pose proof (retry_loop_trace fn maxRetries baseDelay st maxRetries 0 None [])
    as Htrace.
  change (state_after fn 0 st) with st in Htrace.
  destruct Htrace as (Hstate & Hpast & Hlast & Herr);
    [lia|intros i Hi; lia|done|].
  split; [done|]. split; [done|]. split; [done|].
  split; [rewrite Hdelays; apply total_backoff|].
  split; [done|].
  split; [intros v Hv; split; [by apply (Hres v)|by apply Hlast]|].
  split.
  - intros e He. destruct (Hrej e He) as [Hn Hnone].
    split; [done|]. split; [done|]. intros m ->.
    by destruct (Herr _ He).
  - by intros ->.
Qed.

(** X15. [validateRequired] returns exactly when every listed field
    is truthy, and otherwise throws for the first one that is not:
    "Missing required field: " followed by its name. *)
Theorem validateRequired_first_missing (fields : list (string * bool)) :
  (validateRequired fields = Returned tt
   <-> Forall (fun f => snd f = true) fields)
  /\ forall m,
       validateRequired fields = Threw m
       <-> exists pre name post,
             fields = (pre ++ (name, false) :: post)%list
             /\ Forall (fun f => snd f = true) pre
             /\ m = "Missing required field: " +:+ name.
Proof.
  induction fields as [|[name present] rest [IHok IHbad]]; simpl.
  - split; [by split|]. intros m. split; [done|].
    intros (pre & n & post & Heq & _). by destruct pre.
  - destruct present.
    + split.
      * rewrite IHok. split; [by constructor|].
        intros Hall. by inversion Hall.
      * intros m. rewrite IHbad. split.
        -- intros (pre & n & post & -> & Hpre & ->).
           exists ((name, true) :: pre), n, post.
           split; [done|]. split; [by constructor|done].
        -- intros (pre & n & post & Heq & Hpre & ->).
           destruct pre as [|p pre]; [done|].
           injection Heq as <- ->. inversion Hpre; subst.
           by exists pre, n, post.
    + split.
      * split; [done|]. intros Hall. by inversion Hall.
      * intros m. split.
        -- intros [= <-]. exists [], name, rest. by repeat split.
        -- intros (pre & n & post & Heq & Hpre & ->).
           destruct pre as [|p pre].
           ++ by injection Heq as <- _.
           ++ injection Heq as <- _. by inversion Hpre.
Qed.

End AgentExtras.

Section SlugFacts.
Import Text Curator.

Lemma slug_char_lower (c : ascii) :
  is_slug_char c = true -> lower_ascii c = c /\ is_space c = false.
Proof.
  destruct c as [[] [] [] [] [] [] [] []]; vm_compute; by intros.
Qed.

Lemma lower_ascii_twice (c : ascii) : lower_ascii (lower_ascii c) = lower_ascii c.
Proof. destruct c as [[] [] [] [] [] [] [] []]; reflexivity. Qed.

Lemma toLowerCase_twice (s : string) :
  toLowerCase (toLowerCase s) = toLowerCase s.
Proof.
  induction s as [|c s IH]; simpl; [done|]. by rewrite lower_ascii_twice, IH.
Qed.

Lemma strip_every (s : string) :
  every (fun c => is_slug_char c || is_space c) (strip s) = true.
Proof.
  induction s as [|c s IH]; simpl; [done|].
  destruct (is_slug_char c || is_space c) eqn:Hc; simpl; [|done].
  by rewrite Hc.
Qed.

Lemma hyphenate_every (b : bool) (s : string) :
  every (fun c => is_slug_char c || is_space c) s = true ->
  every is_slug_char (hyphenate b s) = true.
Proof.
  revert b. induction s as [|c s IH]; intros b; simpl; [done|].
  intros Hall. apply andb_true_iff in Hall as [Hc Hs].
  destruct (is_space c) eqn:Hsp.
  - destruct b; simpl; by apply IH.
  - simpl. rewrite orb_false_r in Hc. rewrite Hc. by apply IH.
Qed.

Lemma substring_every (P : ascii -> bool) (n : nat) (s : string) :
  every P s = true -> every P (substring 0 n s) = true.
Proof.
  revert s. induction n as [|n IH]; intros [|c s]; simpl; try done.
  intros Hall. apply andb_true_iff in Hall as [-> Hs]. by apply IH.
Qed.

Lemma substring_length (n : nat) (s : string) :
  (String.length (substring 0 n s) <= n)%nat.
Proof.
  revert s. induction n as [|n IH]; intros [|c s]; simpl; try lia.
  specialize (IH s). lia.
Qed.

Lemma substring_short (n : nat) (s : string) :
  (String.length s <= n)%nat -> substring 0 n s = s.
Proof.
  revert s. induction n as [|n IH]; intros [|c s]; simpl; try done; try lia.
  intros Hlen. rewrite IH; [done|lia].
Qed.

(** A text made of slug characters is its own slug, up to the cut. *)
Lemma slug_chars_fixed (s : string) :
  every is_slug_char s = true ->
  toLowerCase s = s /\ strip s = s /\ forall b, hyphenate b s = s.
Proof.
  induction s as [|c s IH]; simpl; [done|].
  intros Hall. apply andb_true_iff in Hall as [Hc Hs].
  destruct (IH Hs) as (Hl & Hst & Hh).
  destruct (slug_char_lower c Hc) as [Hlc Hsp].
  rewrite Hlc, Hl, Hc, Hst, Hsp. simpl. repeat split; try done.
  intros b. by rewrite Hh.
Qed.

End SlugFacts.

Section SlugExtras.
Import Text Curator.

(** X16. A slug has at most 50 characters, all of them lower-case
    letters, digits or hyphens; the slug of a slug is that slug; and the
    slug does not see the case of the letters of the title. *)
Theorem generateSlug_shape (title : string) :
  (String.length (generateSlug title) <= 50)%nat
  /\ every is_slug_char (generateSlug title) = true
  /\ generateSlug (generateSlug title) = generateSlug title
  /\ generateSlug (toLowerCase title) = generateSlug title.
Proof.
  assert (Hlen : (String.length (generateSlug title) <= 50)%nat)
    by apply substring_length.
  assert (Hchars : every is_slug_char (generateSlug title) = true).
  { apply substring_every, hyphenate_every, strip_every. }
  split; [done|]. split; [done|]. split.
  - destruct (slug_chars_fixed _ Hchars) as (Hl & Hst & Hh).
    unfold generateSlug at 1. rewrite Hl, Hst, Hh.
    by apply substring_short.
  - unfold generateSlug. by rewrite toLowerCase_twice.
Qed.

End SlugExtras.

Section TopicFacts.
Import Models Curator.

Lemma required_Some {A} (dflt : option A) (a : Attr A) (x : A) :
  required dflt a = Some x -> a = Value x \/ (a = Absent /\ dflt = Some x).
Proof. destruct a; simpl; intros; [by right|done|left; congruence]. Qed.

(** What a successful [Topic.create] stored. *)
Lemma topic_create_returns (pk : string) (v : Topic.Values)
    (table table' : list Topic.t) (t : Topic.t) :
  Topic.create pk v table = (Returned t, table') ->
  table' = (table ++ [t])%list
  /\ Topic.id t = pk
  /\ Topic.v_slug v = Value (Topic.slug t)
  /\ Topic.v_title v = Value (Topic.title t)
  /\ existsb (fun r => String.eqb (Topic.id r) pk) table = false
  /\ Topic.slug_taken (Topic.slug t) table = false.
Proof.
  unfold Topic.create.
  destruct (required None (Topic.v_title v)) as [title0|] eqn:Ht; [|done].
  destruct (required None (Topic.v_slug v)) as [slug0|] eqn:Hs; [|done].
  destruct (required None (Topic.v_category v)); [|done].
  destruct (required (Some "Beginner") (Topic.v_difficulty v)); [|done].
  destruct (required None (Topic.v_definition v)); [|done].
  destruct (required None (Topic.v_explanation v)); [|done].
  destruct (required None (Topic.v_whyItMatters v)); [|done].
  destruct (required None (Topic.v_realWorldExample v)); [|done].
  match goal with |- context [Topic.valid ?r] => set (row := r) end.
  destruct (negb (Topic.valid row)); [done|].
  destruct (existsb _ table || _) eqn:Htaken; [done|].
  apply orb_false_iff in Htaken as [Hid Hslug].
  intros [= <- <-]. simpl.
  apply required_Some in Ht as [Ht|[_ ?]]; [|done].
  apply required_Some in Hs as [Hs|[_ ?]]; [|done].
  by repeat split.
Qed.

(** A rejected [Topic.create] stores nothing. *)
Lemma topic_create_throws (pk : string) (v : Topic.Values)
    (table table' : list Topic.t) (m : string) :
  Topic.create pk v table = (Threw m, table') -> table' = table.
Proof.
  unfold Topic.create.
  repeat match goal with
         | |- context [match required ?d ?a with _ => _ end] =>
             destruct (required d a); [|by intros [= _ <-]]
         end.
  match goal with |- context [Topic.valid ?r] => set (row := r) end.
  destruct (negb (Topic.valid row)); [by intros [= _ <-]|].
  destruct (existsb _ table || _); [by intros [= _ <-]|done].
Qed.

Lemma slug_taken_snoc (s : string) (table : list Topic.t) (t : Topic.t) :
  Topic.slug t = s -> Topic.slug_taken s (table ++ [t])%list = true.
Proof.
  intros <-. unfold Topic.slug_taken. rewrite existsb_app. simpl.
  by rewrite String.eqb_refl, orb_true_r.
Qed.

Section Store.
Variable newId : list Topic.t -> string.
Variable timestamp : string.

Lemma createTopicInDatabase_returns (d : TopicData) (source : option string)
    (uid : string) (table table' : list Topic.t) (t : Topic.t) :
  createTopicInDatabase newId timestamp d source uid table
  = (Returned t, table') ->
  table' = (table ++ [t])%list
  /\ title d = Value (Topic.title t)
  /\ Topic.slug t = generateSlug (Topic.title t)
  /\ ~ In (Topic.id t) (map Topic.id table)
  /\ ~ In (Topic.slug t) (map Topic.slug table).
Proof.
  unfold createTopicInDatabase.
  destruct (title d) as [| |title0] eqn:Htitle; [done|done|].
  intros Hcreate.
  apply topic_create_returns in Hcreate
    as (-> & Hid & Hslug & Htt & Hfree & Hsfree).
  simpl in Hslug, Htt. injection Hslug as Hslug. injection Htt as Htt.
  split; [done|]. split; [by rewrite Htt|].
  split; [by rewrite <- Htt|]. split.
  - rewrite Hid. by apply key_not_taken.
  - by apply (key_not_taken Topic.slug).
Qed.

Lemma createTopicInDatabase_throws (d : TopicData) (source : option string)
    (uid : string) (table table' : list Topic.t) (m : string) :
  createTopicInDatabase newId timestamp d source uid table = (Threw m, table')
  -> table' = table.
Proof.
  unfold createTopicInDatabase.
  destruct (title d); [by intros [= _ <-]|by intros [= _ <-]|].
  apply topic_create_throws.
Qed.

Variable read : Json.json -> TopicData.
Variable toJSON : Topic.t -> Json.json.

(** The loop of [processContent] on the topic table: a row for each
    element up to the first one that is refused, and the error of that
    one. *)
Lemma createTopics_appends (items : list Json.json) (source : option string)
    (uid : string) (acc : list Json.json) (table : list Topic.t) :
  topic_table_ok table ->
  let r := Agents.createTopics (createTopic newId timestamp read toJSON)
             items source uid acc table in
  topic_table_ok (snd r)
  /\ exists new,
       snd r = (table ++ new)%list
       /\ Forall (fun t => Topic.slug t = generateSlug (Topic.title t)) new
       /\ Forall2 (fun item t => title (read item) = Value (Topic.title t))
            (firstn (length new) items) new
       /\ match fst r with
          | Returned v =>
              v = Json.JArr (rev acc ++ map toJSON new)
              /\ length new = length items
          | Threw m =>
              exists bad,
                items !! length new = Some bad
                /\ createTopicInDatabase newId timestamp (read bad) source uid
                     (table ++ new)%list
                   = (Threw m, (table ++ new)%list)
          end.
Proof.
  revert acc table.
  induction items as [|item items IH]; intros acc table Hok r; subst r.
  - simpl. split; [done|]. exists []. rewrite !app_nil_r.
    split; [done|]. split; [done|]. split; [constructor|done].
  - cbn [Agents.createTopics].
    destruct (createTopicInDatabase newId timestamp (read item) source uid
                table) as [[t|m] table1] eqn:Hcreate.
    + assert (Hstep : createTopic newId timestamp read toJSON item source uid
                        table = (Returned (toJSON t), table1))
        by (unfold createTopic; by rewrite Hcreate).
      rewrite Hstep.
      apply createTopicInDatabase_returns in Hcreate
        as (-> & Htitle & Hslug & Hid & Hsfree).
      assert (Hok1 : topic_table_ok (table ++ [t])%list).
      { destruct Hok as [Hids Hslugs]. split; by apply NoDup_map_snoc. }
      destruct (IH (toJSON t :: acc) _ Hok1)
        as (Hok' & new & Heq & Hall & Hrows & Hout).
      set (r1 := Agents.createTopics (createTopic newId timestamp read toJSON)
                   items source uid (toJSON t :: acc) (table ++ [t])%list)
        in *.
      split; [done|]. exists (t :: new).
      split; [by rewrite Heq, <- app_assoc|]. split; [by constructor|].
      split; [cbn [length firstn]; by constructor|].
      destruct (fst r1) as [v|m'].
      * destruct Hout as [-> Hlen]. cbn [rev map length].
        rewrite <- app_assoc. split; [done|lia].
      * destruct Hout as (bad & Hbad & Hfail). exists bad.
        split; [exact Hbad|]. by rewrite <- app_assoc in Hfail.
    + assert (Hstep : createTopic newId timestamp read toJSON item source uid
                        table = (Threw m, table1))
        by (unfold createTopic; by rewrite Hcreate).
      rewrite Hstep.
      pose proof (createTopicInDatabase_throws _ _ _ _ _ _ Hcreate) as ->.
      cbn [fst snd].
      split; [done|]. exists []. rewrite app_nil_r.
      split; [done|]. split; [done|]. split; [constructor|].
      exists item. by split.
Qed.

End Store.

End TopicFacts.

Section TopicExtras.
Import Models Curator.

(** X17. Two titles with the same slug cannot both become topics.
    Once [createTopicInDatabase] has stored a topic, a later call for any
    title with the same slug (the same title again, or one that differs in
    case or punctuation) throws and stores nothing, whoever asks and
    whatever the key generator gives; when the other properties are those
    of the first call, the error is the unique-index violation. *)
Theorem topic_slug_collision (newId newId' : list Topic.t -> string)
    (timestamp timestamp' : string) (d d' : TopicData)
    (source source' : option string) (uid uid' : string)
    (table table1 : list Topic.t) (t : Topic.t) (title' : string) :
  createTopicInDatabase newId timestamp d source uid table
  = (Returned t, table1) ->
  title d' = Value title' ->
  generateSlug title' = Topic.slug t ->
  (exists m,
     createTopicInDatabase newId' timestamp' d' source' uid' table1
     = (Threw m, table1))
  /\ (category d' = category d -> difficulty d' = difficulty d ->
      definition d' = definition d -> explanation d' = explanation d ->
      whyItMatters d' = whyItMatters d ->
      realWorldExample d' = realWorldExample d ->
      createTopicInDatabase newId' timestamp' d' source' uid' table1
      = (Threw unique_violation, table1)).
Proof.
  intros Hfirst Htitle Hslug.
  pose proof (createTopicInDatabase_returns _ _ _ _ _ _ _ _ Hfirst)
    as (-> & _ & _ & _ & _).
  assert (Htaken : Topic.slug_taken (generateSlug title') (table ++ [t])%list
                   = true) by (by apply slug_taken_snoc).
  split.
  - unfold createTopicInDatabase. rewrite Htitle. unfold Topic.create.
    cbn [Topic.v_title Topic.v_slug Topic.v_category Topic.v_difficulty
         Topic.v_definition Topic.v_explanation Topic.v_whyItMatters
         Topic.v_realWorldExample required stored].
    repeat match goal with
           | |- context [match required ?dflt ?a with _ => _ end] =>
               destruct (required dflt a); [|by eexists]
           end.
    destruct (negb (Topic.valid _)); [by eexists|].
    rewrite Htaken, orb_true_r. by eexists.
  - intros Hc Hd Hdef Hex Hwhy Hreal.
    unfold createTopicInDatabase in Hfirst |- *.
    destruct (title d) as [| |title0]; [done|done|].
    rewrite Htitle. unfold Topic.create in Hfirst |- *.
    cbn [Topic.v_title Topic.v_slug Topic.v_category Topic.v_difficulty
         Topic.v_definition Topic.v_explanation Topic.v_whyItMatters
         Topic.v_realWorldExample Topic.v_sourceType required stored]
      in Hfirst |- *.
    rewrite Hc, Hd, Hdef, Hex, Hwhy, Hreal.
    repeat match goal with
           | |- context [match required ?dflt ?a with _ => _ end] =>
               destruct (required dflt a); [|done]
           end.
    match type of Hfirst with
    | context [Topic.valid ?r] => destruct (Topic.valid r) eqn:Hvalid
    end; [|done].
    match goal with |- context [Topic.valid ?r] => set (row := r) end.
    assert (Hrow : Topic.valid row = true).
    { unfold Topic.valid in Hvalid |- *. exact Hvalid. }
    rewrite Hrow. simpl. by rewrite Htaken, orb_true_r.
Qed.

(** X18. [processContent] only appends to the topic table, and
    keeps its keys and its slugs unique: whether it returns or throws, the
    table afterwards is the table before followed by the rows created,
    each with the slug of its title; when it returns, it returns those
    rows, in order. Once the reply has been read as an array, the rows
    created are one for each element, in order and under its title, up to
    the first element that [createTopicInDatabase] refuses: when there is
    none the call returns, otherwise it throws the error of that element,
    and the rows created for the elements before it stay in the table. *)
Theorem processContent_appends_topics (newId : list Topic.t -> string)
    (timestamp : string) (read : Json.json -> TopicData)
    (toJSON : Topic.t -> Json.json)
    (complete : list (string * string) -> Outcome (option string))
    (systemPrompt : string) (content : option string)
    (uid sid : string) (source : option string) (table : list Topic.t) :
  topic_table_ok table ->
  let r := processContent newId timestamp read toJSON complete systemPrompt
             content uid sid source table in
  topic_table_ok (snd r)
  /\ exists new,
       snd r = (table ++ new)%list
       /\ Forall (fun t => Topic.slug t = generateSlug (Topic.title t)) new
       /\ (forall v, fst r = Returned v -> v = Json.JArr (map toJSON new))
       /\ forall text items,
            uid <> EmptyString -> sid <> EmptyString ->
            content = Some text ->
            Agents.extractInformation complete systemPrompt text
              Agents.extractionPrompt
            = Returned (Json.JArr items) ->
            Forall2 (fun item t => title (read item) = Value (Topic.title t))
              (firstn (length new) items) new
            /\ match fst r with
               | Returned _ => length new = length items
               | Threw m =>
                   exists bad,
                     items !! length new = Some bad
                     /\ createTopicInDatabase newId timestamp (read bad)
                          source uid (table ++ new)%list
                        = (Threw m, (table ++ new)%list)
               end.
Proof.
  intros Hok r.
  assert (Hsame : forall m : string,
            (forall text items,
               uid <> EmptyString -> sid <> EmptyString ->
               content = Some text ->
               Agents.extractInformation complete systemPrompt text
                 Agents.extractionPrompt
               = Returned (Json.JArr items) -> False) ->
            topic_table_ok table
            /\ exists new,
                 table = (table ++ new)%list
                 /\ Forall (fun t => Topic.slug t
                                     = generateSlug (Topic.title t)) new
                 /\ (forall v, @Threw Json.json m = Returned v ->
                               v = Json.JArr (map toJSON new))
                 /\ forall text items,
                      uid <> EmptyString -> sid <> EmptyString ->
                      content = Some text ->
                      Agents.extractInformation complete systemPrompt text
                        Agents.extractionPrompt
                      = Returned (Json.JArr items) ->
                      Forall2 (fun item t =>
                                 title (read item) = Value (Topic.title t))
                        (firstn (length new) items) new
                      /\ exists bad,
                           items !! length new = Some bad
                           /\ createTopicInDatabase newId timestamp
                                (read bad) source uid (table ++ new)%list
                              = (Threw m, (table ++ new)%list)).
  { intros m Hnever. split; [done|]. exists []. rewrite app_nil_r.
    split; [done|]. split; [done|]. split; [done|].
    intros text items H1 H2 H3 H4. destruct (Hnever text items H1 H2 H3 H4). }
  subst r. unfold processContent, Agents.processContent.
  destruct uid as [|c1 uid'];
    [apply Hsame; by intros ? ? Hu|].
  destruct sid as [|c2 sid'];
    [apply Hsame; by intros ? ? _ Hs|].
  cbn [Agents.validateRequired Text.truthy].
  destruct content as [text|]; [|apply Hsame; by intros].
  destruct (Agents.extractInformation complete systemPrompt text
              Agents.extractionPrompt) as [result|m] eqn:Hext;
    [|apply Hsame; intros ? ? _ _ [= <-]; by rewrite Hext].
  destruct result as [| | | |items0|];
    try (apply Hsame; intros ? ? _ _ [= <-]; by rewrite Hext).
  destruct (createTopics_appends newId timestamp read toJSON items0 source
              (String c1 uid') [] table Hok)
    as (Hok' & new & Heq & Hall & Hrows & Hout).
  split; [done|]. exists new. split; [done|]. split; [done|]. split.
  - intros v Hv. rewrite Hv in Hout. by destruct Hout as [-> _].
  - intros text' items _ _ [= <-]. rewrite Hext. intros [= <-].
    split; [exact Hrows|].
    destruct (fst (Agents.createTopics _ items0 source _ [] table));
      [by destruct Hout|exact Hout].
Qed.

End TopicExtras.

Section CuratorChatExtras.
Import Orchestrator.
Context `{Libraries}.

(** X19. A chat with a message that the content curator handles,
    named as the preferred agent or chosen by the keyword scan, never
    fails. When the completion call throws, [processChat] answers with the
    error response instead of throwing, so the orchestrator records the
    session as COMPLETED with that response as its result, and the chat
    route answers the signed-in user with a success whose data says
    [success: false]. *)
Theorem curator_chat_never_fails (newId : list Topic.t -> string)
    (timestamp : string) (read : Json.json -> Curator.TopicData)
    (toJSON : Topic.t -> Json.json)
    (complete : list (string * string) -> Outcome (option string))
    (systemPrompt : string)
    (usage : list (string * string) -> Json.json * Json.json)
    (suggestions followUpQuestions : list string) (table : list Topic.t)
    (rest : Agent) (s : System) (env : AuthService.Env)
    (authHeader : option string) (user : JWTPayload.t)
    (body : Server.ChatBody) (m : string) :
  agents s !! CONTENT_CURATOR
  = Some (Curator.agent newId timestamp read toJSON complete systemPrompt usage
            suggestions followUpQuestions table rest) ->
  Middleware.authenticateToken env authHeader (clock s) = Middleware.Next user ->
  Server.b_message body = Some m ->
  chooseAgent (Routes.chat_data body) = Returned CONTENT_CURATOR ->
  exists v row,
    Curator.processChat timestamp complete systemPrompt usage suggestions
      followUpQuestions m (Server.b_topicId body) table = Returned v
    /\ fst (Server.post_chat env authHeader body s) = Server.Success v
    /\ sessions (snd (Server.post_chat env authHeader body s))
         !! new_key (sessions s) = Some row
    /\ status row = COMPLETED
    /\ resultData row = Json.JObj [("response", v)]
    /\ forall e,
         (forall messages, complete messages = Threw e) ->
         v = BaseAgent.createErrorResponse "CONTENT_CURATOR" timestamp
               ("AI response generation failed: " +:+ e).
Proof.
  intros Hagent Hauth Hmsg Hchoose.
  set (d := Routes.chat_data body) in *.
  assert (Hpost : Server.post_chat env authHeader body s
                  = Server.respond
                      (processChatRequest (JWTPayload.userId user) d s)).
  { unfold Server.post_chat, Server.guarded. by rewrite Hauth. }
  rewrite Hpost, (processChatRequest_tracked _ _ _ _ Hchoose).
  match goal with
  | |- context [Spec.tracked ?u ?a ?c ?f ?mi ?ca s] =>
      destruct (tracked_lifecycle u a c f mi ca s)
        as (Hid & _ & _ & Hfst & _ & _ & final & Hfinal & _ & _ & _ & _
            & _ & _ & Hstatus);
      set (result := Spec.tracked u a c f mi ca s) in *
  end.
  assert (Hcall : fst result
                  = Curator.processChat timestamp complete systemPrompt usage
                      suggestions followUpQuestions m (Server.b_topicId body)
                      table).
  { rewrite Hfst. unfold call_agent. cbn [agents createAgentSession snd
      with_sessions generateSessionId with_draw].
    rewrite Hagent. unfold Curator.agent, Agents.contentCurator. simpl.
    by rewrite Hmsg. }
  assert (Hreturns : exists v,
            Curator.processChat timestamp complete systemPrompt usage suggestions
              followUpQuestions m (Server.b_topicId body) table = Returned v
            /\ forall e,
                 (forall messages, complete messages = Threw e) ->
                 v = BaseAgent.createErrorResponse "CONTENT_CURATOR" timestamp
                       ("AI response generation failed: " +:+ e)).
  { unfold Curator.processChat, Agents.generateResponse.
    match goal with
    | |- context [complete ?msgs] => destruct (complete msgs) eqn:Hc
    end.
    - eexists. split; [reflexivity|]. intros e He. by rewrite He in Hc.
    - eexists. split; [reflexivity|]. intros e He. rewrite He in Hc.
      by injection Hc as ->. }
  destruct Hreturns as (v & Hv & Herr).
  rewrite Hv in Hcall. rewrite Hcall in Hstatus.
  destruct Hstatus as [Hcompleted Hdata].
  exists v, final. split; [done|].
  rewrite Hid in Hfinal.
  destruct result as [o s']. simpl in Hcall. subst o.
  by repeat split.
Qed.

End CuratorChatExtras.

Lemma topic_slug_collision_witness :
  Curator.generateSlug "RETRIEVAL-AUGMENTED   generation!?"
  = Curator.generateSlug "Retrieval-Augmented Generation"
  /\ Curator.createTopicInDatabase Scenarios.numbered "later" Scenarios.rag_shouted
       None "u-2"
       (snd (Curator.createTopicInDatabase Scenarios.numbered "now"
               Scenarios.rag (Some "weekly-digest") "u-1" []))
     = (Threw Models.unique_violation,
        snd (Curator.createTopicInDatabase Scenarios.numbered "now"
               Scenarios.rag (Some "weekly-digest") "u-1" [])).
Proof.
  split; [vm_compute; reflexivity|].
  destruct (Curator.createTopicInDatabase Scenarios.numbered "now"
              Scenarios.rag (Some "weekly-digest") "u-1" [])
    as [[t|m] table1] eqn:Hfirst; [|by vm_compute in Hfirst].
  cbn [snd].
  apply (proj2 (topic_slug_collision Scenarios.numbered Scenarios.numbered
                  "now" "later" Scenarios.rag Scenarios.rag_shouted
                  (Some "weekly-digest") None "u-1" "u-2" [] table1 t
                  "RETRIEVAL-AUGMENTED   generation!?" Hfirst eq_refl
                  ltac:(vm_compute in Hfirst; injection Hfirst as <- _;
                        vm_compute; reflexivity)));
    reflexivity.
Defined.

Lemma processContent_appends_topics_witness :
  Curator.topic_table_ok []
  /\ Curator.topic_table_ok
       (snd (Curator.processContent Scenarios.numbered "now"
               Scenarios.read_topic Scenarios.slug_of
               Scenarios.twice_completion "You are a Content Curator Agent"
               (Some "Vector search, explained.") "u-1" "s-1" None []))
  /\ fst (Curator.processContent Scenarios.numbered "now"
            Scenarios.read_topic Scenarios.slug_of
            Scenarios.twice_completion "You are a Content Curator Agent"
            (Some "Vector search, explained.") "u-1" "s-1" None [])
     = Threw Models.unique_violation
  /\ map Topic.slug
       (snd (Curator.processContent Scenarios.numbered "now"
               Scenarios.read_topic Scenarios.slug_of
               Scenarios.twice_completion "You are a Content Curator Agent"
               (Some "Vector search, explained.") "u-1" "s-1" None []))
     = ["vector-search"].
Proof.
  assert (Hok : Curator.topic_table_ok [])
    by (split; apply List.NoDup_nil).
  split; [exact Hok|]. split.
  - exact (proj1 (processContent_appends_topics Scenarios.numbered "now"
             Scenarios.read_topic Scenarios.slug_of
             Scenarios.twice_completion "You are a Content Curator Agent"
             (Some "Vector search, explained.") "u-1" "s-1" None [] Hok)).
  - split; vm_compute; reflexivity.
Defined.

Lemma curator_chat_never_fails_witness :
  @Middleware.authenticateToken Reference.libraries Examples.env
    (Some ("Bearer " +:+ Examples.ada_token))
    (Orchestrator.clock Scenarios.down_server)
  = Middleware.Next {| JWTPayload.userId := "7b1c-ada";
                       JWTPayload.email := "ada@example.org";
                       JWTPayload.role := "PM";
                       JWTPayload.iat := 0;
                       JWTPayload.exp := 604800 |}
  /\ Orchestrator.chooseAgent (Routes.chat_data Scenarios.article_body)
     = Returned Orchestrator.CONTENT_CURATOR
  /\ fst (@Server.post_chat Reference.libraries Examples.env
            (Some ("Bearer " +:+ Examples.ada_token))
            Scenarios.article_body Scenarios.down_server)
     = Server.Success
         (BaseAgent.createErrorResponse "CONTENT_CURATOR"
            "2026-01-01T00:00:00.000Z"
            "AI response generation failed: quota exceeded").
Proof.
  split; [reflexivity|]. split; [vm_compute; reflexivity|].
  destruct (@curator_chat_never_fails Reference.libraries Scenarios.numbered
              "2026-01-01T00:00:00.000Z" Scenarios.read_topic
              Scenarios.slug_of Scenarios.no_completion
              "You are a Content Curator Agent" Scenarios.no_usage
              ["What should I learn next?"] ["Would examples be helpful?"]
              [] Examples.echo Scenarios.down_server Examples.env
              (Some ("Bearer " +:+ Examples.ada_token)) _
              Scenarios.article_body "Sum up this article on attention"
              eq_refl eq_refl eq_refl ltac:(vm_compute; reflexivity))
    as (v & row & _ & Hpost & _ & _ & _ & Herr).
  rewrite Hpost. f_equal. by apply Herr.
Defined.

(* ===================================================================== *)
(** ** The analytics: sorting, streaks, categories, skill gaps,
       recommendations and the comparison *)
(* ===================================================================== *)

Section SortFacts.
Context {A : Type}.
Variable after : A -> A -> bool.

Lemma insert_perm (x : A) (l : list A) :
  Permutation (x :: l) (Arrays.insert after x l).
Proof.
  induction l as [|y r IH]; simpl; [done|].
  destruct (after x y); [|done].
  etransitivity; [apply perm_swap|]. by apply perm_skip.
Qed.

Lemma sort_perm (l : list A) : Permutation l (Arrays.sort after l).
Proof.
  induction l as [|x l IH]; simpl; [done|].
  etransitivity; [|apply insert_perm]. by apply perm_skip.
Qed.

Variable R : A -> A -> Prop.
Hypothesis R_trans : forall x y z, R x y -> R y z -> R x z.
Hypothesis after_false : forall x y, after x y = false -> R x y.
Hypothesis after_true : forall x y, after x y = true -> R y x.

Lemma insert_sorted (x : A) (l : list A) :
  StronglySorted R l -> StronglySorted R (Arrays.insert after x l).
Proof.
  induction l as [|y r IH]; simpl; intros Hs.
  - constructor; [constructor|constructor].
  - inversion Hs as [|? ? Hr Hy]; subst.
    destruct (after x y) eqn:Hxy.
    + constructor; [by apply IH|].
      apply List.Forall_forall. intros z Hz.
      apply (Permutation_in _ (Permutation_sym (insert_perm x r))) in Hz.
      destruct Hz as [<-|Hz]; [by apply after_true|].
      by apply (proj1 (List.Forall_forall _ _) Hy).
    + constructor; [done|]. constructor; [by apply after_false|].
      apply List.Forall_forall. intros z Hz.
      apply (R_trans x y z); [by apply after_false|].
      by apply (proj1 (List.Forall_forall _ _) Hy).
Qed.

Lemma sort_sorted (l : list A) : StronglySorted R (Arrays.sort after l).
Proof.
  induction l as [|x l IH]; simpl; [constructor|]. by apply insert_sorted.
Qed.

End SortFacts.

Section StreakFacts.
Import Insights.

Lemma unique_from_spec (seen l : list Z) :
  List.NoDup (Arrays.unique_from seen l)
  /\ forall x, In x (Arrays.unique_from seen l) <-> In x l /\ ~ In x seen.
Proof.
  revert seen. induction l as [|y l IH]; intros seen; simpl.
  - split; [constructor|]. tauto.
  - destruct (existsb (Z.eqb y) seen) eqn:Hseen.
    + destruct (IH seen) as [Hnd Hin]. split; [done|].
      intros x. rewrite Hin. split; [tauto|].
      intros [[Heq|Hx] Hnot]; [|done]. subst x.
      exfalso. apply Hnot. apply existsb_exists in Hseen as (z & Hz & Heq).
      apply Z.eqb_eq in Heq. by subst.
    + destruct (IH (y :: seen)) as [Hnd Hin]. split.
      * constructor; [|done]. rewrite Hin. simpl. tauto.
      * intros x. simpl. rewrite Hin. simpl. split.
        -- intros [Heq|[Hx Hnot]]; [|tauto]. subst x. split; [by left|].
           intros Hy. assert (existsb (Z.eqb y) seen = true); [|congruence].
           apply existsb_exists. exists y. by rewrite Z.eqb_refl.
        -- intros [[Heq|Hx] Hnot]; [by left|].
           destruct (Z.eq_dec y x) as [Heq|Hne]; [by left|]. right. tauto.
Qed.

Lemma unique_from_length (seen l : list Z) :
  (length (Arrays.unique_from seen l) <= length l)%nat.
Proof.
  revert seen. induction l as [|y l IH]; intros seen; simpl; [lia|].
  destruct (existsb (Z.eqb y) seen); simpl.
  - specialize (IH seen). lia.
  - specialize (IH (y :: seen)). lia.
Qed.

(** The dates of the streak loops: each day once, latest first. *)
Lemma unique_dates_spec (days : list Z) :
  let u := Arrays.sort Z.ltb (Arrays.unique days) in
  StronglySorted (fun a b => (b < a)%Z) u
  /\ (forall x, In x u <-> In x days)
  /\ (length u <= length days)%nat.
Proof.
  intros u.
  destruct (unique_from_spec [] days) as [Hnd Hin].
  assert (Hperm : Permutation (Arrays.unique days) u) by apply sort_perm.
  assert (Hge : StronglySorted (fun a b => (b <= a)%Z) u).
  { apply sort_sorted.
    - intros x y z. lia.
    - intros x y Hxy. apply Z.ltb_ge in Hxy. lia.
    - intros x y Hxy. apply Z.ltb_lt in Hxy. lia. }
  assert (Hndu : List.NoDup u) by (by apply (Permutation_NoDup Hperm)).
  split; [|split].
  - clear Hperm. induction Hge as [|a l Hl IH Ha]; [constructor|].
    inversion Hndu as [|? ? Hnot Hrest]; subst.
    constructor; [by apply IH|].
    apply List.Forall_forall. intros z Hz.
    pose proof (proj1 (List.Forall_forall _ _) Ha z Hz) as Hle.
    cbn beta in Hle. assert (z <> a) by (intros ->; done). lia.
  - intros x. split.
    + intros Hx. apply (Permutation_in _ (Permutation_sym Hperm)) in Hx.
      by apply Hin in Hx as [Hx _].
    + intros Hx. apply (Permutation_in _ Hperm). apply Hin.
      split; [done|simpl; tauto].
  - rewrite <- (Permutation_length Hperm). apply unique_from_length.
Qed.

Lemma longest_from_ge (previous : Z) (temp longest : nat) (rest : list Z) :
  (Nat.max longest temp <= longest_from previous temp longest rest)%nat.
Proof.
  revert previous temp longest.
  induction rest as [|d r IH]; intros previous temp longest; simpl; [lia|].
  destruct (previous - d =? 1)%Z.
  - specialize (IH d (S temp) longest). lia.
  - specialize (IH d 1%nat (Nat.max longest temp)). lia.
Qed.

Lemma longest_from_le (previous : Z) (temp longest : nat) (rest : list Z) :
  (longest_from previous temp longest rest
   <= Nat.max longest (temp + length rest))%nat.
Proof.
  revert previous temp longest.
  induction rest as [|d r IH]; intros previous temp longest; simpl; [lia|].
  destruct (previous - d =? 1)%Z.
  - specialize (IH d (S temp) longest). lia.
  - specialize (IH d 1%nat (Nat.max longest temp)). lia.
Qed.

(** The run the first loop counts is one the second loop sees. *)
Lemma current_le_longest (previous : Z) (temp longest : nat) (rest : list Z) :
  (temp + current_from (previous - 1) rest
   <= longest_from previous temp longest rest)%nat.
Proof.
  revert previous temp longest.
  induction rest as [|d r IH]; intros previous temp longest; simpl.
  - lia.
  - destruct (Z.eqb_spec d (previous - 1)) as [->|Hne].
    + replace (previous - (previous - 1) =? 1)%Z with true
        by (symmetry; apply Z.eqb_eq; lia).
      specialize (IH (previous - 1)%Z (S temp) longest). lia.
    + destruct (previous - d =? 1)%Z eqn:Hd; [apply Z.eqb_eq in Hd; lia|].
      pose proof (longest_from_ge d 1 (Nat.max longest temp) r). lia.
Qed.

Lemma current_from_present (expected : Z) (u : list Z) (i : nat) :
  (i < current_from expected u)%nat -> In (expected - Z.of_nat i)%Z u.
Proof.
  revert expected i. induction u as [|d r IH]; intros expected i; simpl;
    [lia|].
  destruct (Z.eqb_spec d expected) as [->|Hne]; [|lia].
  destruct i as [|i]; [left; lia|].
  intros Hi. right.
  replace (expected - Z.of_nat (S i))%Z with (expected - 1 - Z.of_nat i)%Z
    by lia.
  apply IH. lia.
Qed.

Lemma current_from_maximal (expected : Z) (u : list Z) :
  StronglySorted (fun a b => (b < a)%Z) u ->
  Forall (fun d => (d <= expected)%Z) u ->
  ~ In (expected - Z.of_nat (current_from expected u))%Z u.
Proof.
  revert expected. induction u as [|d r IH]; intros expected Hs Hle;
    simpl; [tauto|].
  inversion Hs as [|? ? Hr Hd]; subst.
  inversion Hle as [|? ? Hde Hrle]; subst.
  assert (Hlt : forall z, In z r -> (z < d)%Z)
    by (intros z Hz; by apply (proj1 (List.Forall_forall _ _) Hd)).
  destruct (Z.eqb_spec d expected) as [->|Hne].
  - assert (Hr1 : Forall (fun z => (z <= expected - 1)%Z) r).
    { apply List.Forall_forall. intros z Hz. specialize (Hlt z Hz). lia. }
    specialize (IH (expected - 1)%Z Hr Hr1).
    intros [Heq|Hin]; [lia|].
    apply IH.
    replace (expected - 1 - Z.of_nat (current_from (expected - 1) r))%Z
      with (expected - Z.of_nat (S (current_from (expected - 1) r)))%Z
      by lia.
    exact Hin.
  - simpl. rewrite Z.sub_0_r. intros [Heq|Hin]; [lia|].
    specialize (Hlt _ Hin). lia.
Qed.

End StreakFacts.

Section StreakExtras.
Import Insights.

(** X20. The streaks of [calculateLearningStreaks], days counted in
    a zone without clock changes. The current streak never exceeds the
    longest; it counts days that all have a completed session, today
    first; it is 0 whenever there is no completed session today, whatever
    happened yesterday; the longest streak is at least 1 as soon as there
    is a session and at most the number of sessions; and when no session
    is dated after today the current streak is exactly the run of days
    ending today: the day before the run has no session. *)
Theorem learning_streaks (startTimes : list Z) (now : Z) :
  let current := fst (calculateLearningStreaks startTimes now) in
  let longest := snd (calculateLearningStreaks startTimes now) in
  let days := map day_of startTimes in
  (current <= longest)%nat
  /\ (longest <= length startTimes)%nat
  /\ (startTimes <> [] -> (1 <= longest)%nat)
  /\ (forall i, (i < current)%nat -> In (day_of now - Z.of_nat i)%Z days)
  /\ (~ In (day_of now) days -> current = 0%nat)
  /\ (Forall (fun t => (day_of t <= day_of now)%Z) startTimes ->
      ~ In (day_of now - Z.of_nat current)%Z days).
Proof.
  intros current longest days. subst current longest.
  unfold calculateLearningStreaks.
  destruct startTimes as [|t ts]; [simpl; repeat split; try lia; try done|].
  set (times := t :: ts) in *.
  fold days.
  destruct (unique_dates_spec days) as (Hsorted & Hin & Hlen).
  set (u := Arrays.sort Z.ltb (Arrays.unique days)) in *.
  cbn [fst snd].
  assert (Hdays : length days = length times) by apply length_map.
  assert (Hpresent : forall i, (i < current_from (day_of now) u)%nat ->
                               In (day_of now - Z.of_nat i)%Z days).
  { intros i Hi. apply Hin. by apply current_from_present. }
  split; [|split; [|split; [|split; [done|split]]]].
  - destruct u as [|d r]; [simpl; lia|]. simpl.
    destruct (Z.eqb_spec d (day_of now)) as [->|Hne]; [|lia].
    pose proof (current_le_longest (day_of now) 1 0 r). lia.
  - destruct u as [|d r]; [subst times; cbn [length]; lia|].
    pose proof (longest_from_le d 1 0 r). cbn [length] in Hlen. lia.
  - intros _. destruct u as [|d r]; [lia|].
    pose proof (longest_from_ge d 1 0 r). lia.
  - intros Hnot.
    destruct (current_from (day_of now) u) as [|k] eqn:Hk; [done|].
    exfalso. apply Hnot.
    specialize (Hpresent 0%nat). rewrite Z.sub_0_r in Hpresent.
    apply Hpresent. lia.
  - intros Hpast Hday. apply Hin in Hday.
    revert Hday. apply current_from_maximal; [done|].
    apply List.Forall_forall. intros d Hd. apply Hin in Hd.
    unfold days in Hd. apply in_map_iff in Hd as (x & <- & Hx).
    by apply (proj1 (List.Forall_forall _ _) Hpast).
Qed.

End StreakExtras.

Section CategoryFacts.
Import Insights.

Lemma bump_keys (c : string) (l : list (string * nat)) :
  map fst (bump c l) = map fst l.
Proof.
  unfold bump. induction l as [|[k n] l IH]; simpl; [done|].
  rewrite IH. by destruct (String.eqb k c).
Qed.

Lemma count_of_bump (c c' : string) (l : list (string * nat)) :
  count_of c (bump c' l)
  = (count_of c l
     + if String.eqb c c' && existsb (String.eqb c) (map fst l)
       then 1 else 0)%nat.
Proof.
  unfold count_of, bump.
  induction l as [|[k n] l IH]; cbn [map find fst snd existsb].
  - rewrite andb_false_r. lia.
  - assert (Hfst : fst (if String.eqb k c' then (k, S n) else (k, n)) = k)
      by (by destruct (String.eqb k c')).
    rewrite Hfst.
    destruct (String.eqb_spec k c) as [->|Hne].
    + rewrite String.eqb_refl. cbn [orb]. rewrite andb_true_r.
      destruct (String.eqb c c'); cbn [snd]; lia.
    + rewrite IH.
      destruct (String.eqb_spec c k) as [->|_]; [done|]. reflexivity.
Qed.

(** The topic of the row has category [c]. *)
Lemma fold_counts (rows : list Progress) (acc : list (string * nat))
    (c : string) :
  map fst acc = categories -> In c categories ->
  let result :=
    fold_left
      (fun categoryCount progress =>
         match snd progress with
         | Some topic =>
             if existsb (String.eqb (Topic.category topic)) categories
             then bump (Topic.category topic) categoryCount
             else categoryCount
         | None => categoryCount
         end) rows acc in
  map fst result = categories
  /\ count_of c result
     = (count_of c acc
        + length (List.filter
            (fun p => match snd p with
                      | Some topic => String.eqb (Topic.category topic) c
                      | None => false
                      end) rows))%nat.
Proof.
  intros Hkeys Hc. revert acc Hkeys.
  induction rows as [|[p [topic|]] rows IH]; intros acc Hkeys;
    cbn [fold_left List.filter snd length].
  - split; [done|lia].
  - destruct (existsb (String.eqb (Topic.category topic)) categories) eqn:Hknown.
    + destruct (IH (bump (Topic.category topic) acc)) as [Hk Hcount];
        [by rewrite bump_keys|].
      split; [done|]. rewrite Hcount, count_of_bump, Hkeys.
      assert (Hin : existsb (String.eqb c) categories = true).
      { apply existsb_exists. exists c. by rewrite String.eqb_refl. }
      rewrite Hin, andb_true_r, (String.eqb_sym c).
      destruct (String.eqb (Topic.category topic) c); cbn [length]; lia.
    + destruct (IH acc Hkeys) as [Hk Hcount]. split; [done|].
      rewrite Hcount.
      destruct (String.eqb_spec (Topic.category topic) c) as [Heq|_];
        [|done].
      exfalso. rewrite Heq in Hknown.
      assert (existsb (String.eqb c) categories = true); [|congruence].
      apply existsb_exists. exists c. by rewrite String.eqb_refl.
  - by apply IH.
Qed.

Lemma filter_counts_for (c : string) (rows : list Progress) :
  List.filter
    (fun p => match snd p with
              | Some topic => String.eqb (Topic.category topic) c
              | None => false
              end) (List.filter completed rows)
  = List.filter (counts_for c) rows.
Proof.
  unfold counts_for. induction rows as [|p rows IH]; simpl; [done|].
  destruct (completed p); simpl; [|done]. rewrite IH. by destruct (snd p).
Qed.

(** Over keys that are all different, the values add up to the
    counts looked up by key. *)
Lemma sum_by_keys (l : list (string * nat)) :
  List.NoDup (map fst l) ->
  sum_list (map snd l) = sum_list (map (fun c => count_of c l) (map fst l)).
Proof.
  induction l as [|[k n] l IH]; simpl; [done|].
  intros Hnd. inversion Hnd as [|? ? Hk Hrest]; subst.
  unfold count_of at 1. simpl. rewrite String.eqb_refl. simpl.
  rewrite (IH Hrest). f_equal. f_equal.
  apply map_ext_in. intros c Hc. unfold count_of. simpl.
  destruct (String.eqb_spec k c) as [->|_]; [done|reflexivity].
Qed.

Lemma sum_list_plus {A} (f g : A -> nat) (l : list A) :
  sum_list (map (fun x => (f x + g x)%nat) l)
  = (sum_list (map f l) + sum_list (map g l))%nat.
Proof. induction l as [|x l IH]; simpl; [done|]. rewrite IH. lia. Qed.

(** A row counts for at most one of the categories. *)
Lemma one_category (p : Progress) (cs : list string) :
  List.NoDup cs ->
  sum_list (map (fun c => if counts_for c p then 1 else 0)%nat cs)
  = if completed p
       && match snd p with
          | Some topic => existsb (String.eqb (Topic.category topic)) cs
          | None => false
          end
    then 1%nat else 0%nat.
Proof.
  unfold counts_for. destruct (completed p); simpl.
  2: { intros _. induction cs as [|c cs IH]; simpl; [done|]. by rewrite IH. }
  destruct (snd p) as [topic|].
  2: { intros _. induction cs as [|c cs IH]; simpl; [done|]. by rewrite IH. }
  induction cs as [|c cs IH]; simpl; [done|].
  intros Hnd. inversion Hnd as [|? ? Hc Hrest]; subst.
  rewrite (IH Hrest).
  destruct (String.eqb_spec (Topic.category topic) c) as [->|_]; [|done].
  simpl.
  assert (Hnone : existsb (String.eqb c) cs = false).
  { apply not_true_is_false. intros Hex.
    apply existsb_exists in Hex as (x & Hx & Heq).
    apply String.eqb_eq in Heq. by subst. }
  by rewrite Hnone.
Qed.

Lemma counts_partition (rows : list Progress) (cs : list string) :
  List.NoDup cs ->
  sum_list (map (fun c => length (List.filter (counts_for c) rows)) cs)
  = length (List.filter
      (fun p => completed p
                && match snd p with
                   | Some topic =>
                       existsb (String.eqb (Topic.category topic)) cs
                   | None => false
                   end) rows).
Proof.
  intros Hnd. induction rows as [|p rows IH]; simpl.
  - induction cs as [|c cs IHc]; simpl; [done|].
    inversion Hnd; subst. by rewrite IHc.
  - transitivity
      (sum_list (map (fun c => ((if counts_for c p then 1 else 0)
                                + length (List.filter (counts_for c) rows))%nat)
                   cs)).
    { f_equal. apply map_ext. intros c. by destruct (counts_for c p). }
    rewrite sum_list_plus, IH, (one_category p cs Hnd).
    by destruct (completed p && _).
Qed.

Lemma filter_and_le {A} (P Q : A -> bool) (l : list A) :
  (length (List.filter (fun x => P x && Q x) l)
   <= length (List.filter P l))%nat.
Proof.
  induction l as [|x l IH]; cbn [List.filter length]; [lia|].
  destruct (P x), (Q x); cbn [andb length]; lia.
Qed.

Lemma categories_NoDup : List.NoDup categories.
Proof.
  unfold categories.
  repeat (apply List.NoDup_cons;
          [cbn [In]; intros H; decompose [or] H;
           match goal with
           | E : _ = _ |- _ => discriminate E
           | F : False |- _ => destruct F
           end|]).
  apply List.NoDup_nil.
Qed.

End CategoryFacts.

Section CategoryExtras.
Import Insights.

(** X21. [calculateTopicsByCategory] answers with the eight
    categories, in their order; the count of a category is the number of
    completed rows whose topic has that category; rows without a topic,
    or whose topic has another category, are counted nowhere, so the
    counts add up to the number of completed rows with a topic of one of
    the eight categories, which is at most the number of completed
    rows. *)
Theorem topics_by_category_counts (userProgress : list Progress) :
  let result := calculateTopicsByCategory userProgress in
  map fst result = categories
  /\ (forall c, In c categories ->
        count_of c result
        = length (List.filter (counts_for c) userProgress))
  /\ sum_list (map snd result)
     = length (List.filter
         (fun p => completed p
                   && match snd p with
                      | Some topic =>
                          existsb (String.eqb (Topic.category topic))
                            categories
                      | None => false
                      end) userProgress)
  /\ (sum_list (map snd result)
      <= length (List.filter completed userProgress))%nat.
Proof.
  intros result.
  assert (Hinit : map fst (map (fun c => (c, 0%nat)) categories) = categories)
    by (by rewrite map_map, map_id).
  assert (Hzero : forall c,
            count_of c (map (fun c => (c, 0%nat)) categories) = 0%nat).
  { intros c. unfold count_of.
    destruct (find _ _) as [[k n]|] eqn:Hf; [|done].
    apply find_some in Hf as [Hin _].
    apply in_map_iff in Hin as (x & [= _ <-] & _). done. }
  assert (Hkeys : map fst result = categories).
  { destruct (fold_counts (List.filter completed userProgress) _
                "NLP" Hinit) as [Hk _]; [simpl; tauto|exact Hk]. }
  assert (Hcount : forall c, In c categories ->
            count_of c result
            = length (List.filter (counts_for c) userProgress)).
  { intros c Hc.
    destruct (fold_counts (List.filter completed userProgress) _ c Hinit Hc)
      as [_ Hn].
    subst result. unfold calculateTopicsByCategory.
    by rewrite Hn, Hzero, filter_counts_for. }
  assert (Hsum : sum_list (map snd result)
                 = length (List.filter
                     (fun p => completed p
                               && match snd p with
                                  | Some topic =>
                                      existsb
                                        (String.eqb (Topic.category topic))
                                        categories
                                  | None => false
                                  end) userProgress)).
  { rewrite sum_by_keys by (rewrite Hkeys; apply categories_NoDup).
    rewrite Hkeys, <- (counts_partition _ _ categories_NoDup).
    f_equal. apply map_ext_in. intros c Hc. by apply Hcount. }
  split; [done|]. split; [done|]. split; [done|].
  rewrite Hsum. apply filter_and_le.
Qed.

End CategoryExtras.

Section SkillGapFacts.
Import Models LearningAnalyticsEngine Insights.

Lemma category_not_inherited (c : string) :
  Topic.is_category c = true -> is_inherited c = false.
Proof.
  unfold Topic.is_category. intros Hc.
  apply existsb_exists in Hc as (x & Hin & Heq).
  apply String.eqb_eq in Heq. subst x.
  cbn [In] in Hin. decompose [or] Hin; subst; try reflexivity. done.
Qed.

Lemma no_row_breaks (uid : string) (db : Database) (topics : list Topic.t) :
  Forall (fun t => Topic.is_category (Topic.category t) = true) topics ->
  existsb breaks (progress_with_topics uid db topics) = false.
Proof.
  intros Hvalid. apply not_true_is_false. intros Hex.
  apply existsb_exists in Hex as (p & Hin & Hbreaks).
  unfold progress_with_topics in Hin.
  apply in_map_iff in Hin as (row & <- & _).
  unfold breaks in Hbreaks. cbn [snd] in Hbreaks.
  apply andb_true_iff in Hbreaks as [_ Hinh].
  destruct (find_row Topic.id _ topics) as [t|] eqn:Hfind; [|done].
  apply find_some in Hfind as [Ht _].
  pose proof (proj1 (List.Forall_forall _ _) Hvalid t Ht) as Hcat.
  cbn beta in Hcat. apply category_not_inherited in Hcat. congruence.
Qed.

(** The requirement table of a role the [users] table accepts. *)
Lemma requirements_of_role (role : string) :
  User.is_role role = true ->
  exists a m n c e b t r, requirements role = levels a m n c e b t r.
Proof.
  unfold User.is_role. intros Hrole.
  apply existsb_exists in Hrole as (x & Hin & Heq).
  apply String.eqb_eq in Heq. subst x.
  cbn [In] in Hin. decompose [or] Hin; subst; try done;
    by eexists _, _, _, _, _, _, _, _.
Qed.

Lemma Qmax_nonneg (q : Q) : (0 <= Qmax 0 q)%Q.
Proof.
  unfold Qmax. destruct (Qle_bool 0 q) eqn:Hq; [|apply Qle_refl].
  by apply Qle_bool_iff.
Qed.

End SkillGapFacts.

Section SkillGapExtras.
Import Models LearningAnalyticsEngine Insights.

(** X22. The skill gaps of a user whose role the [users] table
    accepts, over a [topics] table whose categories are those of its ENUM
    column: one entry for each of the eight categories, each with the
    level the role's table requires and a gap that is not negative, the
    largest gap first. A role without a table of its own ("Other", the
    default of the column) is measured against the requirements of a
    PM. *)
Theorem skill_gaps_ranked (uid role : string) (db : Database)
    (topics : list Topic.t) :
  User.is_role role = true ->
  Forall (fun t => Topic.is_category (Topic.category t) = true) topics ->
  let r := calculateSkillGaps uid role db topics in
  Permutation (map category r) categories
  /\ StronglySorted (fun a b => (gap b <= gap a)%Q) r
  /\ Forall (fun g => (0 <= gap g)%Q
                      /\ In (category g, requiredLevel g) (requirements role))
       r
  /\ (role <> "Designer" -> role <> "Executive" -> role <> "Developer" ->
      r = calculateSkillGaps uid "PM" db topics).
Proof.
  intros Hrole Htopics r. subst r. unfold calculateSkillGaps.
  rewrite (no_row_breaks uid db topics Htopics).
  set (rows := progress_with_topics uid db topics).
  set (gaps := map (skill_gap rows) (requirements role)).
  assert (Hperm : Permutation gaps (Arrays.sort smaller_gap gaps))
    by apply sort_perm.
  split; [|split; [|split]].
  - rewrite <- Hperm. subst gaps. rewrite map_map. cbn [category skill_gap].
    destruct (requirements_of_role role Hrole)
      as (a & m & n & c & e & b & t & r & ->).
    reflexivity.
  - apply sort_sorted.
    + intros x y z Hxy Hyz. by apply (Qle_trans _ (gap y)).
    + intros x y Hxy. unfold smaller_gap in Hxy.
      apply negb_false_iff in Hxy. by apply Qle_bool_iff.
    + intros x y Hxy. unfold smaller_gap in Hxy.
      apply negb_true_iff in Hxy. apply Qlt_le_weak, Qnot_le_lt.
      intros Hle. apply Qle_bool_iff in Hle. congruence.
  - apply (Permutation_Forall Hperm). subst gaps.
    apply List.Forall_forall. intros g Hg.
    apply in_map_iff in Hg as ([k v] & <- & Hin).
    split; [apply Qmax_nonneg|exact Hin].
  - intros Hd He Hv. subst gaps.
    assert (Hsame : requirements role = requirements "PM"); [|by rewrite Hsame].
    unfold User.is_role in Hrole.
    apply existsb_exists in Hrole as (x & Hin & Heq).
    apply String.eqb_eq in Heq. subst x.
    cbn [In] in Hin. decompose [or] Hin; subst; done.
Qed.

End SkillGapExtras.

Section RecommendationFacts.
Import Models LearningAnalyticsEngine Insights.
Variable numberText : Q -> string.

Lemma focus_list (gaps : list SkillGap) :
  let r1 := flat_map (fun g => if negb (Qle_bool (gap g) 2)
                               then [focus numberText g] else []) gaps in
  (length r1 <= length gaps)%nat
  /\ ~ In fallback_recommendation r1
  /\ (r1 = [] <-> Forall (fun g => (gap g <= 2)%Q) gaps).
Proof.
  induction gaps as [|g gaps (Hlen & Hnot & Hnil)]; cbn [flat_map length].
  - repeat split; try done; try lia. tauto.
  - destruct (Qle_bool (gap g) 2) eqn:Hg; cbn [negb app length].
    + split; [lia|]. split; [done|]. rewrite Hnil. split.
      * intros Hall. constructor; [by apply Qle_bool_iff|done].
      * intros Hall. by inversion Hall.
    + split; [lia|]. split.
      * intros [Heq|Hin]; [discriminate Heq|done].
      * split; [done|]. intros Hall. inversion Hall as [|? ? Hle _]; subst.
        apply Qle_bool_iff in Hle. congruence.
Qed.

Lemma firstn_short {A} (n : nat) (l : list A) :
  (length l <= n)%nat -> firstn n l = l.
Proof.
  revert l. induction n as [|n IH]; intros [|x l]; simpl; try done; try lia.
  intros Hlen. rewrite IH; [done|lia].
Qed.

End RecommendationFacts.

Section RecommendationExtras.
Import Models LearningAnalyticsEngine Insights.

(** X23. [generateRecommendations] always answers with at least one
    and at most five recommendations, and the cut to five never removes
    one. The fallback "Keep up the great work! ..." is given exactly when
    nothing else is: none of the first three gaps exceeds 2, the velocity
    lies between 1 and 3, and the user has a session in the last seven
    days; it never appears beside another recommendation. *)
Theorem recommendations_are_one_to_five (numberText : Q -> string)
    (uid : string) (skillGaps : list SkillGap) (learningVelocity : Q)
    (db : Database) (now : Z) :
  let r := generateRecommendations numberText uid skillGaps learningVelocity
             db now in
  let active :=
    List.filter
      (fun s => String.eqb (LearningSession.userId s) uid
                && (now - seven_days <=? LearningSession.startTime s)%Z)
      (learningSessions db) in
  (1 <= length r <= 5)%nat
  /\ r = recommendations numberText uid skillGaps learningVelocity db now
  /\ (r = [fallback_recommendation]
      <-> Forall (fun g => (gap g <= 2)%Q) (firstn 3 skillGaps)
          /\ (1 <= learningVelocity)%Q /\ (learningVelocity <= 3)%Q
          /\ active <> [])
  /\ (In fallback_recommendation r -> r = [fallback_recommendation]).
Proof.
  intros r active.
  destruct (focus_list numberText (firstn 3 skillGaps))
    as (Hlen & Hnot & Hnil).
  set (r1 := flat_map _ (firstn 3 skillGaps)) in *.
  assert (Hlen3 : (length r1 <= 3)%nat).
  { pose proof (length_firstn 3 skillGaps) as Hf. lia. }
  set (m2 := if negb (Qle_bool 1 learningVelocity) then
               ["Try to complete at least 1 topic per week to maintain steady progress"]
             else if negb (Qle_bool learningVelocity 3) then
               ["Great pace! Consider spending more time on practice scenarios to deepen your understanding"]
             else []).
  set (m3 := if (length active =? 0)%nat then
               ["You haven't learned anything this week. Try to maintain a consistent learning schedule"]
             else []).
  set (r3 := ((r1 ++ m2) ++ m3)%list).
  assert (Hr : r = firstn 5 (if (length r3 =? 0)%nat
                             then (r3 ++ [fallback_recommendation])%list
                             else r3)).
  { subst r r3 m2 m3. unfold generateRecommendations, recommendations.
    fold active. fold r1.
    destruct (negb (Qle_bool 1 learningVelocity)),
      (negb (Qle_bool learningVelocity 3)), (length active =? 0)%nat;
      by rewrite ?app_nil_r. }
  assert (Hm2 : (length m2 <= 1)%nat /\ ~ In fallback_recommendation m2
                /\ (m2 = [] <-> (1 <= learningVelocity)%Q
                                /\ (learningVelocity <= 3)%Q)).
  { subst m2. rewrite <- !Qle_bool_iff.
    destruct (Qle_bool 1 learningVelocity), (Qle_bool learningVelocity 3);
      cbn [negb length In]; (split; [lia|]);
      (split; [intros Hin;
               repeat (destruct Hin as [Hin|Hin]; [discriminate Hin|]);
               exact Hin|]);
      split; try done; by intros [? ?]. }
  assert (Hm3 : (length m3 <= 1)%nat /\ ~ In fallback_recommendation m3
                /\ (m3 = [] <-> active <> [])).
  { subst m3. destruct active as [|s0 rest]; cbn [length Nat.eqb In].
    - split; [lia|]. split; [intros [E|E]; [discriminate E|exact E]|].
      by split.
    - split; [lia|]. split; [tauto|]. by split. }
  destruct Hm2 as (Hl2 & Hn2 & He2). destruct Hm3 as (Hl3 & Hn3 & He3).
  assert (Hl : (length r3 <= 5)%nat).
  { subst r3. rewrite !length_app. lia. }
  assert (Hn : ~ In fallback_recommendation r3).
  { subst r3. rewrite !in_app_iff. tauto. }
  assert (He : r3 = [] <-> r1 = [] /\ m2 = [] /\ m3 = []).
  { subst r3. split.
    - intros Happ. apply app_eq_nil in Happ as [Happ ->].
      by apply app_eq_nil in Happ as [-> ->].
    - by intros (-> & -> & ->). }
  assert (Hcase : (r3 = [] /\ r = [fallback_recommendation])
                  \/ (r3 <> [] /\ r = r3)).
  { rewrite Hr. destruct r3 as [|x r3']; [left; by split|right].
    split; [done|]. cbn [length Nat.eqb]. by apply firstn_short. }
  assert (Hall : r = recommendations numberText uid skillGaps
                       learningVelocity db now).
  { assert (Hfive : (length (recommendations numberText uid skillGaps
                               learningVelocity db now) <= 5)%nat).
    { unfold recommendations. fold active. fold r1.
      replace (if negb (Qle_bool 1 learningVelocity) then _
               else if negb (Qle_bool learningVelocity 3) then _ else r1)
        with (r1 ++ m2)%list
        by (subst m2; destruct (negb (Qle_bool 1 learningVelocity)),
              (negb (Qle_bool learningVelocity 3)); by rewrite ?app_nil_r).
      replace (if (length active =? 0)%nat then _ else (r1 ++ m2)%list)
        with r3
        by (subst r3 m3; destruct (length active =? 0)%nat;
            by rewrite ?app_nil_r).
      destruct r3 as [|x r3']; [simpl; lia|exact Hl]. }
    subst r. unfold generateRecommendations. by apply firstn_short. }
  split; [|split; [exact Hall|]].
  { destruct Hcase as [[_ ->]|[Hsome ->]]; [simpl; lia|].
    destruct r3; [done|cbn [length] in *; lia]. }
  clear Hall. destruct Hcase as [[Hnil3 ->]|[Hsome ->]].
  - split; [|done]. split; [|done]. intros _.
    apply He in Hnil3 as (H1 & H2 & H3).
    apply Hnil in H1. apply He2 in H2 as [H2 H2']. apply He3 in H3.
    by repeat split.
  - split; [split|].
    + intros Heq. exfalso. apply Hn. rewrite Heq. by left.
    + intros (Hall & Hv1 & Hv3 & Hact). exfalso. apply Hsome, He.
      split; [by apply Hnil|]. split; [by apply He2|by apply He3].
    + intros Hin. by destruct Hn.
Qed.

End RecommendationExtras.

Section ComparisonExtras.
Import Models LearningAnalyticsEngine Insights.

(** X24. The percentile of [getComparativeAnalytics] is one of 50,
    60, 65, 75, 85, 90 and 95: it never falls below 50, and the lower
    bound 5 of the clamp is never used. "You're performing better than
    most users with your role!" is said exactly when the percentile
    exceeds 75, and "Keep going! There's room for improvement." only at
    percentile 50 with benchmarks given; without a stored user, or with
    fewer than two active users of the role, the percentile is 50 and no
    benchmark is given. *)
Theorem comparison_percentiles (uid : string) (db : Database) (now : Z)
    (currentStreak : nat) :
  let c := getComparativeAnalytics uid db now currentStreak in
  In (percentile c) [50; 60; 65; 75; 85; 90; 95]%Z
  /\ (comparison c
      = "You're performing better than most users with your role!"
      <-> (75 < percentile c)%Z)
  /\ (comparison c = "Keep going! There's room for improvement." ->
      percentile c = 50%Z /\ benchmarks c <> [])
  /\ (benchmarks c = [] -> percentile c = 50%Z)
  /\ (User.findByPk uid (users db) = None ->
      comparison c = "Unable to calculate comparison").
Proof.
  intros c. subst c. unfold getComparativeAnalytics.
  destruct (User.findByPk uid (users db)) as [user|];
    [|cbn; repeat split; try tauto; try lia; try discriminate; done].
  destruct (calculateUserAnalytics uid db now) as [a|];
    [|cbn; repeat split; try tauto; try lia; try discriminate; done].
  destruct (length _ <? 2)%nat;
    [cbn; repeat split; try tauto; try lia; try discriminate; done|].
  destruct (15 <? totalTopicsCompleted a)%nat,
    (negb (Qle_bool (learningVelocity a) (3 # 2))),
    (5 <? currentStreak)%nat;
    cbn; repeat split; try tauto; try lia; try discriminate; done.
Qed.

End ComparisonExtras.

Lemma skill_gaps_ranked_witness :
  User.is_role "Other" = true
  /\ Forall (fun t => Topic.is_category (Topic.category t) = true)
       [Scenarios.ethics_topic]
  /\ Insights.calculateSkillGaps "7b1c-ada" "Other"
       Scenarios.learner_database [Scenarios.ethics_topic]
     = Insights.calculateSkillGaps "7b1c-ada" "PM"
         Scenarios.learner_database [Scenarios.ethics_topic]
  /\ map Insights.category
       (Insights.calculateSkillGaps "7b1c-ada" "Other"
          Scenarios.learner_database [Scenarios.ethics_topic])
     = ["BUSINESS_AI"; "AI_FUNDAMENTALS"; "TRENDS"; "TOOLS";
        "MACHINE_LEARNING"; "NLP"; "COMPUTER_VISION"; "ETHICS"].
Proof.
  assert (Hrole : User.is_role "Other" = true) by reflexivity.
  assert (Htopics : Forall (fun t => Topic.is_category (Topic.category t)
                                     = true) [Scenarios.ethics_topic])
    by (constructor; [reflexivity|constructor]).
  split; [exact Hrole|]. split; [exact Htopics|]. split.
  - apply (skill_gaps_ranked "7b1c-ada" "Other" Scenarios.learner_database
             [Scenarios.ethics_topic] Hrole Htopics); discriminate.
  - vm_compute. reflexivity.
Defined.

(* ===================================================================== *)
(** ** The learning strategist's analysis and the stand-alone server *)
(* ===================================================================== *)

Section StrategistFacts.
Import Strategist.
Context {T : Type}.
Variable category : T -> TopicCategory.

Lemma push_keys (c : TopicCategory) (topic : T) (k : Coverage) (x : TopicCategory) :
  In x (map fst (push c topic k)) <-> x = c \/ In x (map fst k).
Proof.
  induction k as [|[c0 ts] rest IH]; cbn [push map fst In].
  - intuition congruence.
  - destruct (bool_decide_reflect (c0 = c)) as [->|Hne]; cbn [map fst In].
    + intuition congruence.
    + rewrite IH. intuition congruence.
Qed.

Lemma push_spec (c : TopicCategory) (topic : T) (k : Coverage) :
  List.NoDup (map fst k) ->
  List.NoDup (map fst (push c topic k))
  /\ forall c',
       lookup_category c' (push c topic k)
       = if bool_decide (c' = c)
         then Some (default [] (lookup_category c k) ++ [topic])%list
         else lookup_category c' k.
Proof.
  unfold lookup_category.
  induction k as [|[c0 ts] rest IH]; cbn [push map fst]; intros Hnd.
  - split; [constructor; [simpl; tauto|constructor]|].
    intros c'. cbn [find fst].
    destruct (bool_decide_reflect (c' = c)) as [->|Hne].
    + by rewrite bool_decide_eq_true_2.
    + by rewrite bool_decide_eq_false_2.
  - inversion Hnd as [|? ? Hc0 Hrest]; subst.
    destruct (IH Hrest) as [IHnd IHlook].
    destruct (bool_decide_reflect (c0 = c)) as [->|Hne].
    + split; [done|]. intros c'. cbn [find fst].
      rewrite (bool_decide_eq_true_2 (c = c)) by done.
      destruct (bool_decide_reflect (c' = c)) as [->|Hne'].
      * by rewrite bool_decide_eq_true_2.
      * rewrite bool_decide_eq_false_2; [done|]. by intros ->.
    + split.
      * cbn [map fst]. constructor; [|done].
        rewrite push_keys. intros [->|Hin]; done.
      * intros c'. cbn [find fst].
        rewrite (bool_decide_eq_false_2 (c0 = c)) by done.
        destruct (bool_decide_reflect (c0 = c')) as [->|Hne'].
        -- rewrite bool_decide_eq_false_2; [done|]. by intros ->.
        -- apply IHlook.
Qed.

Lemma fold_push (topics : list T) (k : Coverage) :
  List.NoDup (map fst k) ->
  let result := fold_left (fun k topic => push (category topic) topic k)
                  topics k in
  List.NoDup (map fst result)
  /\ forall c,
       lookup_category c result
       = match of_category category c topics with
         | [] => lookup_category c k
         | l => Some (default [] (lookup_category c k) ++ l)%list
         end.
Proof.
  revert k. induction topics as [|topic topics IH]; intros k Hnd;
    cbn [fold_left of_category List.filter].
  - by split.
  - destruct (push_spec (category topic) topic k Hnd) as [Hnd' Hlook].
    destruct (IH _ Hnd') as [Hnd'' Hfold]. split; [done|].
    intros c. rewrite Hfold, !Hlook. unfold of_category.
    destruct (bool_decide_reflect (c = category topic)) as [->|Hne].
    + rewrite bool_decide_eq_true_2 by done. cbn [default].
      destruct (List.filter _ topics); [done|].
      unfold id. by rewrite <- app_assoc.
    + rewrite bool_decide_eq_false_2; [done|]. by intros <-.
Qed.

Lemma lookup_category_In (c : TopicCategory) (ts : list T) (k : Coverage) :
  List.NoDup (map fst k) ->
  lookup_category c k = Some ts <-> In (c, ts) k.
Proof.
  unfold lookup_category.
  induction k as [|[c0 ts0] rest IH]; cbn [find map fst In]; intros Hnd.
  - split; [done|tauto].
  - inversion Hnd as [|? ? Hc0 Hrest]; subst.
    destruct (bool_decide_reflect (c0 = c)) as [->|Hne]; cbn [fmap option_fmap option_map snd].
    + split; [intros [= ->]; by left|].
      intros [[= ->]|Hin]; [done|].
      exfalso. apply Hc0. apply in_map_iff. by exists (c, ts).
    + rewrite (IH Hrest). split; [tauto|].
      intros [[= -> _]|Hin]; [done|exact Hin].
Qed.

(** The keys a filter on the lengths keeps. *)
Lemma filtered_keys (P : nat -> bool) (c : TopicCategory) (k : Coverage) :
  List.NoDup (map fst k) ->
  In c (map fst (List.filter
                   (fun e : TopicCategory * list T => P (length (snd e))) k))
  <-> exists ts, lookup_category c k = Some ts /\ P (length ts) = true.
Proof.
  intros Hnd. rewrite in_map_iff. split.
  - intros ([c' ts] & Hc & Hin). cbn [fst] in Hc. subst c'.
    apply filter_In in Hin as [Hin HP]. exists ts.
    split; [by apply lookup_category_In|done].
  - intros (ts & Hlook & HP). exists (c, ts). split; [done|].
    apply filter_In. split; [by apply lookup_category_In|done].
Qed.

End StrategistFacts.

Section StrategistExtras.
Import Strategist.

(** X25. The analysis of the completed topics sorts every category
    that has a completed topic into exactly one of two lists: a category
    is a strong area exactly when three or more completed topics have it,
    an emerging area exactly when one or two have it. A gap area is one
    of the four core categories without any completed topic; the other
    four categories are never reported as gaps. With no completed topic,
    as the server's learning-path route always passes, all four core
    categories are gaps and nothing is strong or emerging. *)
Theorem knowledge_analysis_areas {T : Type} (category : T -> TopicCategory)
    (completedTopics : list T) :
  let a := analyzeCurrentKnowledge category completedTopics in
  (forall c, lookup_category c (categoryCoverage a)
             = match of_category category c completedTopics with
               | [] => None
               | l => Some l
               end)
  /\ (forall c, In c (strongAreas a)
                <-> (3 <= length (of_category category c completedTopics))%nat)
  /\ (forall c, In c (emergingAreas a)
                <-> (1 <= length (of_category category c completedTopics)
                     <= 2)%nat)
  /\ (forall c, In c (gapAreas a)
                <-> In c core_areas
                    /\ of_category category c completedTopics = [])
  /\ (completedTopics = [] ->
      gapAreas a = core_areas /\ strongAreas a = [] /\ emergingAreas a = []).
Proof.
  intros a.
  destruct (fold_push category completedTopics [] (List.NoDup_nil _))
    as [Hnd Hlook].
  assert (Hcover : forall c,
            lookup_category c (categoryCoverage a)
            = match of_category category c completedTopics with
              | [] => None
              | l => Some l
              end).
  { intros c. subst a. cbn [categoryCoverage analyzeCurrentKnowledge].
    rewrite Hlook. by destruct (of_category category c completedTopics). }
  split; [done|]. split; [|split; [|split]].
  - intros c. subst a. cbn [strongAreas analyzeCurrentKnowledge].
    rewrite (filtered_keys (fun n => (3 <=? n)%nat) c _ Hnd).
    cbn [categoryCoverage analyzeCurrentKnowledge] in Hcover.
    rewrite Hcover. split.
    + intros (ts & Hts & Hn). apply Nat.leb_le in Hn.
      destruct (of_category category c completedTopics); [done|].
      by injection Hts as <-.
    + intros Hn.
      destruct (of_category category c completedTopics) as [|t l];
        [simpl in Hn; lia|].
      exists (t :: l). split; [done|]. by apply Nat.leb_le.
  - intros c. subst a. cbn [emergingAreas analyzeCurrentKnowledge].
    rewrite (filtered_keys (fun n => (n =? 1)%nat || (n =? 2)%nat) c _ Hnd).
    cbn [categoryCoverage analyzeCurrentKnowledge] in Hcover.
    rewrite Hcover. split.
    + intros (ts & Hts & Hn).
      apply orb_true_iff in Hn as [Hn|Hn]; apply Nat.eqb_eq in Hn;
        (destruct (of_category category c completedTopics); [done|]);
        injection Hts as <-; lia.
    + intros Hn.
      destruct (of_category category c completedTopics) as [|t l];
        [simpl in Hn; lia|].
      exists (t :: l). split; [done|].
      apply orb_true_iff.
      destruct (Nat.eq_dec (length (t :: l)) 1) as [H1|H1];
        [left|right]; apply Nat.eqb_eq; lia.
  - intros c. subst a. cbn [gapAreas analyzeCurrentKnowledge].
    rewrite filter_In.
    cbn [categoryCoverage analyzeCurrentKnowledge] in Hcover.
    rewrite Hcover.
    destruct (of_category category c completedTopics); split;
      intros [Hcore Hgap]; by split.
  - intros ->. by subst a.
Qed.

End StrategistExtras.

Section StandaloneExtras.
Import SimpleServer.

(** X26. In the stand-alone server a completion that is not JSON
    never fails a request: each of the three routes that parse one
    answers with a success and its fixed fallback, and the newsletter
    route stores the fallback topic. A completion that parses is passed on
    unchecked by the learning-path and research routes, whatever value it
    is, while the newsletter route answers 500 and stores nothing when the
    value is not an array; without an API key all three answer 400. *)
Theorem standalone_fallbacks
    (complete : list (string * string) -> Outcome (option string))
    (stored_topic : option string -> Json.json -> Json.json)
    (reply content : string) (source : option string)
    (topics : list Json.json) (targetRole : string) (timeframe : Z)
    (query depth : string) (researchTopics : list string) :
  (forall messages, complete messages = Returned (Some reply)) ->
  (Json.JSON_parse reply = None ->
   process_newsletter (Some complete) stored_topic content source topics
   = (Server.Success (Json.JArr [fallback_topic]),
      (topics ++ [stored_topic source fallback_topic])%list)
   /\ generate_learning_path (Some complete) targetRole timeframe
      = Server.Success (fallback_path targetRole timeframe)
   /\ conduct_research (Some complete) query researchTopics depth
      = Server.Success (fallback_research query))
  /\ (forall v,
        Json.JSON_parse reply = Some v ->
        generate_learning_path (Some complete) targetRole timeframe
        = Server.Success v
        /\ conduct_research (Some complete) query researchTopics depth
           = Server.Success v
        /\ (Json.isArray v = false ->
            exists message,
              process_newsletter (Some complete) stored_topic content source
                topics
              = (Server.Failure 500 message, topics)))
  /\ process_newsletter None stored_topic content source topics
     = (Server.Failure 400 "OpenAI API key not configured", topics)
  /\ generate_learning_path None targetRole timeframe
     = Server.Failure 400 "OpenAI API key not configured"
  /\ conduct_research None query researchTopics depth
     = Server.Failure 400 "OpenAI API key not configured".
Proof.
  intros Hreply.
  split; [|split; [|done]].
  - intros Hparse.
    unfold process_newsletter, generate_learning_path, conduct_research.
    rewrite !Hreply. unfold parse_content. by rewrite Hparse.
  - intros v Hparse.
    unfold process_newsletter, generate_learning_path, conduct_research.
    rewrite !Hreply. unfold parse_content. rewrite Hparse.
    split; [done|]. split; [done|].
    intros Harray.
    destruct v; try (simpl in Harray; discriminate Harray); by eexists.
Qed.

End StandaloneExtras.

Lemma standalone_fallbacks_witness :
  (forall messages,
     Examples.prose_completion messages = Returned (Some Examples.prose_reply))
  /\ Json.JSON_parse Examples.prose_reply = None
  /\ SimpleServer.generate_learning_path (Some Examples.prose_completion)
       "PM" 30
     = Server.Success (SimpleServer.fallback_path "PM" 30).
Proof.
  assert (Hreply : forall messages,
            Examples.prose_completion messages
            = Returned (Some Examples.prose_reply)) by reflexivity.
  assert (Hparse : Json.JSON_parse Examples.prose_reply = None)
    by (vm_compute; reflexivity).
  split; [exact Hreply|]. split; [exact Hparse|].
  exact (proj1 (proj2 (proj1 (standalone_fallbacks Examples.prose_completion
           (fun _ j => j) Examples.prose_reply "A newsletter." None []
           "PM" 30 "agents" "detailed" [] Hreply) Hparse))).
Defined.

Section WeekExtras.
Import Insights.

(** X27. [getWeekStart] answers with the Monday of the week of the
    date, at the same time of day: the result is a Monday, it is at most
    six whole days before the date and never after it, and the week start
    of a week start is itself. A Sunday belongs to the week that began six
    days before. *)
Theorem getWeekStart_is_monday (date : Z) :
  getDay (getWeekStart date) = 1%Z
  /\ (exists k, (0 <= k <= 6)%Z
                /\ getWeekStart date = (date - k * day_length)%Z
                /\ (getDay date = 0%Z -> k = 6%Z)
                /\ (getDay date <> 0%Z -> k = (getDay date - 1)%Z))
  /\ (getWeekStart date mod day_length = date mod day_length)%Z
  /\ getWeekStart (getWeekStart date) = getWeekStart date.
Proof.
  assert (Hlen : (0 < day_length)%Z) by reflexivity.
  assert (Hshift : forall t k,
            day_of (t + k * day_length) = (day_of t + k)%Z).
  { intros t k. unfold day_of. by rewrite Z.div_add. }
  assert (Hday : (0 <= getDay date < 7)%Z)
    by (unfold getDay; apply Z.mod_pos_bound; lia).
  assert (Hmonday : getDay (getWeekStart date) = 1%Z).
  { unfold getWeekStart. unfold getDay at 1. rewrite Hshift.
    unfold getDay in *.
    destruct (Z.eqb_spec ((day_of date + 4) mod 7) 0) as [H0|H0].
    - rewrite H0.
      replace (day_of date + (-0 + -6) + 4)%Z
        with ((day_of date + 4) + (-1) * 7 + 1)%Z by lia.
      rewrite <- Z.add_assoc, (Z.add_comm (-1 * 7)), Z.add_assoc.
      rewrite Z.mod_add by lia.
      rewrite <- Zplus_mod_idemp_l, H0. reflexivity.
    - pose proof (Z.div_mod (day_of date + 4) 7 ltac:(lia)) as Hdm.
      set (q := ((day_of date + 4) / 7)%Z) in *.
      set (r := ((day_of date + 4) mod 7)%Z) in *.
      replace (day_of date + (- r + 1) + 4)%Z with (1 + q * 7)%Z by lia.
      by rewrite Z.mod_add by lia. }
  split; [exact Hmonday|]. split; [|split].
  - unfold getWeekStart.
    destruct (Z.eqb_spec (getDay date) 0) as [H0|H0].
    + exists 6%Z. rewrite H0. repeat split; lia.
    + exists (getDay date - 1)%Z. repeat split; lia.
  - unfold getWeekStart. by rewrite Z.mod_add by lia.
  - unfold getWeekStart at 1. rewrite Hmonday. simpl. lia.
Qed.

End WeekExtras.

Section AccountRouteExtras.
Import AuthService Routes.
Context `{Libraries}.

(** X28. The sign-in route hands the [email] and [password] of the
    body to [login] unchecked. On two strings it answers what [login]
    answers. Every failure is answered with status 401 and a message that
    begins "Login failed: ", and leaves the table of users as it is. With
    two strings the message is "Login failed: Invalid email or password"
    whether the address is unknown or the password wrong. With a password
    that is not a string (left out, say) the answer tells a stored address
    from an unknown one: "Login failed: Illegal arguments: " with the type
    of the password and ", string" for the first, the usual message for
    the second. A success needs a string password that the library accepts
    against the hash of the user found. *)
Theorem login_route_answers (authService : AuthService.t)
    (findOne_other : Field -> list User.t -> Outcome (option User.t))
    (email password : Field) (now : Z) (table : list User.t) :
  let reply := post_login authService findOne_other email password now table in
  (forall e pw, email = Text e -> password = Text pw ->
     reply = match login authService e pw now table with
             | (Returned result, table') => (Ok result, table')
             | (Threw m, table') => (Error 401 m, table')
             end)
  /\ (forall status m table',
        reply = (Error status m, table') ->
        status = 401%nat /\ table' = table
        /\ exists reason, m = "Login failed: " +:+ reason)
  /\ (forall e pw status m table',
        email = Text e -> password = Text pw ->
        reply = (Error status m, table') ->
        m = "Login failed: Invalid email or password")
  /\ (forall e,
        email = Text e -> User.findOne e table = None ->
        reply = (Error 401 "Login failed: Invalid email or password", table))
  /\ (forall e u,
        email = Text e -> User.findOne e table = Some u ->
        (forall pw, password <> Text pw) ->
        reply = (Error 401 ("Login failed: Illegal arguments: "
                            +:+ typeof password +:+ ", string"), table))
  /\ (forall result table',
        reply = (Ok result, table') ->
        exists pw u,
          password = Text pw
          /\ findOne_any findOne_other email table = Returned (Some u)
          /\ bcrypt_compare pw (User.password u) = true
          /\ UserProfile.id (fst result) = User.id u
          /\ UserProfile.lastActive (fst result) = now).
Proof.
  intros reply.
  assert (Htyped : forall e pw,
            login_any authService findOne_other (Text e) (Text pw) now table
            = login authService e pw now table).
  { intros e pw. unfold login_any, login, findOne_any, compare_any.
    destruct (User.findOne e table) as [u|]; [|done].
    by destruct (bcrypt_compare pw (User.password u)). }
  assert (Hfail : forall status m table',
            reply = (Error status m, table') ->
            status = 401%nat /\ table' = table
            /\ exists reason, m = "Login failed: " +:+ reason).
  { intros status m table'. unfold reply, post_login, login_any.
    destruct (findOne_any findOne_other email table) as [[u|]|m0];
      [|intros [= <- <- <-]; split; [done|split; [done|by eexists]]..].
    destruct (compare_any password (User.password u)) as [[|]|m0];
      [|intros [= <- <- <-]; split; [done|split; [done|by eexists]]..].
    by rewrite login_update_succeeds. }
  split.
  { intros e pw -> ->. unfold reply, post_login. by rewrite Htyped. }
  split; [exact Hfail|]. split.
  { intros e pw status m table' -> ->. unfold reply, post_login.
    rewrite Htyped. unfold login.
    destruct (User.findOne e table) as [u|]; [|by intros [= _ <- _]].
    destruct (negb (bcrypt_compare pw (User.password u)));
      [by intros [= _ <- _]|].
    by rewrite login_update_succeeds. }
  split.
  { intros e -> Hnone. unfold reply, post_login, login_any, findOne_any.
    by rewrite Hnone. }
  split.
  { intros e u -> Hfind Hpw.
    unfold reply, post_login, login_any, findOne_any. rewrite Hfind.
    destruct password as [| | | |pw|]; try done. by destruct (Hpw pw). }
  intros result table'. unfold reply, post_login, login_any.
  destruct (findOne_any findOne_other email table) as [[u|]|m0]; try done.
  destruct password as [| | | |pw|]; try done. cbn [compare_any].
  destruct (bcrypt_compare pw (User.password u)) eqn:Hcmp; [|done].
  rewrite login_update_succeeds. intros [= <- _].
  exists pw, u. by repeat split.
Qed.

End AccountRouteExtras.
